(* ===== verification/_CoqProject ===== *)
-Q . S2P
Prelude.v
Nbdev.v
Categorize.v
ParentLabeller.v
ColReader.v
Splitter.v
DataLoaders.v
TaskDatasets.v
Learner.v
Tuner.v
