(* ===== verification/Prelude.v ===== *)
(** * A verification development for adaptnlp's training core

    The program is [src/adaptnlp/training/core.py]: the training layer of
    adaptnlp over fastai, HuggingFace transformers and datasets, and
    torch.  Its parts and how they meet:
    - label utilities: [Categorize]/[MultiCategorize] (vocabulary and
      label encoding), [ParentLabeller], [ColReader] and [RandomSplitter];
    - [TaskDatasets], which binds a train and a validation dataset to a
      tokenizer, tokenizes both splits and builds the loaders;
    - [AdaptiveDataLoaders], the loader bundle [TaskDatasets.dataloaders]
      returns, whose [show_batch] decodes inputs through the tokenizer and
      labels through an attached encoder or the tokenizer;
    - [_AdaptiveLearner], the fastai [Learner] whose [_split] and
      [_do_one_batch] take dictionary batches, and [AdaptiveTuner] with
      [Strategy], the facade that builds it from a bundle and fine-tunes,
      saves and loads;
    - [src/adaptnlp/_nbdev.py], the index nbdev generates for the
      documentation: every exported name and its notebook.

    The files, in dependency order:
    - [Prelude] (this file): Python's semantics as the modules share them:
      exceptions ([exn]), fallible values ([result]), statement sequences
      over a store ([PyM], a state and exception monad whose store survives
      a [raise]), indexing with negative indices and clamped slicing,
      Python values ([pyval]) with [repr]/[str]/[len]/[str.title], and
      [pathlib] paths; the automation ([pym_unfold], [py_decide], the hint
      databases [pyrun] and [pyrw]) and the generic lemmas.
    - [Nbdev]: the generated tables ([index], a dictionary literal read
      with Python's semantics by [py_dict]; [modules]; [doc_url];
      [git_url]; [custom_doc_links]) and [core.py]'s [__all__] and header.
    - [Categorize]: module [LabelEncoder]; the record [categorize] is the
      object's [classes] and [o2i]; [Categorize], [map_objs], [map_ids],
      [call], [decode], [MultiCategorize], [multi_call], [multi_decode]
      are the methods.  Labels are any type with the [PyLabel] protocol;
      the class [LabelCodec] is the interface [show_batch] uses, and the
      encoders are its instances.
    - [ParentLabeller]: module [ParentLabel], [_do_level] and [call].
    - [ColReader]: module [StrSplit] ([str.split] with a separator) and
      module [ColRead] (rows as [dict], pandas [Series] or tuples;
      [ColReader_init], [_do_one], [call]).
    - [Splitter]: module [Split], [RandomSplitter] over a [TorchRNG]
      generator interface ([manual_seed], [randperm]).
    - [DataLoaders]: module [Loaders]; [AdaptiveDataLoaders_init],
      [first_batch], [show_batch] with its raw and decoded branches.
    - [TaskDatasets]: module [Tasks]; the store [td_world] holds a heap of
      dictionaries (so the shared default [tokenize_kwargs={}] of
      [__init__] is one location), the printed lines and [self];
      [TaskDatasets_init], [adjust_kwargs], [set_tokenizer], [_tokenize],
      [getitem], [set_classes], [dataloaders].  [Dataset.map] is [hf_map].
    - [Learner]: module [Learn]; the store is the learner's attributes and
      the trace of events, backward passes, optimizer steps and gradient
      resets; [_split], [_do_one_batch], and fastai's [_with_events] and
      batch loop ([all_batches]).
    - [Tuner]: [Strategy], module [Tune]; model objects are numbered so
      that the tuner's and the learner's references to one module are
      visible; the class of [self] is its method resolution order
      ([tn_mro]: [AdaptiveTuner] alone, or the class [expose_fastai]
      rebuilds over [AdaptiveTuner] and [_AdaptiveLearner]), and
      [getattr_self] is Python's attribute lookup on the instance and its
      classes; [AdaptiveTuner_init], [tune], [lr_find], [save], [load],
      [predict], [export].
    Library services (tokenizer calls, [from_pretrained], the model's
    forward pass, callbacks, the optimizer, the process rank) are section
    parameters: the theorems hold for every behaviour of them.

    The theorems, by group:
    - invariants and refinement: a session of calls on a tuner never
      replaces the learner's model and trains only it
      ([session_trains_learner_model]); every vocabulary is well formed
      ([Categorize_wf]); the sorted vocabulary is the unique increasing
      enumeration ([Categorize_sorted_spec]) and the insertion sort agrees
      with a reference merge sort ([sorted_merge_sort]); every completed
      batch loop leaves well-formed training traces ([all_batches_trace])
      and, under its preconditions, completes ([all_batches_completes]);
    - round trips: [map_objs]/[map_ids], [MultiCategorize] encode/decode,
      [str.split]/join;
    - the functional behaviour of each operation on its branches, errors
      included: labels of [ParentLabeller], [ColReader]'s formats and its
      result type, the split sizes of [RandomSplitter], the rows of the
      first batch a loader gives ([first_batch_sample]), [show_batch]'s
      tables, [__getitem__], [_tokenize], [_split] and [_do_one_batch], [tune], [save],
      [load], the attribute lookup after [__init__] and the object a
      fitting strategy runs on with and without [expose_fastai], and the
      composition [dataloaders] → [AdaptiveTuner];
    - the behaviours where code and specification part (listed as
      findings in the manifest): the shared default dictionary
      ([default_kwargs_shared]), [load] detaching the trained model
      ([load_detaches_model]), the unpopped [cbs] keyword, the raw
      [show_batch] table never displayed, [int()] truncation in the
      splitter, the names [core.py] exports that the generated index
      lacks ([index_core_missing]), and others.

    Fuel and bounds: [ParentLabeller] recursion gets the recursion limit
    as fuel and raises [RecursionError] when it runs out; the theorems
    need only [fuel ≥ level], and a level below 1 is shown to fail for
    every fuel.  [str.split] runs with fuel [len(s)+1], enough because
    each round consumes at least one character, and any larger fuel gives
    the same pieces ([py_split_terminates]).
    [Dataset.map]'s batching uses fuel [len(ds)], one batch per row at
    most.  Integers are [Z] (Python's are unbounded); indices into lists
    are [nat] after [py_norm_index].

    Not modelled: every function and class of [core.py] and every table of
    [_nbdev.py] has its definition; what remains are the libraries the
    code only calls.  The tokenizer's own call, which [_base_tok] makes,
    is a parameter of [TaskDatasets]; what a method found on the tuner
    does when [tune] calls it ([call_self]) is a parameter; the internals
    of fastai's training loop, the tokenizers, models, torch, HF datasets
    and pandas are abstracted by the section parameters and interfaces
    above; the import lines of [core.py] and the [__all__] of [_nbdev.py]
    are not modelled.  Moving
    tensors to a device is the identity. *)

From stdpp Require Import base gmap strings list pretty.
From Stdlib Require Import ZArith Lia.

(** * Python exceptions *)

Inductive exn_kind :=
  | KeyError | ValueError | IndexError | TypeError | AttributeError
  | NameError | RuntimeError | NotImplementedError | RecursionError | StopIteration
  | CancelStepException | CancelBatchException | OSError | OverflowError | AssertionError.

#[export] Instance exn_kind_eq_dec : EqDecision exn_kind.
Proof. solve_decision. Defined.

(** An exception: its class and its message. *)
Record exn := PyExn { exn_cls : exn_kind; exn_msg : string }.

(** * Fallible values *)

Inductive result (A : Type) : Type :=
  | Ok (a : A)
  | Err (e : exn).
Arguments Ok {A} a.
Arguments Err {A} e.

#[export] Instance result_ret : MRet result := λ A a, Ok a.
#[export] Instance result_bind : MBind result :=
  λ A B f r, match r with Ok a => f a | Err e => Err e end.
#[export] Instance result_fmap : FMap result :=
  λ A B f r, match r with Ok a => Ok (f a) | Err e => Err e end.

Definition is_ok {A} (r : result A) : bool :=
  match r with Ok _ => true | Err _ => false end.

Definition err_kind {A} (r : result A) : option exn_kind :=
  match r with Ok _ => None | Err e => Some (exn_cls e) end.

(** [ [f(x) for x in xs] ] where [f] may raise: the first exception
    aborts the comprehension. *)
Fixpoint res_map {A B} (f : A → result B) (l : list A) : result (list B) :=
  match l with
  | [] => Ok []
  | x :: l' =>
      match f x with
      | Ok y => match res_map f l' with Ok ys => Ok (y :: ys) | Err e => Err e end
      | Err e => Err e
      end
  end.

(** * Stateful code: state and exceptions

    [PyM σ A] is a Python statement sequence over a mutable store [σ]: it
    returns the new store together with a value or an exception.  The store
    is returned also when an exception is raised, because Python keeps the
    mutations made before a [raise]. *)

Definition PyM (σ A : Type) : Type := σ → σ * result A.

#[export] Instance pym_ret {σ} : MRet (PyM σ) := λ A a s, (s, Ok a).
#[export] Instance pym_bind {σ} : MBind (PyM σ) :=
  λ A B f c s,
    match c s with
    | (s', Ok a) => f a s'
    | (s', Err e) => (s', Err e)
    end.

Definition throw {σ A} (e : exn) : PyM σ A := λ s, (s, Err e).
Definition gets {σ A} (f : σ → A) : PyM σ A := λ s, (s, Ok (f s)).
Definition modify {σ} (f : σ → σ) : PyM σ unit := λ s, (f s, Ok ()).
Definition lift {σ A} (r : result A) : PyM σ A := λ s, (s, r).

(** A call that only advances the store, such as drawing from a generator. *)
Definition step {σ A} (f : σ → A * σ) : PyM σ A := λ s, let '(a, s') := f s in (s', Ok a).

(** [try: c except k: h] for one exception class. *)
Definition catch {σ A} (k : exn_kind) (c : PyM σ A) (h : exn → PyM σ A) : PyM σ A :=
  λ s, match c s with
       | (s', Err e) => if decide (exn_cls e = k) then h e s' else (s', Err e)
       | r => r
       end.

(** * Python sequences

    Python indexing [l[i]] accepts negative [i] (counted from the end) and
    raises [IndexError] out of range; slicing [l[:i]], [l[i:]] clamps its
    bound instead of raising. *)

Definition py_norm_index (n : nat) (i : Z) : option nat :=
  if (i <? 0)%Z then
    (if (Z.of_nat n + i <? 0)%Z then None else Some (Z.to_nat (Z.of_nat n + i)))
  else if (i <? Z.of_nat n)%Z then Some (Z.to_nat i) else None.

Definition py_index {A} (l : list A) (i : Z) : result A :=
  match py_norm_index (length l) i ≫= λ k, l !! k with
  | Some x => Ok x
  | None => Err (PyExn IndexError "list index out of range")
  end.

Definition py_slice_bound (n : nat) (i : Z) : nat :=
  if (i <? 0)%Z then Z.to_nat (Z.max 0 (Z.of_nat n + i))
  else Z.to_nat (Z.min i (Z.of_nat n)).

Definition py_slice_to {A} (l : list A) (i : Z) : list A :=
  take (py_slice_bound (length l) i) l.
Definition py_slice_from {A} (l : list A) (i : Z) : list A :=
  drop (py_slice_bound (length l) i) l.

(** * Python values

    The values the modelled code reads from rows and batches: [None],
    booleans, integers, strings, lists, and [PyObj d] for any other object
    (a method, an accessor), described by [d]. *)

Inductive pyval :=
  | PyNone
  | PyBool (b : bool)
  | PyInt (z : Z)
  | PyStr (s : string)
  | PyList (vs : list pyval)
  | PyObj (descr : string).

(** [repr(v)]; strings are quoted with ['] (quotes inside are not escaped). *)
Fixpoint py_repr (v : pyval) : string :=
  match v with
  | PyNone => "None"
  | PyBool b => if b then "True" else "False"
  | PyInt z => pretty z
  | PyStr s => "'" +:+ s +:+ "'"
  | PyList vs => "[" +:+ String.concat ", " (map py_repr vs) +:+ "]"
  | PyObj d => "<" +:+ d +:+ ">"
  end.

(** [str(v)], which f-strings use: [repr] except for strings. *)
Definition py_str (v : pyval) : string :=
  match v with PyStr s => s | _ => py_repr v end.

(** [len(v)] *)
Definition py_len (v : pyval) : result nat :=
  match v with
  | PyStr s => Ok (String.length s)
  | PyList vs => Ok (length vs)
  | _ => Err (PyExn TypeError "object has no len()")
  end.

(** [str.title()] on ASCII text: a letter is upper-cased when it starts a
    run of letters and lower-cased inside one; other characters are kept. *)
Definition ascii_is_upper (c : Ascii.ascii) : bool :=
  bool_decide (65 ≤ Ascii.nat_of_ascii c ≤ 90).
Definition ascii_is_lower (c : Ascii.ascii) : bool :=
  bool_decide (97 ≤ Ascii.nat_of_ascii c ≤ 122).

Fixpoint py_title_go (prev_cased : bool) (s : string) : string :=
  match s with
  | EmptyString => EmptyString
  | String c s' =>
      let c' := if prev_cased then
                  (if ascii_is_upper c then Ascii.ascii_of_nat (Ascii.nat_of_ascii c + 32) else c)
                else
                  (if ascii_is_lower c then Ascii.ascii_of_nat (Ascii.nat_of_ascii c - 32) else c) in
      String c' (py_title_go (ascii_is_upper c || ascii_is_lower c) s')
  end.

Definition py_title (s : string) : string := py_title_go false s.

(** * [pathlib.Path]

    A path is absolute or relative and has a list of components.  As in
    [pathlib], the parent of the root (or of ["."]) is itself and its name is
    the empty string. *)

Record path := mkPath { path_abs : bool; path_parts : list string }.

Definition path_parent (p : path) : path :=
  {| path_abs := path_abs p; path_parts := removelast (path_parts p) |}.

Definition path_name (p : path) : string := default "" (last (path_parts p)).

(** * Automation *)

Create HintDb pyrun discriminated.
Create Rewrite HintDb pyrw.

(** Unfold the [PyM] combinators, so that a statement sequence runs by
    [simpl] on a concrete store. *)
Ltac pym_unfold :=
  unfold mbind, mret, pym_bind, pym_ret, throw, gets, modify, lift, step, catch in *.

(** Close a decidable goal about concrete data by evaluation. *)
Ltac py_decide := apply (bool_decide_unpack _); vm_compute; exact I.

(** * Shared lemmas *)

Lemma res_map_Ok {A B} (f : A → result B) l ys :
  res_map f l = Ok ys ↔ Forall2 (λ x y, f x = Ok y) l ys.
Proof.
  revert ys; induction l as [|x l IH]; intros ys; simpl.
  - split; [intros [= <-]; constructor | intros H; inversion H; done].
  - destruct (f x) as [y|e] eqn:Hf.
    + destruct (res_map f l) as [ys'|e] eqn:Hl.
      * split; [intros [= <-]; constructor; [done | by apply IH]|].
        intros H; inversion H as [|? y' ? ys'' Hy Hys]; subst.
        apply IH in Hys; congruence.
      * split; [done|]. intros H; inversion H as [|? y' ? ys'' Hy Hys]; subst.
        apply IH in Hys; congruence.
    + split; [done|]. intros H; inversion H; congruence.
Qed.

Lemma res_map_length {A B} (f : A → result B) l ys :
  res_map f l = Ok ys → length ys = length l.
Proof. intros H%res_map_Ok. symmetry. by eapply Forall2_length. Qed.

(** The first element on which [f] raises decides the exception. *)
Lemma res_map_Err {A B} (f : A → result B) l1 x l2 e :
  Forall (λ y, is_ok (f y) = true) l1 → f x = Err e →
  res_map f (l1 ++ x :: l2) = Err e.
Proof.
  intros Hok Hx; induction Hok as [|y l1 Hy _ IH]; simpl.
  - by rewrite Hx.
  - destruct (f y); [|done]. by rewrite IH.
Qed.

Lemma res_map_ext {A B} (f g : A → result B) l :
  (∀ x, f x = g x) → res_map f l = res_map g l.
Proof. intros Hfg. induction l as [|x l IH]; simpl; [done|]. by rewrite Hfg, IH. Qed.

Lemma res_map_fmap {A B C} (f : A → result B) (g : B → C) l :
  res_map (λ x, g <$> f x) l = map g <$> res_map f l.
Proof.
  induction l as [|x l IH]; simpl; [done|]. rewrite IH.
  destruct (f x); simpl; [|done]. by destruct (res_map f l).
Qed.

(** A statement sequence that completes ran each of its statements to
    completion. *)
Lemma pym_bind_Ok {σ A B} (c : PyM σ A) (f : A → PyM σ B) s s' b :
  (c ≫= f) s = (s', Ok b) → ∃ s1 a, c s = (s1, Ok a) ∧ f a s1 = (s', Ok b).
Proof. unfold mbind, pym_bind. destruct (c s) as [s1 [a|e]]; [eauto|done]. Qed.

(** The continuation of a statement that completed runs on its store. *)
Lemma pym_bind_ok_l {σ A B} (c : PyM σ A) (f : A → PyM σ B) s s' a :
  c s = (s', Ok a) → (c ≫= f) s = f a s'.
Proof. intros Hc. unfold mbind, pym_bind. by rewrite Hc. Qed.

(** A preorder on stores that a statement and each continuation of it
    respect is respected by their sequence, whether or not it raises. *)
Lemma pym_bind_pres {σ A B} (R : σ → σ → Prop) `{!PreOrder R} (c : PyM σ A) (f : A → PyM σ B) s :
  R s (c s).1 → (∀ a s1, c s = (s1, Ok a) → R s1 (f a s1).1) → R s ((c ≫= f) s).1.
Proof.
  intros Hc Hf. unfold mbind, pym_bind.
  destruct (c s) as [s1 [a|e]] eqn:E; simpl in *; [|done].
  etrans; [exact Hc|]. by apply Hf.
Qed.

(** A run whose outcome is [Ok a] is the pair of its final store and [Ok a]. *)
Lemma run_Ok {σ A} (c : σ * result A) a : c.2 = Ok a → c = (c.1, Ok a).
Proof. destruct c; simpl; congruence. Qed.

(** A comprehension whose body never raises. *)
Lemma res_map_total {A B} (f : A → B) l : res_map (λ x, Ok (f x)) l = Ok (map f l).
Proof. induction l as [|x l IH]; simpl; [done|]. by rewrite IH. Qed.

Lemma py_norm_index_lt n i k : py_norm_index n i = Some k → k < n.
Proof.
  unfold py_norm_index.
  destruct (Z.ltb_spec i 0), (Z.ltb_spec (Z.of_nat n + i) 0),
    (Z.ltb_spec i (Z.of_nat n)); intros [= <-]; lia.
Qed.

Lemma py_index_nat {A} (l : list A) (i : nat) :
  py_index l (Z.of_nat i) = match l !! i with Some x => Ok x
                            | None => Err (PyExn IndexError "list index out of range") end.
Proof.
  unfold py_index, py_norm_index.
  destruct (Z.ltb_spec (Z.of_nat i) 0); [lia|].
  destruct (Z.ltb_spec (Z.of_nat i) (Z.of_nat (length l))); simpl.
  - by rewrite Nat2Z.id.
  - by rewrite (lookup_ge_None_2 l i) by lia.
Qed.

(** A negative index [-k] with [k ≤ len l] reads position [len l - k]. *)
Lemma py_index_neg {A} (l : list A) (k : nat) :
  0 < k ≤ length l → py_index l (- Z.of_nat k) = py_index l (Z.of_nat (length l - k)).
Proof.
  intros Hk. rewrite py_index_nat. unfold py_index, py_norm_index.
  destruct (Z.ltb_spec (- Z.of_nat k) 0); [|lia].
  destruct (Z.ltb_spec (Z.of_nat (length l) + - Z.of_nat k) 0); [lia|]. simpl.
  by replace (Z.to_nat (Z.of_nat (length l) + - Z.of_nat k)) with (length l - k) by lia.
Qed.

Lemma py_slice_to_from {A} (l : list A) i : py_slice_to l i ++ py_slice_from l i = l.
Proof. apply take_drop. Qed.

Lemma py_slice_bound_le n i : py_slice_bound n i ≤ n.
Proof. unfold py_slice_bound. destruct (Z.ltb_spec i 0); lia. Qed.

Lemma length_py_slice_to {A} (l : list A) i :
  length (py_slice_to l i) = py_slice_bound (length l) i.
Proof. unfold py_slice_to. rewrite length_take. pose proof (py_slice_bound_le (length l) i). lia. Qed.

Lemma length_py_slice_from {A} (l : list A) i :
  length (py_slice_from l i) = length l - py_slice_bound (length l) i.
Proof. unfold py_slice_from. by rewrite length_drop. Qed.

Lemma py_slice_bound_nonneg n i :
  (0 ≤ i ≤ Z.of_nat n)%Z → py_slice_bound n i = Z.to_nat i.
Proof. intros H. unfold py_slice_bound. destruct (Z.ltb_spec i 0); lia. Qed.

(** [l[i]] succeeds exactly for [-len l ≤ i < len l]; a negative index
    reads from the end. *)
Lemma py_index_Ok {A} (l : list A) i x :
  py_index l i = Ok x ↔
  ∃ k, l !! k = Some x ∧ (i = Z.of_nat k ∨ i = (Z.of_nat k - Z.of_nat (length l))%Z).
Proof.
  unfold py_index, py_norm_index.
  destruct (Z.ltb_spec i 0); [destruct (Z.ltb_spec (Z.of_nat (length l) + i) 0)|
    destruct (Z.ltb_spec i (Z.of_nat (length l)))]; simpl.
  - split; [done|]. intros (k & Hk & [->| ->]); [lia|].
    apply lookup_lt_Some in Hk. lia.
  - split.
    + destruct (l !! _) eqn:Hk; intros [= <-]. eexists; split; [done|]. lia.
    + intros (k & Hk & [->| ->]); [lia|].
      by replace (Z.to_nat _) with k by lia; rewrite Hk.
  - split.
    + destruct (l !! _) eqn:Hk; intros [= <-]. eexists; split; [done|]. lia.
    + intros (k & Hk & [->| ->]); [by rewrite Nat2Z.id, Hk|].
      apply lookup_lt_Some in Hk. lia.
  - split; [done|]. intros (k & Hk & [->| ->]); apply lookup_lt_Some in Hk; lia.
Qed.

(** An index outside [-len(l) .. len(l)-1] raises [IndexError]. *)
Lemma py_index_oob {A} (l : list A) i :
  (i < - Z.of_nat (length l) ∨ Z.of_nat (length l) ≤ i)%Z →
  py_index l i = Err (PyExn IndexError "list index out of range").
Proof.
  intros Hi. unfold py_index, py_norm_index.
  destruct (Z.ltb_spec i 0); [destruct (Z.ltb_spec (Z.of_nat (length l) + i) 0)|
    destruct (Z.ltb_spec i (Z.of_nat (length l)))]; simpl; try done; lia.
Qed.

Lemma str_length_append s t : String.length (s +:+ t) = String.length s + String.length t.
Proof. induction s as [|c s IH]; simpl; [done|]. by rewrite IH. Qed.

#[export] Hint Resolve py_slice_bound_le py_norm_index_lt : pyrun.
#[export] Hint Rewrite @res_map_total @py_slice_to_from @length_py_slice_to @length_py_slice_from str_length_append : pyrw.
