(* ===== verification/Nbdev.v ===== *)
(** * Nbdev: the generated module index [src/adaptnlp/_nbdev.py]

    nbdev writes, for the documentation tools, [index] (every exported
    name and the notebook that defines it), [modules], [doc_url],
    [git_url] and [custom_doc_links].  The dictionary literal is a list
    of pairs read with Python's semantics ([py_dict]: a later key
    overrides an earlier one).  The file is checked against what
    [src/adaptnlp/training/core.py] says of itself: its [__all__]
    (lines 3-4) and the notebook its header names (line 1). *)

From stdpp Require Import base gmap strings list.
From Stdlib Require Import Ascii.
From S2P Require Import Prelude.

Local Open Scope string_scope.

(** [{k1: v1, k2: v2, ...}]: each pair is inserted in order. *)
Definition py_dict (kvs : list (string * string)) : gmap string string :=
  foldl (λ m kv, <[kv.1 := kv.2]> m) ∅ kvs.

(** The pairs of the literal [index], in the order written. *)
Definition index_items : list (string * string) := [
   ("logger", "13a_transformers.squad_metrics.ipynb");
   ("CACHE_ROOT", "00_file_utils.ipynb");
   ("CACHE_DIRECTORY", "00_file_utils.ipynb");
   ("url_to_filename", "00_file_utils.ipynb");
   ("filename_to_url", "00_file_utils.ipynb");
   ("cached_path", "00_file_utils.ipynb");
   ("is_url_or_existing_file", "00_file_utils.ipynb");
   ("split_s3_path", "00_file_utils.ipynb");
   ("s3_request", "00_file_utils.ipynb");
   ("get_s3_resource", "00_file_utils.ipynb");
   ("s3_etag", "00_file_utils.ipynb");
   ("s3_get", "00_file_utils.ipynb");
   ("session_with_backoff", "00_file_utils.ipynb");
   ("http_get", "00_file_utils.ipynb");
   ("get_from_cache", "00_file_utils.ipynb");
   ("read_set_from_file", "00_file_utils.ipynb");
   ("get_file_extension", "00_file_utils.ipynb");
   ("Tqdm", "00_file_utils.ipynb");
   ("GatherInputsCallback", "01_callback.ipynb");
   ("SetInputsCallback", "01_callback.ipynb");
   ("GeneratorCallback", "01_callback.ipynb");
   ("HFModelResult", "02_model_hub.ipynb");
   ("HFModelHub", "02_model_hub.ipynb");
   ("FLAIR_MODELS", "02_model_hub.ipynb");
   ("FlairModelResult", "02_model_hub.ipynb");
   ("FlairModelHub", "02_model_hub.ipynb");
   ("DataLoader.one_batch", "03_model.ipynb");
   ("GatherPredsCallback.after_validate", "03_model.ipynb");
   ("AdaptiveModel", "03_model.ipynb");
   ("EmbeddingResult", "04_embeddings.ipynb");
   ("EasyWordEmbeddings", "04_embeddings.ipynb");
   ("EasyStackedEmbeddings", "04_embeddings.ipynb");
   ("EasyDocumentEmbeddings", "04_embeddings.ipynb");
   ("TokenClassificationResult", "05_token_classification.ipynb");
   ("TransformersTokenTagger", "05_token_classification.ipynb");
   ("FlairTokenTagger", "05_token_classification.ipynb");
   ("EasyTokenTagger", "05_token_classification.ipynb");
   ("SequenceResult", "06_sequence_classification.ipynb");
   ("TransformersSequenceClassifier", "06_sequence_classification.ipynb");
   ("FlairSequenceClassifier", "06_sequence_classification.ipynb");
   ("EasySequenceClassifier", "06_sequence_classification.ipynb");
   ("TransformersSummarizer", "07_summarization.ipynb");
   ("EasySummarizer", "07_summarization.ipynb");
   ("TranslationResult", "08_translation.ipynb");
   ("TransformersTranslator", "08_translation.ipynb");
   ("EasyTranslator", "08_translation.ipynb");
   ("TransformersTextGenerator", "09_text_generation.ipynb");
   ("EasyTextGenerator", "09_text_generation.ipynb");
   ("QACallback", "10_question_answering.ipynb");
   ("QAResult", "10_question_answering.ipynb");
   ("TransformersQuestionAnswering", "10_question_answering.ipynb");
   ("EasyQuestionAnswering", "10_question_answering.ipynb");
   ("normalize_answer", "13a_transformers.squad_metrics.ipynb");
   ("get_tokens", "13a_transformers.squad_metrics.ipynb");
   ("compute_exact", "13a_transformers.squad_metrics.ipynb");
   ("compute_f1", "13a_transformers.squad_metrics.ipynb");
   ("get_raw_scores", "13a_transformers.squad_metrics.ipynb");
   ("apply_no_ans_threshold", "13a_transformers.squad_metrics.ipynb");
   ("make_eval_dict", "13a_transformers.squad_metrics.ipynb");
   ("merge_eval", "13a_transformers.squad_metrics.ipynb");
   ("find_best_thresh_v2", "13a_transformers.squad_metrics.ipynb");
   ("find_all_best_thresh_v2", "13a_transformers.squad_metrics.ipynb");
   ("find_best_thresh", "13a_transformers.squad_metrics.ipynb");
   ("find_all_best_thresh", "13a_transformers.squad_metrics.ipynb");
   ("squad_evaluate", "13a_transformers.squad_metrics.ipynb");
   ("get_final_text", "13a_transformers.squad_metrics.ipynb");
   ("compute_predictions_logits", "13a_transformers.squad_metrics.ipynb");
   ("compute_predictions_log_probs", "13a_transformers.squad_metrics.ipynb");
   ("SentenceResult", "14_result.ipynb");
   ("ParentLabeller", "14_training.core.ipynb");
   ("ColReader", "14_training.core.ipynb");
   ("Categorize", "14_training.core.ipynb");
   ("RandomSplitter", "14_training.core.ipynb");
   ("TaskDatasets", "14_training.core.ipynb");
   ("AdaptiveTuner", "14_training.core.ipynb");
   ("SequenceClassificationDatasets", "15_training.sequence_classification.ipynb");
   ("SequenceClassificationTuner", "15_training.sequence_classification.ipynb");
   ("LanguageModelDatasets", "16_training.language_model.ipynb");
   ("LanguageModelTuner", "16_training.language_model.ipynb")
  ].

Definition index : gmap string string := py_dict index_items.

Definition modules : list string := [
   "file_utils.py";
   "callback.py";
   "model_hub.py";
   "model.py";
   "embeddings.py";
   "token_classification.py";
   "sequence_classification.py";
   "summarization.py";
   "translation.py";
   "text_generation.py";
   "question_answering.py";
   "transformers/squad_metrics.py";
   "result.py";
   "training/core.py";
   "training/sequence_classification.py";
   "training/language_model.py"
  ].

Definition doc_url : string := "https://novetta.github.io/adaptnlp".

Definition git_url : string := "https://github.com/novetta/adaptnlp/tree/master/".

(** [custom_doc_links(name)] *)
Definition custom_doc_links (name : string) : option string := None.

(** [__all__] of [src/adaptnlp/training/core.py]. *)
Definition core_all : list string :=
  ["Strategy"; "ParentLabeller"; "ColReader"; "Categorize"; "MultiCategorize"; "RandomSplitter";
   "TaskDatasets"; "AdaptiveDataLoaders"; "AdaptiveTuner"].

(** The notebook the header of [core.py] names as its source. *)
Definition core_notebook : string := "12_training.core.ipynb".

(** nbdev's naming rule: the notebook ["NN_a.b.ipynb"] exports the module
    ["a/b.py"]. *)
Fixpoint after_underscore (s : string) : string :=
  match s with
  | EmptyString => EmptyString
  | String c s' => if Ascii.eqb c "_"%char then s' else after_underscore s'
  end.

Definition strip_suffix (suf s : string) : string :=
  let n := String.length s - String.length suf in
  if String.eqb (String.substring n (String.length suf) s) suf then String.substring 0 n s else s.

Fixpoint dots_to_slashes (s : string) : string :=
  match s with
  | EmptyString => EmptyString
  | String c s' => String (if Ascii.eqb c "."%char then "/"%char else c) (dots_to_slashes s')
  end.

Definition nb_module (nb : string) : string :=
  dots_to_slashes (strip_suffix ".ipynb" (after_underscore nb)) +:+ ".py".

(** ** Dictionary literals *)

Lemma py_dict_go kvs (m : gmap string string) :
  foldl (λ m kv, <[kv.1 := kv.2]> m) m kvs = list_to_map (reverse kvs) ∪ m.
Proof.
  revert m; induction kvs as [|[k v] kvs IH]; intros m; simpl.
  - by rewrite map_empty_union.
  - rewrite IH, reverse_cons, list_to_map_app. simpl.
    by rewrite insert_union_singleton_l, (map_union_assoc _ {[k := v]}), insert_empty.
Qed.

(** With distinct keys, the dictionary holds exactly the pairs written. *)
Lemma py_dict_lookup kvs k v :
  NoDup kvs.*1 → py_dict kvs !! k = Some v ↔ (k, v) ∈ kvs.
Proof.
  intros Hnd. unfold py_dict. rewrite py_dict_go, map_union_empty.
  rewrite <- elem_of_list_to_map; [by rewrite elem_of_reverse|].
  by rewrite fmap_reverse, reverse_Permutation.
Qed.

(** ** Properties of the index *)

(** The keys of the literal are distinct: [index] holds exactly the pairs
    written, none overridden. *)
Theorem index_spec k nb : index !! k = Some nb ↔ (k, nb) ∈ index_items.
Proof. apply py_dict_lookup. py_decide. Qed.

(** Every notebook the index names exports a module that [modules]
    lists. *)
Theorem index_notebooks_modules k nb : index !! k = Some nb → nb_module nb ∈ modules.
Proof.
  assert (Forall (λ kv, nb_module kv.2 ∈ modules) index_items) as Hall by py_decide.
  rewrite index_spec, Forall_forall in *. intros Hk. exact (Hall (k, nb) Hk).
Qed.

(** Three names that [core.py] exports are missing from the index:
    [Strategy], [MultiCategorize] and [AdaptiveDataLoaders]. *)
Theorem index_core_missing :
  filter (λ n, index !! n = None) core_all = ["Strategy"; "MultiCategorize"; "AdaptiveDataLoaders"].
Proof. vm_compute. reflexivity. Qed.

(** The names of [core.py] that the index has are filed under notebook
    ["14_training.core.ipynb"], which exports [training/core.py], while
    the header of [core.py] names ["12_training.core.ipynb"]; number 14 is
    also the notebook of [result.py]. *)
Theorem index_core_notebook n :
  n ∈ core_all → is_Some (index !! n) →
  index !! n = Some "14_training.core.ipynb" ∧
  nb_module "14_training.core.ipynb" = nb_module core_notebook ∧
  "14_training.core.ipynb" ≠ core_notebook ∧
  index !! "SentenceResult" = Some "14_result.ipynb".
Proof.
  intros Hn Hs. split_and!; [|vm_compute; reflexivity|done|vm_compute; reflexivity].
  repeat (apply elem_of_cons in Hn as [->|Hn]); try (vm_compute; reflexivity);
    try (by vm_compute in Hs; destruct Hs).
  by apply elem_of_nil in Hn.
Qed.

(** ** Witnesses *)

Lemma index_notebooks_modules_witness :
  index !! "AdaptiveTuner" = Some "14_training.core.ipynb" ∧ "training/core.py" ∈ modules.
Proof.
  assert (index !! "AdaptiveTuner" = Some "14_training.core.ipynb") as H by (vm_compute; reflexivity).
  split; [exact H|]. exact (index_notebooks_modules _ _ H).
Defined.

Lemma index_core_notebook_witness :
  index !! "Categorize" = Some "14_training.core.ipynb" ∧ "14_training.core.ipynb" ≠ core_notebook.
Proof.
  destruct (index_core_notebook "Categorize") as (H & _ & Hne & _);
    [py_decide|vm_compute; by eexists|].
  by split.
Defined.
