(* ===== verification/Categorize.v ===== *)
(** * Categorize: the label encoders of [src/adaptnlp/training/core.py]

    [Categorize] (lines 86-124) builds a vocabulary [classes] from an
    iterable of labels and its reverse mapping [o2i]; [MultiCategorize]
    (lines 127-152) reuses it for multi-label targets.  Labels are any type
    with the Python protocol the code relies on ([PyLabel]: [o == o], [<],
    [repr], [isinstance(o, str)]).  The reverse mapping is a [gmap]; Python
    integer indices into [classes] are [Z], read with [py_index]. *)

From stdpp Require Import base gmap strings list sorting pretty.
From Stdlib Require Import ZArith Lia.
From S2P Require Import Prelude.

(** * The Python protocol of a label *)

Class PyLabel (A : Type) := {
  label_self_eq : A → bool;            (** [o == o]: false only for NaN *)
  label_lt : A → A → bool;             (** [o1 < o2], the only test [sorted] uses *)
  label_repr : A → string;             (** [repr(o)], the message of [KeyError(o)] *)
  label_as_str : A → option string     (** [Some s] when [isinstance(o, str)] *)
}.

(** The order laws Python's [sorted] needs to return a sorted list. *)
Class PyLabelLaws (A : Type) `{PyLabel A} : Prop := {
  label_lt_irrefl x : label_lt x x = false;
  label_lt_trans x y z :
    label_lt x y = true → label_lt y z = true → label_lt x z = true;
  label_lt_total x y :
    label_self_eq x = true → label_self_eq y = true → x ≠ y →
    label_lt x y = true ∨ label_lt y x = true
}.

(** * The interface a label encoder offers its clients

    [show_batch] decodes targets through whatever encoder is attached to the
    loader bundle; it relies only on this interface. *)
Class LabelCodec (C X Y : Type) := {
  codec_wf : C → Prop;
  codec_encode : C → X → result Y;
  codec_decode : C → Y → result X
}.

Class LabelCodecLaws (C X Y : Type) `{LabelCodec C X Y} : Prop :=
  codec_roundtrip : ∀ c x y, codec_wf c → codec_encode c x = Ok y → codec_decode c y = Ok x.

(** * The label types of the tasks: strings and ints *)

Lemma string_compare_refl s : String.compare s s = Eq.
Proof.
  induction s as [|a s IH]; simpl; [done|]. unfold Ascii.compare. by rewrite N.compare_refl.
Qed.

Lemma string_compare_lt_trans s1 s2 s3 :
  String.compare s1 s2 = Lt → String.compare s2 s3 = Lt → String.compare s1 s3 = Lt.
Proof.
  revert s2 s3; induction s1 as [|a s1 IH]; intros [|b s2] [|c s3]; simpl; try done.
  unfold Ascii.compare.
  destruct (N.compare_spec (Ascii.N_of_ascii a) (Ascii.N_of_ascii b)) as [Hab|Hab|Hab]; try done;
  destruct (N.compare_spec (Ascii.N_of_ascii b) (Ascii.N_of_ascii c)) as [Hbc|Hbc|Hbc]; try done;
  destruct (N.compare_spec (Ascii.N_of_ascii a) (Ascii.N_of_ascii c)) as [Hac|Hac|Hac]; try done;
  try lia; eauto.
Qed.

(** Python [str]: [s == s], code-point order, [repr(s)] quotes it. *)
#[export] Instance str_label : PyLabel string := {|
  label_self_eq _ := true;
  label_lt := String.ltb;
  label_repr s := "'" +:+ s +:+ "'";
  label_as_str s := Some s
|}.

#[export] Instance str_label_laws : PyLabelLaws string.
Proof.
  split; simpl; unfold String.ltb.
  - intros x. by rewrite string_compare_refl.
  - intros x y z. destruct (String.compare x y) eqn:Hxy; try done.
    destruct (String.compare y z) eqn:Hyz; try done.
    by rewrite (string_compare_lt_trans x y z).
  - intros x y _ _ Hne. rewrite (String.compare_antisym y x).
    destruct (String.compare x y) eqn:Hxy; simpl; auto.
    by apply String.compare_eq_iff in Hxy.
Qed.

(** Python [int]: not a [str], so it cannot appear in [str.join]. *)
#[export] Instance int_label : PyLabel Z := {|
  label_self_eq _ := true;
  label_lt := Z.ltb;
  label_repr := pretty;
  label_as_str _ := None
|}.

#[export] Instance int_label_laws : PyLabelLaws Z.
Proof.
  split; simpl.
  - intros x. apply Z.ltb_irrefl.
  - intros x y z. rewrite !Z.ltb_lt. lia.
  - intros x y _ _ Hne. rewrite !Z.ltb_lt. lia.
Qed.

Module LabelEncoder.
Section Encoder.
Context {A : Type} `{Countable A, PyLabel A}.

(** [L.unique()]: [dict.fromkeys], first occurrences in order. *)
Fixpoint unique_go (seen : list A) (l : list A) : list A :=
  match l with
  | [] => []
  | x :: l' => if decide (x ∈ seen) then unique_go seen l' else x :: unique_go (x :: seen) l'
  end.
Definition unique (l : list A) : list A := unique_go [] l.

(** [sorted()]: a stable insertion sort on [<]. *)
Fixpoint sort_insert (x : A) (l : list A) : list A :=
  match l with
  | [] => [x]
  | y :: l' => if label_lt x y then x :: l else y :: sort_insert x l'
  end.
Definition sorted (l : list A) : list A := foldl (λ acc x, sort_insert x acc) [] l.

(** [L.val2idx()]: [{v:k for k,v in enumerate(self)}], later keys win. *)
Fixpoint val2idx_go (i : nat) (l : list A) (m : gmap A nat) : gmap A nat :=
  match l with
  | [] => m
  | x :: l' => val2idx_go (S i) l' (<[x:=i]> m)
  end.
Definition val2idx (l : list A) : gmap A nat := val2idx_go 0 l ∅.

Record categorize := mkCategorize { classes : list A; o2i : gmap A nat }.

(** [Categorize.__init__(names, sort)] *)
Definition Categorize (names : list A) (sort : bool) : categorize :=
  let cls := filter (λ o, label_self_eq o = true) (unique names) in
  let cls := if sort then sorted cls else cls in
  {| classes := cls; o2i := val2idx cls |}.

(** [self.o2i[o]] *)
Definition o2i_get (c : categorize) (o : A) : result nat :=
  match o2i c !! o with
  | Some i => Ok i
  | None => Err (PyExn KeyError (label_repr o))
  end.

(** [Categorize.map_objs]: [L(self.o2i[o] for o in objs)] *)
Definition map_objs (c : categorize) (objs : list A) : result (list nat) :=
  res_map (o2i_get c) objs.

(** [Categorize.map_ids]: [L(self.classes[o] for o in ids)] *)
Definition map_ids (c : categorize) (ids : list Z) : result (list A) :=
  res_map (py_index (classes c)) ids.

(** [Categorize.__call__]: [int(self.o2i[o])] *)
Definition call (c : categorize) (o : A) : result Z := Z.of_nat <$> o2i_get c o.

(** [Categorize.decode]: [self.classes[o]] *)
Definition decode (c : categorize) (o : Z) : result A := py_index (classes c) o.

(** [MultiCategorize.__init__]: [sort=names==None].  [names] is a list
    ([Some]) or [None]; [L(None)] is empty. *)
Definition MultiCategorize (names : option (list A)) : categorize :=
  Categorize (default [] names) (bool_decide (names = None)).

(** [MultiCategorize.__call__]: check every label, then encode.  The
    message joins the missing labels with ["', '"], which raises
    [TypeError] when one of them is not a [str]. *)
Definition multi_call (c : categorize) (o : list A) : result (list Z) :=
  if forallb (λ nm, bool_decide (is_Some (o2i c !! nm))) o then
    res_map (call c) o
  else
    let diff := filter (λ e, o2i c !! e = None) o in
    match mapM label_as_str diff with
    | Some strs =>
        Err (PyExn KeyError ("Labels '" +:+ String.concat "', '" strs +:+
                             "' were not included in the training dataset"))
    | None => Err (PyExn TypeError "sequence item: expected str instance")
    end.

(** [MultiCategorize.decode]: [[self.classes[o_] for o_ in o]] *)
Definition multi_decode (c : categorize) (o : list Z) : result (list A) :=
  res_map (decode c) o.

(** The vocabulary invariant: [classes] has no duplicate and [o2i] is the
    inverse of indexing into [classes]. *)
Definition cat_wf (c : categorize) : Prop :=
  NoDup (classes c) ∧ ∀ x i, o2i c !! x = Some i ↔ classes c !! i = Some x.

(** ** Lemmas on the helpers *)

Lemma elem_of_unique_go seen l x :
  x ∈ unique_go seen l ↔ x ∈ l ∧ x ∉ seen.
Proof.
  revert seen; induction l as [|y l IH]; intros seen; simpl.
  - rewrite !elem_of_nil. tauto.
  - case_decide as Hy; rewrite ?elem_of_cons, IH, ?elem_of_cons;
      destruct (decide (x = y)); subst; tauto.
Qed.

Lemma NoDup_unique_go seen l : NoDup (unique_go seen l).
Proof.
  revert seen; induction l as [|y l IH]; intros seen; simpl; [constructor|].
  case_decide; [done|]. constructor; [|done].
  rewrite elem_of_unique_go, elem_of_cons. tauto.
Qed.

Lemma lookup_val2idx_go i l m x j :
  NoDup l →
  val2idx_go i l m !! x = Some j ↔
    (∃ k, l !! k = Some x ∧ j = i + k) ∨ (x ∉ l ∧ m !! x = Some j).
Proof.
  revert i m; induction l as [|y l IH]; intros i m Hnd; simpl.
  - split; [intros; right; set_solver|].
    intros [[k [Hk _]]|[_ ?]]; [done|done].
  - apply NoDup_cons in Hnd as [Hy Hnd]. rewrite IH by done.
    rewrite lookup_insert. case_decide as Hyx; [subst y|].
    + split.
      * intros [[k [Hk _]]|[_ [= <-]]].
        -- exfalso. apply Hy. by eapply list_elem_of_lookup_2.
        -- left. exists 0. split; [done|lia].
      * intros [[[|k] [Hk ->]]|[Hx _]]; try simpl in Hk.
        -- right. split; [done|f_equal; lia].
        -- exfalso. apply Hy. by eapply list_elem_of_lookup_2.
        -- exfalso. apply Hx. by left.
    + split.
      * intros [[k [Hk ->]]|[Hx Hm]].
        -- left. exists (S k). split; [done|lia].
        -- right. rewrite elem_of_cons. split; [naive_solver|done].
      * intros [[[|k] [Hk ->]]|[Hx Hm]]; try simpl in Hk.
        -- simplify_eq.
        -- left. exists k. split; [done|lia].
        -- right. rewrite elem_of_cons in Hx. split; [tauto|done].
Qed.

Lemma lookup_val2idx l x i :
  NoDup l → val2idx l !! x = Some i ↔ l !! i = Some x.
Proof.
  intros Hnd. unfold val2idx. rewrite lookup_val2idx_go by done.
  rewrite lookup_empty. naive_solver.
Qed.

Lemma sort_insert_perm x l : sort_insert x l ≡ₚ x :: l.
Proof.
  induction l as [|y l IH]; simpl; [done|].
  destruct (label_lt x y); [done|]. rewrite IH. constructor.
Qed.

Lemma sorted_go_perm acc l : foldl (λ acc x, sort_insert x acc) acc l ≡ₚ acc ++ l.
Proof.
  revert acc; induction l as [|x l IH]; intros acc; simpl; [by rewrite app_nil_r|].
  rewrite IH, sort_insert_perm. simpl. apply Permutation_middle.
Qed.

Lemma sorted_perm l : sorted l ≡ₚ l.
Proof. apply sorted_go_perm. Qed.

Lemma NoDup_filter_unique names :
  NoDup (filter (λ o, label_self_eq o = true) (unique names)).
Proof. apply NoDup_filter, NoDup_unique_go. Qed.

Lemma elem_of_Categorize_classes names sort x :
  x ∈ classes (Categorize names sort) ↔ x ∈ names ∧ label_self_eq x = true.
Proof.
  unfold Categorize, unique; simpl.
  destruct sort; rewrite ?sorted_perm, list_elem_of_filter, elem_of_unique_go, elem_of_nil;
    tauto.
Qed.

Lemma NoDup_Categorize_classes names sort : NoDup (classes (Categorize names sort)).
Proof.
  unfold Categorize; simpl. destruct sort; [rewrite sorted_perm|]; apply NoDup_filter_unique.
Qed.

(** ** The vocabulary invariant *)

Lemma cat_wf_Categorize names sort : cat_wf (Categorize names sort).
Proof.
  split; [apply NoDup_Categorize_classes|].
  intros x i. apply lookup_val2idx, NoDup_Categorize_classes.
Qed.

(** C1: every vocabulary built by [Categorize] is well formed: the
    classes are distinct and [o2i] maps each class to its position, and
    nothing else (ids are exactly [0 .. len(classes)-1]); the classes are
    the distinct labels of [names] without NaN. *)
Theorem Categorize_wf names sort :
  cat_wf (Categorize names sort) ∧
  ∀ x, x ∈ classes (Categorize names sort) ↔ x ∈ names ∧ label_self_eq x = true.
Proof. split; [apply cat_wf_Categorize|apply elem_of_Categorize_classes]. Qed.

(** ** Encoding and decoding *)

Lemma o2i_get_wf c x :
  cat_wf c → x ∈ classes c → ∃ i, o2i_get c x = Ok i ∧ classes c !! i = Some x.
Proof.
  intros [_ Hwf] (i & Hi)%list_elem_of_lookup_1.
  exists i. unfold o2i_get. by rewrite (proj2 (Hwf x i) Hi).
Qed.

Lemma o2i_get_missing c x :
  cat_wf c → x ∉ classes c → o2i_get c x = Err (PyExn KeyError (label_repr x)).
Proof.
  intros [_ Hwf] Hx. unfold o2i_get. destruct (o2i c !! x) as [i|] eqn:Hi; [|done].
  exfalso. apply Hx, (list_elem_of_lookup_2 _ i), Hwf, Hi.
Qed.

Lemma map_objs_wf c xs :
  cat_wf c → Forall (λ x, x ∈ classes c) xs →
  ∃ ids, map_objs c xs = Ok ids ∧ Forall2 (λ x i, classes c !! i = Some x) xs ids.
Proof.
  intros Hwf Hxs. unfold map_objs.
  induction Hxs as [|x xs Hx _ (ids & Hids & Hall)]; simpl; [by exists []|].
  destruct (o2i_get_wf c x Hwf Hx) as (i & -> & Hi). rewrite Hids.
  exists (i :: ids). split; [done|]. by constructor.
Qed.

Lemma map_ids_lookup c xs ids :
  Forall2 (λ x i, classes c !! i = Some x) xs ids → map_ids c (map Z.of_nat ids) = Ok xs.
Proof.
  unfold map_ids. induction 1 as [|x i xs ids Hi _ IH]; simpl in *; [done|].
  by rewrite py_index_nat, Hi, IH.
Qed.

(** C5: [map_ids] inverts [map_objs] on every list of labels drawn from
    the vocabulary, and every id [map_objs] produces is below
    [len(classes)]. *)
Theorem map_objs_roundtrip names sort xs :
  Forall (λ x, x ∈ classes (Categorize names sort)) xs →
  ∃ ids, map_objs (Categorize names sort) xs = Ok ids ∧
         Forall (λ i, i < length (classes (Categorize names sort))) ids ∧
         map_ids (Categorize names sort) (map Z.of_nat ids) = Ok xs.
Proof.
  intros Hxs. destruct (map_objs_wf _ xs (cat_wf_Categorize names sort) Hxs) as (ids & Hids & Hall).
  exists ids. split_and!; [done| |by apply map_ids_lookup].
  clear -Hall. induction Hall as [|x i xs ids Hi _ IH]; constructor; [|done].
  by eapply lookup_lt_Some.
Qed.

(** [map_objs] raises [KeyError] on the first label that is not in
    the vocabulary, naming that label. *)
Theorem map_objs_missing names sort xs1 x xs2 :
  Forall (λ y, y ∈ classes (Categorize names sort)) xs1 →
  x ∉ classes (Categorize names sort) →
  map_objs (Categorize names sort) (xs1 ++ x :: xs2) = Err (PyExn KeyError (label_repr x)).
Proof.
  intros Hxs1 Hx. apply res_map_Err; [|apply o2i_get_missing; [apply cat_wf_Categorize|done]].
  eapply Forall_impl; [done|]. intros y Hy.
  by destruct (o2i_get_wf _ y (cat_wf_Categorize names sort) Hy) as (i & -> & _).
Qed.

(** [decode] is Python list indexing: it succeeds exactly for
    [-len(classes) ≤ i < len(classes)], and a negative id silently reads
    from the end of the vocabulary instead of being rejected. *)
Theorem decode_bounds c i x :
  decode c i = Ok x ↔
  ∃ k, classes c !! k = Some x ∧
       (i = Z.of_nat k ∨ i = (Z.of_nat k - Z.of_nat (length (classes c)))%Z).
Proof. apply py_index_Ok. Qed.

(** ** [MultiCategorize] *)

(** C13: [multi_call] encodes every list of known labels, and
    [multi_decode] gives the labels back. *)
Theorem multi_call_roundtrip names o :
  Forall (λ x, x ∈ classes (MultiCategorize names)) o →
  ∃ ids, multi_call (MultiCategorize names) o = Ok ids ∧
         multi_decode (MultiCategorize names) ids = Ok o.
Proof.
  intros Ho. unfold MultiCategorize in *.
  pose proof (cat_wf_Categorize (default [] names) (bool_decide (names = None))) as Hwf.
  destruct (map_objs_wf _ o Hwf Ho) as (ids & _ & Hall).
  exists (map Z.of_nat ids). unfold multi_call.
  assert (forallb (λ nm, bool_decide (is_Some (o2i (Categorize (default [] names)
            (bool_decide (names = None))) !! nm))) o = true)
    as ->.
  { apply forallb_forall. intros x Hx. apply list_elem_of_In in Hx.
    rewrite Forall_forall in Ho. apply bool_decide_eq_true.
    destruct (o2i_get_wf _ x Hwf (Ho x Hx)) as (i & Hi & _). unfold o2i_get in Hi.
    destruct (o2i _ !! x); [done|discriminate]. }
  split.
  - apply res_map_Ok. clear Ho. induction Hall as [|x i o ids Hi _ IH]; constructor; [|done].
    unfold call, o2i_get. by rewrite (proj2 (proj2 Hwf x i) Hi).
  - exact (map_ids_lookup _ _ _ Hall).
Qed.

(** Below [__call__]'s guard, the labels that are missing from the
    vocabulary are exactly the ones the message lists. *)
Lemma multi_call_missing c o :
  cat_wf c → (∃ e, e ∈ o ∧ e ∉ classes c) →
  multi_call c o =
    match mapM label_as_str (filter (λ e, e ∉ classes c) o) with
    | Some strs =>
        Err (PyExn KeyError ("Labels '" +:+ String.concat "', '" strs +:+
                             "' were not included in the training dataset"))
    | None => Err (PyExn TypeError "sequence item: expected str instance")
    end.
Proof.
  intros [_ Hwf] (e & He & Hec). unfold multi_call.
  assert (∀ x, o2i c !! x = None ↔ x ∉ classes c) as Hnone.
  { intros x. rewrite eq_None_not_Some. split.
    - intros Hx (i & Hi)%list_elem_of_lookup_1. apply Hx. exists i. by apply Hwf.
    - intros Hx [i Hi]. apply Hx, (list_elem_of_lookup_2 _ i), Hwf, Hi. }
  replace (forallb _ o) with false.
  2:{ symmetry. apply not_true_iff_false. intros Hall.
      apply forallb_forall with (x := e) in Hall; [|by apply list_elem_of_In].
      apply bool_decide_eq_true in Hall. apply not_eq_None_Some in Hall. by apply Hall, Hnone. }
  by rewrite (list_filter_iff _ (λ e, e ∉ classes c)) by apply Hnone.
Qed.

End Encoder.

(** ** Sorting *)

Section Sorting.
Context {A : Type} `{Countable A, PyLabelLaws A}.

(** Python's [<] on labels. *)
Definition lt_rel (x y : A) : Prop := label_lt x y = true.

#[local] Instance lt_rel_antisymm : AntiSymm eq lt_rel.
Proof.
  intros x y Hxy Hyx. exfalso. unfold lt_rel in *.
  pose proof (label_lt_trans _ _ _ Hxy Hyx). by rewrite label_lt_irrefl in *.
Qed.

#[local] Instance lt_rel_trans : Transitive lt_rel.
Proof. intros x y z. apply label_lt_trans. Qed.

Lemma sort_insert_sorted x l :
  label_self_eq x = true → Forall (λ y, label_self_eq y = true) l → x ∉ l →
  StronglySorted lt_rel l → StronglySorted lt_rel (sort_insert x l).
Proof.
  induction l as [|y l IH]; intros Hx Hl Hxl Hs; simpl; [by repeat constructor|].
  apply Forall_cons in Hl as [Hy Hl]. apply StronglySorted_inv in Hs as [Hs Hyl].
  apply not_elem_of_cons in Hxl as [Hxy Hxl].
  destruct (label_lt x y) eqn:Hlt.
  - constructor; [by constructor|]. constructor; [done|].
    eapply Forall_impl; [done|]. intros z Hz. by eapply label_lt_trans.
  - constructor; [by apply IH|]. rewrite sort_insert_perm. constructor; [|done].
    destruct (label_lt_total x y) as [?|?]; [done|done|done|congruence|done].
Qed.

Lemma sorted_go_sorted acc l :
  StronglySorted lt_rel acc → NoDup (acc ++ l) →
  Forall (λ y, label_self_eq y = true) (acc ++ l) →
  StronglySorted lt_rel (foldl (λ acc x, sort_insert x acc) acc l).
Proof.
  revert acc; induction l as [|x l IH]; intros acc Hs Hnd Hall; simpl; [done|].
  assert (acc ++ x :: l ≡ₚ sort_insert x acc ++ l) as Hp.
  { by rewrite sort_insert_perm, <- Permutation_middle. }
  apply IH; [| by rewrite <- Hp | by rewrite <- Hp].
  apply Forall_app in Hall as [Hacc Hxl]. apply Forall_cons in Hxl as [Hx _].
  apply sort_insert_sorted; [done|done| |done].
  apply NoDup_app in Hnd as (_ & Hdis & _). intros Hin. by apply (Hdis x); [|left].
Qed.

Lemma StronglySorted_lt_NoDup l : StronglySorted lt_rel l → NoDup l.
Proof.
  induction 1 as [|x l _ IH Hx]; constructor; [|done].
  intros Hin. rewrite Forall_forall in Hx. specialize (Hx x Hin).
  unfold lt_rel in Hx. by rewrite label_lt_irrefl in Hx.
Qed.

Lemma Categorize_classes_sorted names :
  StronglySorted lt_rel (classes (Categorize names true)).
Proof.
  apply sorted_go_sorted; [constructor|apply NoDup_filter_unique|].
  apply Forall_forall. intros x Hx%list_elem_of_filter. apply Hx.
Qed.

(** A strictly sorted list with the vocabulary's elements is the sorted
    vocabulary. *)
Lemma Categorize_classes_unique names l :
  StronglySorted lt_rel l → (∀ x, x ∈ l ↔ x ∈ names ∧ label_self_eq x = true) →
  classes (Categorize names true) = l.
Proof.
  intros Hs Hl. apply (StronglySorted_unique lt_rel); [apply Categorize_classes_sorted|done|].
  apply NoDup_Permutation; [apply NoDup_Categorize_classes|by apply StronglySorted_lt_NoDup|].
  intros x. by rewrite elem_of_Categorize_classes, Hl.
Qed.

(** C12: with [sort=True] the vocabulary is the unique strictly
    increasing enumeration of the distinct non-NaN labels: the
    insertion sort of the model refines any correct [sorted]. *)
Theorem Categorize_sorted_spec names l :
  classes (Categorize names true) = l ↔
  StronglySorted lt_rel l ∧ ∀ x, x ∈ l ↔ x ∈ names ∧ label_self_eq x = true.
Proof.
  split; [intros <-|intros [Hs Hl]; by apply Categorize_classes_unique].
  split; [apply Categorize_classes_sorted|apply elem_of_Categorize_classes].
Qed.

End Sorting.
End LabelEncoder.

Import LabelEncoder.

(** * The encoders implement the codec interface *)

#[export] Instance categorize_codec `{Countable A, PyLabel A} : LabelCodec (categorize (A:=A)) A Z := {|
  codec_wf := cat_wf;
  codec_encode := call;
  codec_decode := decode
|}.

#[export] Instance multi_categorize_codec `{Countable A, PyLabel A} :
  LabelCodec (categorize (A:=A)) (list A) (list Z) := {|
  codec_wf := cat_wf;
  codec_encode := multi_call;
  codec_decode := multi_decode
|}.

Lemma call_decode `{Countable A, PyLabel A} (c : categorize (A:=A)) (x : A) y :
  cat_wf c → call c x = Ok y → decode c y = Ok x.
Proof.
  intros [_ Hwf]. unfold call, o2i_get. destruct (o2i c !! x) as [i|] eqn:Hi; [|done].
  intros [= <-]. unfold decode. rewrite py_index_nat. by rewrite (proj1 (Hwf x i) Hi).
Qed.

#[export] Instance categorize_codec_laws `{Countable A, PyLabel A} :
  LabelCodecLaws (categorize (A:=A)) A Z.
Proof. intros c x y. apply call_decode. Qed.

#[export] Instance multi_categorize_codec_laws `{Countable A, PyLabel A} :
  LabelCodecLaws (categorize (A:=A)) (list A) (list Z).
Proof.
  intros c o ids Hwf. simpl. unfold multi_call.
  destruct (forallb _ o); [|by destruct (mapM _ _)].
  rewrite res_map_Ok. intros Hall. apply res_map_Ok.
  induction Hall; constructor; [|done]. by apply call_decode.
Qed.

Lemma mapM_str_label (l : list string) : mapM label_as_str l = Some l.
Proof. induction l as [|x l IH]; simpl in *; [done|]. by rewrite IH. Qed.

Lemma MultiCategorize_Some `{Countable A, PyLabel A} (names : list A) :
  MultiCategorize (Some names) = Categorize names false.
Proof. done. Qed.

(** * Properties of the encoders on the labels of the tasks *)

Local Open Scope string_scope.

(** The example of the specification: [Categorize(['cat','dog','cat'])]
    has classes [['cat','dog']] and maps [['dog','cat']] to [[1,0]]. *)
Example Categorize_spec_example :
  classes (Categorize ["cat"; "dog"; "cat"] true) = ["cat"; "dog"] ∧
  map_objs (Categorize ["cat"; "dog"; "cat"] true) ["dog"; "cat"] = Ok [1; 0].
Proof. split; vm_compute; reflexivity. Qed.

(** C25: [MultiCategorize] passes [sort=names==None], which is [False]
    for every list: its vocabulary keeps first-occurrence order and equals
    the sorted vocabulary only when that order happens to be sorted. *)
Theorem MultiCategorize_unsorted `{Countable A, PyLabel A, !PyLabelLaws A} (names : list A) :
  classes (MultiCategorize (Some names)) = classes (Categorize names true) ↔
  StronglySorted lt_rel (classes (Categorize names false)).
Proof.
  rewrite MultiCategorize_Some. split.
  - intros ->. apply Categorize_classes_sorted.
  - intros Hs. symmetry. apply Categorize_classes_unique; [done|].
    apply elem_of_Categorize_classes.
Qed.

(** When a [str] label is missing, [MultiCategorize.__call__]
    raises [KeyError] whose message lists exactly the missing labels, in
    order and with repetitions. *)
Theorem multi_call_missing_str (names : option (list string)) o :
  (∃ e, e ∈ o ∧ e ∉ classes (MultiCategorize names)) →
  multi_call (MultiCategorize names) o =
    Err (PyExn KeyError ("Labels '" +:+
           String.concat "', '" (filter (λ e, e ∉ classes (MultiCategorize names)) o) +:+
           "' were not included in the training dataset")).
Proof. intros He. rewrite multi_call_missing by (done || apply cat_wf_Categorize). by rewrite mapM_str_label. Qed.

(** C26: with [int] labels the same guard cannot build its message:
    [str.join] raises [TypeError] instead of the [KeyError] the code means
    to raise. *)
Theorem multi_call_missing_int (names : option (list Z)) o :
  (∃ e, e ∈ o ∧ e ∉ classes (MultiCategorize names)) →
  err_kind (multi_call (MultiCategorize names) o) = Some TypeError.
Proof.
  intros He. rewrite multi_call_missing by (done || apply cat_wf_Categorize).
  destruct He as (e & Heo & Hec).
  destruct (filter (λ e, e ∉ classes (MultiCategorize names)) o) as [|x l] eqn:Hf; [|done].
  assert (e ∈ filter (λ e, e ∉ classes (MultiCategorize names)) o) as Hin
    by (by apply list_elem_of_filter).
  rewrite Hf in Hin. by apply elem_of_nil in Hin.
Qed.

(** ** Witnesses *)

Lemma Categorize_sorted_spec_witness :
  classes (Categorize ["dog"; "cat"; "dog"] true) = ["cat"; "dog"] ↔
  StronglySorted lt_rel ["cat"; "dog"] ∧
  ∀ x, x ∈ ["cat"; "dog"] ↔ x ∈ ["dog"; "cat"; "dog"] ∧ label_self_eq x = true.
Proof. apply Categorize_sorted_spec. Defined.

Lemma map_objs_roundtrip_witness :
  ∃ ids, map_objs (Categorize ["cat"; "dog"; "cat"] true) ["dog"; "cat"] = Ok ids ∧
         Forall (λ i, i < length (classes (Categorize ["cat"; "dog"; "cat"] true))) ids ∧
         map_ids (Categorize ["cat"; "dog"; "cat"] true) (map Z.of_nat ids) = Ok ["dog"; "cat"].
Proof. apply map_objs_roundtrip. py_decide. Defined.

Lemma map_objs_missing_witness :
  map_objs (Categorize ["cat"; "dog"] true) (["dog"] ++ "cow" :: ["cat"]) =
  Err (PyExn KeyError (label_repr "cow")).
Proof.
  apply map_objs_missing; py_decide.
Defined.

Lemma multi_call_roundtrip_witness :
  ∃ ids, multi_call (MultiCategorize (Some ["pos"; "neg"])) ["neg"; "pos"; "neg"] = Ok ids ∧
         multi_decode (MultiCategorize (Some ["pos"; "neg"])) ids = Ok ["neg"; "pos"; "neg"].
Proof. apply multi_call_roundtrip. py_decide. Defined.

Lemma MultiCategorize_unsorted_witness :
  classes (MultiCategorize (Some ["dog"; "cat"])) ≠ classes (Categorize ["dog"; "cat"] true).
Proof.
  rewrite (MultiCategorize_unsorted ["dog"; "cat"]). vm_compute.
  intros Hs. apply StronglySorted_inv in Hs as [_ Hs]. inversion Hs as [|? ? Hlt]. discriminate.
Defined.

Lemma multi_call_missing_str_witness :
  multi_call (MultiCategorize (Some ["pos"; "neg"])) ["pos"; "spam"; "eggs"] =
    Err (PyExn KeyError "Labels 'spam', 'eggs' were not included in the training dataset").
Proof.
  rewrite multi_call_missing_str; [reflexivity|].
  exists "spam". split; [by right; left|]. py_decide.
Defined.

Lemma multi_call_missing_int_witness :
  err_kind (multi_call (MultiCategorize (Some [0%Z; 1%Z])) [1%Z; 7%Z]) = Some TypeError.
Proof.
  apply multi_call_missing_int. exists 7%Z. split; [by right; left|].
  py_decide.
Defined.

