(* ===== verification/ParentLabeller.v ===== *)
(** * ParentLabeller: the directory labeller of [src/adaptnlp/training/core.py]

    [ParentLabeller] (lines 40-56) labels a file by the name of one of its
    ancestor directories.  [_do_level] recurses on [o.parent] until
    [level == 1].  Python bounds the recursion by its recursion limit: the
    model gives the recursion a [fuel] (the frames still available below the
    limit) and raises [RecursionError] when it runs out. *)

From stdpp Require Import base list strings.
From Stdlib Require Import ZArith Lia.
From S2P Require Import Prelude.

Module ParentLabel.

(** The labeller object: its [level] is a Python [int]. *)
Record ParentLabeller := mkParentLabeller { level : Z }.

(** [ParentLabeller._do_level(o, level)] *)
Fixpoint _do_level (fuel : nat) (o : path) (lvl : Z) : result string :=
  match fuel with
  | O => Err (PyExn RecursionError "maximum recursion depth exceeded")
  | S fuel' =>
      if (lvl =? 1)%Z then Ok (path_name (path_parent o))
      else _do_level fuel' (path_parent o) (lvl - 1)
  end.

(** [ParentLabeller.__call__(o)] *)
Definition call (fuel : nat) (pl : ParentLabeller) (o : path) : result string :=
  _do_level fuel o (level pl).

(** The [k]-th ancestor of [o]. *)
Definition ancestor (k : nat) (o : path) : path := Nat.iter k path_parent o.

(** ** Lemmas *)

Lemma ancestor_S k o : ancestor (S k) o = ancestor k (path_parent o).
Proof. unfold ancestor. by rewrite <- Nat.iter_succ_r. Qed.

Lemma path_parts_ancestor k o :
  path_parts (ancestor k o) = take (length (path_parts o) - k) (path_parts o).
Proof.
  revert o; induction k as [|k IH]; intros o; simpl.
  - by rewrite Nat.sub_0_r, take_ge.
  - unfold ancestor in *; simpl. rewrite IH. simpl.
    rewrite removelast_firstn_len. destruct (path_parts o) as [|x l]; [done|].
    rewrite length_take, take_take. f_equal. simpl. lia.
Qed.

Lemma _do_level_spec fuel o lvl :
  (1 ≤ lvl ≤ Z.of_nat fuel)%Z →
  _do_level fuel o lvl = Ok (path_name (ancestor (Z.to_nat lvl) o)).
Proof.
  revert o lvl; induction fuel as [|fuel IH]; intros o lvl Hl; [lia|]. simpl.
  destruct (Z.eqb_spec lvl 1) as [->|Hne]; [done|].
  rewrite IH by lia. replace (Z.to_nat lvl) with (S (Z.to_nat (lvl - 1))) by lia.
  by rewrite ancestor_S.
Qed.

(** ** Properties *)

(** For [level ≥ 1] and enough recursion depth ([fuel ≥ level]) the
    labeller returns the name of the parent of the [(level-1)]-th ancestor:
    the recursion terminates after [level] calls. *)
Theorem call_ok fuel pl o :
  (1 ≤ level pl)%Z → (level pl ≤ Z.of_nat fuel)%Z →
  call fuel pl o = Ok (path_name (ancestor (Z.to_nat (level pl)) o)).
Proof.
  intros H1 H2. apply _do_level_spec. lia.
Qed.

(** C7: for a path with at least [level] ancestor directories, the label is
    the [level]-th directory above the file, as the specification says. *)
Theorem call_ancestor_name fuel pl o (d : nat) :
  level pl = Z.of_nat d → 1 ≤ d < length (path_parts o) → d ≤ fuel →
  call fuel pl o = Ok (default "" (path_parts o !! (length (path_parts o) - 1 - d))).
Proof.
  intros Hl Hd Hf. unfold call. rewrite _do_level_spec by lia. rewrite Hl, Nat2Z.id.
  unfold path_name. rewrite path_parts_ancestor, last_lookup, length_take.
  rewrite lookup_take_lt by lia. do 3 f_equal. lia.
Qed.

(** C28: when [level] exceeds the number of ancestors, the labeller does
    not fail: it climbs to the root (or ["."]) and returns its empty name. *)
Theorem call_beyond_root fuel pl o :
  (1 ≤ level pl)%Z → (Z.of_nat (length (path_parts o)) ≤ level pl ≤ Z.of_nat fuel)%Z →
  call fuel pl o = Ok "".
Proof.
  intros H1 Hl. unfold call. rewrite _do_level_spec by lia. unfold path_name.
  rewrite path_parts_ancestor. by replace (length _ - _) with 0 by lia.
Qed.

(** C27: a [level] below 1 never reaches the base case: whatever the
    recursion limit, [ParentLabeller(level)] raises [RecursionError]. *)
Theorem call_nonpositive_diverges fuel pl o :
  (level pl ≤ 0)%Z → err_kind (call fuel pl o) = Some RecursionError.
Proof.
  unfold call. generalize (level pl) as l. revert o.
  induction fuel as [|fuel IH]; intros o l Hl; simpl; [done|].
  destruct (Z.eqb_spec l 1); [lia|]. apply IH. lia.
Qed.

End ParentLabel.

(** ** Witnesses *)

Local Open Scope string_scope.

Definition data_file : path := mkPath true ["data"; "train"; "pos"; "001.txt"].

Lemma call_ok_witness :
  ParentLabel.call 1000 (ParentLabel.mkParentLabeller 2) data_file = Ok "train".
Proof. rewrite ParentLabel.call_ok by (simpl; lia). reflexivity. Defined.

Lemma call_ancestor_name_witness :
  ParentLabel.call 1000 (ParentLabel.mkParentLabeller 1) data_file = Ok "pos".
Proof. rewrite (ParentLabel.call_ancestor_name _ _ _ 1); [reflexivity|done|simpl; lia|lia]. Defined.

Lemma call_beyond_root_witness :
  ParentLabel.call 1000 (ParentLabel.mkParentLabeller 7) data_file = Ok "".
Proof. apply ParentLabel.call_beyond_root; simpl; lia. Defined.

Lemma call_nonpositive_diverges_witness :
  err_kind (ParentLabel.call 1000 (ParentLabel.mkParentLabeller 0) data_file) = Some RecursionError.
Proof. apply ParentLabel.call_nonpositive_diverges. simpl. lia. Defined.
