(* ===== verification/ColReader.v ===== *)
(** * ColReader: the column reader of [src/adaptnlp/training/core.py]

    [ColReader] (lines 59-83) reads one or several columns of a row, then
    returns the raw value, a [pref]/[suff]-formatted string, or the value
    split on [label_delim].  The row is one of the row types the reader
    is used with: a [dict], a pandas [Series] (a DataFrame row) or a
    [list]/[tuple].  Python's [str.split(sep)] is modelled by
    [py_split], with fuel [len(s) + 1], which the lemmas show is enough. *)

From stdpp Require Import base list strings pretty.
From Stdlib Require Import ZArith Lia.
From S2P Require Import Prelude.

Module StrSplit.

(** [s.startswith(sep)] at every position: does [sep] occur in [s]? *)
Fixpoint contains (sep s : string) : bool :=
  String.prefix sep s ||
  match s with EmptyString => false | String _ s' => contains sep s' end.

(** Drop the first [n] characters. *)
Fixpoint str_drop (n : nat) (s : string) : string :=
  match n, s with
  | O, _ => s
  | S n', String _ s' => str_drop n' s'
  | S _, EmptyString => EmptyString
  end.

(** [s.partition(sep)] at the first occurrence of [sep]: [Some (before,
    after)], or [None] when [sep] does not occur. *)
Fixpoint find_sep (sep s : string) : option (string * string) :=
  if String.prefix sep s then Some (EmptyString, str_drop (String.length sep) s)
  else match s with
       | EmptyString => None
       | String c s' =>
           match find_sep sep s' with
           | Some (b, a) => Some (String c b, a)
           | None => None
           end
       end.

Fixpoint split_fuel (fuel : nat) (sep s : string) : list string :=
  match fuel with
  | O => [s]
  | S fuel' =>
      match find_sep sep s with
      | Some (b, a) => b :: split_fuel fuel' sep a
      | None => [s]
      end
  end.

(** [s.split(sep)]: [ValueError] for an empty separator. *)
Definition py_split (sep s : string) : result (list string) :=
  if String.eqb sep EmptyString then Err (PyExn ValueError "empty separator")
  else Ok (split_fuel (S (String.length s)) sep s).

(** ** Lemmas on [str.split] *)

Lemma prefix_spec sep s :
  String.prefix sep s = true → s = sep +:+ str_drop (String.length sep) s.
Proof.
  revert s; induction sep as [|c sep IH]; intros [|d s]; simpl; try done.
  destruct (Ascii.ascii_dec c d) as [<-|]; [|done]. intros H. rewrite (IH s H) at 1. reflexivity.
Qed.

Lemma prefix_app sep s t : String.prefix sep s = true → String.prefix sep (s +:+ t) = true.
Proof.
  revert s; induction sep as [|c sep IH]; intros s; [by destruct s, t|].
  destruct s as [|d s]; simpl; [done|]. destruct (Ascii.ascii_dec c d); [apply IH|done].
Qed.

Lemma prefix_empty sep : sep ≠ EmptyString → String.prefix sep EmptyString = false.
Proof. by destruct sep. Qed.

Lemma find_sep_cons sep c s :
  find_sep sep (String c s) =
    if String.prefix sep (String c s)
    then Some (EmptyString, str_drop (String.length sep) (String c s))
    else match find_sep sep s with Some (b, a) => Some (String c b, a) | None => None end.
Proof. done. Qed.

Lemma find_sep_Some sep s b a :
  sep ≠ EmptyString → find_sep sep s = Some (b, a) →
  s = b +:+ sep +:+ a ∧ contains sep b = false.
Proof.
  intros Hsep. revert b; induction s as [|c s IH]; intros b.
  - by destruct sep.
  - rewrite find_sep_cons. destruct (String.prefix sep (String c s)) eqn:Hp.
    + intros [= <- <-]. split; [by apply prefix_spec|]. by destruct sep.
    + destruct (find_sep sep s) as [[b' a']|] eqn:Hf; [|done]. intros [= <- <-].
      destruct (IH b' eq_refl) as [-> Hb']. split; [done|]. cbn [contains].
      rewrite Hb', orb_false_r. destruct (String.prefix sep (String c b')) eqn:Hp'; [|done].
      pose proof (prefix_app _ _ (sep +:+ a') Hp') as Hc. change (String c b' +:+ sep +:+ a') with (String c (b' +:+ sep +:+ a')) in Hc.
      congruence.
Qed.

Lemma find_sep_None sep s : find_sep sep s = None → contains sep s = false.
Proof.
  induction s as [|c s IH].
  - by destruct sep.
  - rewrite find_sep_cons. cbn [contains]. destruct (String.prefix sep (String c s)); [done|].
    destruct (find_sep sep s) as [[]|]; [done|]. intros _. by apply IH.
Qed.

Lemma find_sep_shorter sep s b a :
  sep ≠ EmptyString → find_sep sep s = Some (b, a) → String.length a < String.length s.
Proof.
  intros Hsep Hf. destruct (find_sep_Some _ _ _ _ Hsep Hf) as [-> _].
  rewrite !str_length_append. destruct sep; [done|]. simpl. lia.
Qed.

Lemma split_fuel_nonempty fuel sep s : split_fuel fuel sep s ≠ [].
Proof. destruct fuel; simpl; [done|]. by destruct (find_sep sep s) as [[]|]. Qed.

Lemma concat_cons sep x l :
  l ≠ [] → String.concat sep (x :: l) = x +:+ sep +:+ String.concat sep l.
Proof. by destruct l. Qed.

Lemma split_fuel_concat fuel sep s :
  sep ≠ EmptyString → String.concat sep (split_fuel fuel sep s) = s.
Proof.
  intros Hsep. revert s; induction fuel as [|fuel IH]; intros s; simpl; [done|].
  destruct (find_sep sep s) as [[b a]|] eqn:Hf; [|done].
  destruct (find_sep_Some _ _ _ _ Hsep Hf) as [-> _].
  rewrite concat_cons by apply split_fuel_nonempty. by rewrite IH.
Qed.

Lemma split_fuel_nosep fuel sep s :
  sep ≠ EmptyString → String.length s < fuel →
  Forall (λ p, contains sep p = false) (split_fuel fuel sep s).
Proof.
  intros Hsep. revert s; induction fuel as [|fuel IH]; intros s Hl; simpl; [lia|].
  destruct (find_sep sep s) as [[b a]|] eqn:Hf.
  - constructor; [by eapply find_sep_Some|].
    apply IH. pose proof (find_sep_shorter _ _ _ _ Hsep Hf). lia.
  - constructor; [by apply find_sep_None|constructor].
Qed.

(** A one-character separator is found right after a piece free of it. *)
Lemma find_sep_char c p rest :
  contains (String c EmptyString) p = false →
  find_sep (String c EmptyString) (p +:+ String c rest) = Some (p, rest).
Proof.
  induction p as [|d p IH]; intros Hp.
  - simpl. destruct (Ascii.ascii_dec c c); [|done]. by destruct rest.
  - change (String d p +:+ String c rest) with (String d (p +:+ String c rest)).
    rewrite find_sep_cons. cbn [contains] in Hp. apply orb_false_iff in Hp as [Hd Hp].
    assert (String.prefix (String c EmptyString) (String d (p +:+ String c rest)) = false) as ->.
    { simpl in *. destruct (Ascii.ascii_dec c d); [|done]. by destruct p. }
    by rewrite IH.
Qed.

Lemma prefix_self_app sep a : String.prefix sep (sep +:+ a) = true.
Proof.
  induction sep as [|c sep IH]; [by destruct a|].
  change (String c sep +:+ a) with (String c (sep +:+ a)). simpl.
  by destruct (Ascii.ascii_dec c c).
Qed.

Lemma contains_prefix sep s : String.prefix sep s = true → contains sep s = true.
Proof. intros H. destruct s; cbn [contains]; by rewrite H. Qed.

Lemma contains_occ sep b a : contains sep (b +:+ sep +:+ a) = true.
Proof.
  induction b as [|d b IH].
  - apply contains_prefix. exact (prefix_self_app sep a).
  - change (String d b +:+ sep +:+ a) with (String d (b +:+ sep +:+ a)).
    cbn [contains]. by rewrite IH, orb_true_r.
Qed.

Lemma split_fuel_char_unique fuel c l s :
  l ≠ [] → Forall (λ p, contains (String c EmptyString) p = false) l →
  String.concat (String c EmptyString) l = s → String.length s < fuel →
  split_fuel fuel (String c EmptyString) s = l.
Proof.
  revert l s; induction fuel as [|fuel IH]; intros l s Hne Hl Hs Hlen; [lia|].
  destruct l as [|p l]; [done|]. apply Forall_cons in Hl as [Hp Hl]. simpl.
  destruct l as [|q l].
  - simpl in Hs. subst s. destruct (find_sep _ p) as [[b a]|] eqn:Hf; [|done].
    destruct (find_sep_Some (String c EmptyString) p b a ltac:(discriminate) Hf) as [-> _].
    by rewrite contains_occ in Hp.
  - rewrite concat_cons in Hs by done. subst s.
    change (p +:+ String c EmptyString +:+ String.concat (String c EmptyString) (q :: l))
      with (p +:+ String c (String.concat (String c EmptyString) (q :: l))).
    rewrite find_sep_char by done. f_equal.
    apply IH; [done|done|done|]. rewrite !str_length_append in Hlen.
    change (String.length (String c EmptyString)) with 1 in Hlen. lia.
Qed.

(** ** Properties *)

(** For a non-empty separator, [s.split(sep)] returns (the fuel
    [len(s) + 1] suffices) pieces that join back to [s] with [sep] and
    contain no occurrence of [sep]. *)
Theorem py_split_spec sep s :
  sep ≠ EmptyString →
  ∃ l, py_split sep s = Ok l ∧ String.concat sep l = s ∧ Forall (λ p, contains sep p = false) l.
Proof.
  intros Hsep. unfold py_split. destruct (String.eqb_spec sep EmptyString); [done|].
  eexists. split_and!; [done|by apply split_fuel_concat|]. apply split_fuel_nosep; [done|lia].
Qed.

(** For a one-character separator, [s.split(sep)] is the unique
    non-empty list of separator-free pieces that joins back to [s]. *)
Theorem py_split_char_unique c s l :
  py_split (String c EmptyString) s = Ok l ↔
  l ≠ [] ∧ String.concat (String c EmptyString) l = s ∧
  Forall (λ p, contains (String c EmptyString) p = false) l.
Proof.
  split.
  - intros H. unfold py_split in H.
    change (String.eqb (String c EmptyString) EmptyString) with false in H. injection H as <-.
    refine (conj _ (conj _ _)); [exact (split_fuel_nonempty (S (String.length s)) _ s)
                |by apply (split_fuel_concat (S (String.length s)))
                |apply (split_fuel_nosep (S (String.length s))); [done|lia]].
  - intros (Hne & Hc & Hn). unfold py_split.
    change (String.eqb (String c EmptyString) EmptyString) with false. cbv iota. f_equal.
    apply split_fuel_char_unique; [done|done|done|lia].
Qed.

End StrSplit.

Import StrSplit.

Module ColRead.

(** A column specifier: an [int] or a [str]. *)
Inductive colspec := ColInt (i : Z) | ColStr (c : string).

(** A key of a [dict] row: a [str] or an [int]. *)
Inductive dkey := DStr (s : string) | DInt (i : Z).

#[export] Instance dkey_eq_dec : EqDecision dkey.
Proof. solve_decision. Defined.

(** The rows [ColReader] is applied to. *)
Inductive row :=
  | RowDict (items : list (dkey * pyval))
  | RowSeries (name : pyval) (items : list (string * pyval))
  | RowSeq (vs : list pyval).

(** The attributes of a [dict] and of a [list] ([dir({})], [dir([])]). *)
Definition dict_attrs : list string :=
  ["__class__"; "__class_getitem__"; "__contains__"; "__delattr__"; "__delitem__"; "__dir__";
   "__doc__"; "__eq__"; "__format__"; "__ge__"; "__getattribute__"; "__getitem__";
   "__getstate__"; "__gt__"; "__hash__"; "__init__"; "__init_subclass__"; "__ior__";
   "__iter__"; "__le__"; "__len__"; "__lt__"; "__ne__"; "__new__"; "__or__"; "__reduce__";
   "__reduce_ex__"; "__repr__"; "__reversed__"; "__ror__"; "__setattr__"; "__setitem__";
   "__sizeof__"; "__str__"; "__subclasshook__"; "clear"; "copy"; "fromkeys"; "get"; "items";
   "keys"; "pop"; "popitem"; "setdefault"; "update"; "values"].

Definition list_attrs : list string :=
  ["__add__"; "__class__"; "__class_getitem__"; "__contains__"; "__delattr__"; "__delitem__";
   "__dir__"; "__doc__"; "__eq__"; "__format__"; "__ge__"; "__getattribute__"; "__getitem__";
   "__getstate__"; "__gt__"; "__hash__"; "__iadd__"; "__imul__"; "__init__";
   "__init_subclass__"; "__iter__"; "__le__"; "__len__"; "__lt__"; "__mul__"; "__ne__";
   "__new__"; "__reduce__"; "__reduce_ex__"; "__repr__"; "__reversed__"; "__rmul__";
   "__setattr__"; "__setitem__"; "__sizeof__"; "__str__"; "__subclasshook__"; "append";
   "clear"; "copy"; "count"; "extend"; "index"; "insert"; "pop"; "remove"; "reverse"; "sort"].

(** The value of the first item with key [k]. *)
Definition assoc {K} `{EqDecision K} (k : K) (items : list (K * pyval)) : option pyval :=
  match list_find (λ kv, kv.1 = k) items with Some (_, (_, v)) => Some v | None => None end.

(** [r[i]] for an [int] key. *)
Definition getitem_int (r : row) (i : Z) : result pyval :=
  match r with
  | RowDict items =>
      match assoc (DInt i) items with
      | Some v => Ok v
      | None => Err (PyExn KeyError (pretty i))
      end
  | RowSeries _ items => py_index (map snd items) i
  | RowSeq vs => py_index vs i
  end.

(** [r[c]] for a [str] key. *)
Definition getitem_str (r : row) (c : string) : result pyval :=
  let missing := Err (PyExn KeyError ("'" +:+ c +:+ "'")) in
  match r with
  | RowDict items => match assoc (DStr c) items with Some v => Ok v | None => missing end
  | RowSeries _ items => match assoc c items with Some v => Ok v | None => missing end
  | RowSeq _ => Err (PyExn TypeError "list indices must be integers or slices, not str")
  end.

Section Reader.
(** The attributes of a pandas [Series] (its methods and properties):
    pandas is a library the code only calls. *)
Context (series_has : string → bool).

(** [getattr(r, c)]: an attribute of the object's type first (a [dict]'s
    or a [list]'s methods are bound methods, not items); a [Series] then
    falls back to the value of the column [c]. *)
Definition getattr (r : row) (c : string) : result pyval :=
  match r with
  | RowDict _ =>
      if decide (c ∈ dict_attrs) then Ok (PyObj ("dict." +:+ c))
      else Err (PyExn AttributeError ("'dict' object has no attribute '" +:+ c +:+ "'"))
  | RowSeries name items =>
      if decide (c = "name") then Ok name
      else if series_has c then Ok (PyObj ("Series." +:+ c))
      else match assoc c items with
           | Some v => Ok v
           | None => Err (PyExn AttributeError ("'Series' object has no attribute '" +:+ c +:+ "'"))
           end
  | RowSeq _ =>
      if decide (c ∈ list_attrs) then Ok (PyObj ("list." +:+ c))
      else Err (PyExn AttributeError ("'list' object has no attribute '" +:+ c +:+ "'"))
  end.

(** The [pref] argument: a [str] or a [Path]. *)
Inductive pref_arg := PrefStr (s : string) | PrefPath (p : path).

Record ColReader := mkColReader {
  pref : string; suff : string; label_delim : option string; cols : list colspec
}.

(** [ColReader.__init__]: [os] is not imported by the module, so a [Path]
    prefix raises [NameError]. *)
Definition ColReader_init (cols : list colspec) (pref : pref_arg) (suff : string)
    (label_delim : option string) : result ColReader :=
  match pref with
  | PrefPath _ => Err (PyExn NameError "name 'os' is not defined")
  | PrefStr p => Ok (mkColReader p suff label_delim cols)
  end.

(** The access strategy of [_do_one], chosen by the specifier:
    [r[c] if isinstance(c,int) else r[c] if c=='name' or c=='cat' else getattr(r,c)] *)
Definition read_col (r : row) (c : colspec) : result pyval :=
  match c with
  | ColInt i => getitem_int r i
  | ColStr s => if decide (s = "name" ∨ s = "cat") then getitem_str r s else getattr r s
  end.

(** [ColReader._do_one(r, c)] *)
Definition _do_one (cr : ColReader) (r : row) (c : colspec) : result pyval :=
  o ← read_col r c;
  if decide (String.length (pref cr) = 0 ∧ String.length (suff cr) = 0 ∧ label_delim cr = None)
  then Ok o
  else match label_delim cr with
       | None => Ok (PyStr (pref cr +:+ py_str o +:+ suff cr))
       | Some d =>
           n ← py_len o;
           if decide (0 < n) then
             match o with
             | PyStr s => (λ ps, PyList (map PyStr ps)) <$> py_split d s
             | _ => Err (PyExn AttributeError "object has no attribute 'split'")
             end
           else Ok (PyList [])
       end.

(** [ColReader.__call__(o)] *)
Definition call (cr : ColReader) (r : row) : result pyval :=
  match cols cr with
  | [c] => _do_one cr r c
  | cs => PyList <$> res_map (_do_one cr r) cs
  end.

(** The shape of a split label: a [list] of [str]. *)
Definition is_str_list (v : pyval) : Prop := ∃ ss, v = PyList (map PyStr ss).

(** ** Lemmas *)

Lemma _do_one_format cr r c v :
  label_delim cr = None → (pref cr ≠ EmptyString ∨ suff cr ≠ EmptyString) →
  read_col r c = Ok v → _do_one cr r c = Ok (PyStr (pref cr +:+ py_str v +:+ suff cr)).
Proof.
  intros Hd Hps Hv. unfold _do_one. rewrite Hv. simpl. rewrite Hd.
  rewrite decide_False; [done|]. intros (Hp & Hs & _).
  destruct Hps as [Hps|Hps]; apply Hps; [destruct (pref cr)|destruct (suff cr)]; done.
Qed.

Lemma call_many cr r cs :
  cols cr = cs → length cs ≠ 1 → call cr r = PyList <$> res_map (_do_one cr r) cs.
Proof. intros Hc Hl. unfold call. rewrite Hc. destruct cs as [|c [|c2 cs]]; done. Qed.

Lemma _do_one_delim_type cr r c d v :
  label_delim cr = Some d → _do_one cr r c = Ok v → is_str_list v.
Proof.
  intros Hd. unfold _do_one. destruct (read_col r c) as [o|]; simpl; [|done].
  rewrite decide_False by (rewrite Hd; naive_solver). rewrite Hd.
  destruct (py_len o); simpl; [|done]. case_decide.
  - destruct o; try done. destruct (py_split d s); simpl; [|done]. intros [= <-]. by eexists.
  - intros [= <-]. by exists [].
Qed.

(** ** Properties *)

(** C8: with a delimiter, a non-empty [str] column is split into pieces
    that join back to the value and contain no delimiter; an empty string
    gives [[]], not [[""]]. *)
Theorem call_label_delim cr r c d s :
  cols cr = [c] → label_delim cr = Some d → d ≠ EmptyString → read_col r c = Ok (PyStr s) →
  match s with
  | EmptyString => call cr r = Ok (PyList [])
  | _ => ∃ l, call cr r = Ok (PyList (map PyStr l)) ∧
              String.concat d l = s ∧ Forall (λ p, contains d p = false) l
  end.
Proof.
  intros Hc Hd Hne Hv. unfold call. rewrite Hc. unfold _do_one. rewrite Hv. simpl.
  rewrite decide_False by (rewrite Hd; naive_solver). rewrite Hd. simpl.
  unfold py_split. destruct (String.eqb_spec d EmptyString) as [|_]; [done|].
  destruct s as [|ch s']; simpl; [done|].
  eexists. split; [reflexivity|]. split.
  - exact (split_fuel_concat (S (String.length (String ch s'))) d (String ch s') Hne).
  - exact (split_fuel_nosep (S (String.length (String ch s'))) d (String ch s') Hne ltac:(lia)).
Qed.

(** On a pandas row, several columns with a prefix or suffix and no
    delimiter give the list of formatted strings [f'{pref}{v}{suff}']. *)
Theorem call_format cr r vs :
  label_delim cr = None → (pref cr ≠ EmptyString ∨ suff cr ≠ EmptyString) →
  length (cols cr) ≠ 1 → Forall2 (λ c v, read_col r c = Ok v) (cols cr) vs →
  call cr r = Ok (PyList (map (λ v, PyStr (pref cr +:+ py_str v +:+ suff cr)) vs)).
Proof.
  intros Hd Hps Hl Hall. rewrite (call_many cr r (cols cr)) by done.
  assert (res_map (_do_one cr r) (cols cr) =
          Ok (map (λ v, PyStr (pref cr +:+ py_str v +:+ suff cr)) vs)) as ->; [|done].
  apply res_map_Ok. clear Hl. induction Hall; constructor; [|done].
  by apply _do_one_format.
Qed.

(** C29: on a [dict] row, a first [str] column other than ['name'] and
    ['cat'] is read with [getattr], which finds no item of the [dict]: the
    call raises [AttributeError] unless the column is named like a [dict]
    attribute (see [call_dict_method]). *)
Theorem call_dict_attribute_error cr items c cs :
  cols cr = ColStr c :: cs → c ≠ "name" → c ≠ "cat" → c ∉ dict_attrs →
  err_kind (call cr (RowDict items)) = Some AttributeError.
Proof.
  intros Hc Hn Hk Ha.
  assert (read_col (RowDict items) (ColStr c) =
          Err (PyExn AttributeError ("'dict' object has no attribute '" +:+ c +:+ "'"))) as Hr.
  { simpl. rewrite decide_False by naive_solver. by rewrite decide_False. }
  unfold call. rewrite Hc. unfold _do_one at 1. rewrite Hr.
  destruct cs; simpl; [done|]. unfold _do_one at 1. by rewrite Hr.
Qed.

(** On a pandas row, a column whose name is also a [Series]
    attribute (other than ['name'] and ['cat']) is not read: [getattr]
    returns the attribute, whatever the row holds in that column; on a
    [dict] row, a column named like a [dict] method gives the bound
    method. *)
Theorem call_series_attr_shadow cr nm items c :
  cols cr = [ColStr c] → series_has c = true → c ≠ "name" → c ≠ "cat" →
  pref cr = EmptyString → suff cr = EmptyString → label_delim cr = None →
  call cr (RowSeries nm items) = Ok (PyObj ("Series." +:+ c)).
Proof.
  intros Hc Ha Hn Hk Hp Hs Hd. unfold call. rewrite Hc. unfold _do_one. simpl.
  rewrite decide_False by naive_solver. rewrite decide_False by done.
  rewrite Ha. simpl. rewrite Hp, Hs, Hd. by rewrite decide_True.
Qed.

Theorem call_dict_method cr items c :
  cols cr = [ColStr c] → c ∈ dict_attrs → c ≠ "name" → c ≠ "cat" →
  pref cr = EmptyString → suff cr = EmptyString → label_delim cr = None →
  call cr (RowDict items) = Ok (PyObj ("dict." +:+ c)).
Proof.
  intros Hc Ha Hn Hk Hp Hs Hd. unfold call. rewrite Hc. unfold _do_one. simpl.
  rewrite decide_False by naive_solver. rewrite decide_True by done.
  simpl. rewrite Hp, Hs, Hd. by rewrite decide_True.
Qed.

(** C14: with a label delimiter, whatever the row and the columns, a
    successful call returns the type the label pipeline expects: a list of
    [str] for one column, a list of such lists for several. *)
Theorem call_delim_type cr r d v :
  label_delim cr = Some d → call cr r = Ok v →
  match cols cr with
  | [_] => is_str_list v
  | _ => ∃ vs, v = PyList vs ∧ Forall is_str_list vs
  end.
Proof.
  intros Hd. unfold call.
  assert (∀ cs vs, res_map (_do_one cr r) cs = Ok vs → Forall is_str_list vs) as Hall.
  { intros cs vs Hm%res_map_Ok. induction Hm; constructor; [by eapply _do_one_delim_type|done]. }
  destruct (cols cr) as [|c [|c2 cs]]; [| by eapply _do_one_delim_type |];
    destruct (res_map _ _) as [vs|] eqn:Hm; simpl; intros; simplify_eq; eauto.
Qed.

End Reader.
End ColRead.

(** ** Witnesses *)

Local Open Scope string_scope.
Import ColRead.

(** A few attributes of a pandas [Series], for the examples. *)
Definition pandas_attr (c : string) : bool :=
  bool_decide (c ∈ ["str"; "cat"; "dt"; "index"; "values"; "size"; "shape"; "dtype"; "sum"; "keys"]).

Lemma py_split_spec_witness :
  ∃ l, py_split ", " "pos, neg" = Ok l ∧ String.concat ", " l = "pos, neg" ∧
       Forall (λ p, contains ", " p = false) l.
Proof. apply py_split_spec. discriminate. Defined.

Definition labels_row : row := RowSeries (PyInt 0) [("text", PyStr "great"); ("labels", PyStr "pos;fun")].

Lemma call_label_delim_witness :
  ∃ l, call pandas_attr (mkColReader "" "" (Some ";") [ColStr "labels"]) labels_row = Ok (PyList (map PyStr l)) ∧
       String.concat ";" l = "pos;fun" ∧ Forall (λ p, contains ";" p = false) l.
Proof.
  exact (call_label_delim pandas_attr (mkColReader "" "" (Some ";") [ColStr "labels"]) labels_row
           (ColStr "labels") ";" "pos;fun" eq_refl eq_refl ltac:(discriminate) eq_refl).
Defined.

(** The example of the specification, on a pandas row. *)
Lemma call_format_witness :
  call pandas_attr (mkColReader "x_" "" None [ColStr "a"; ColStr "b"])
       (RowSeries (PyInt 0) [("a", PyInt 1); ("b", PyInt 2)]) = Ok (PyList [PyStr "x_1"; PyStr "x_2"]).
Proof.
  rewrite (call_format _ _ _ [PyInt 1; PyInt 2]); [reflexivity|done|left; discriminate|done|].
  repeat constructor.
Defined.

(** The example of the specification, on a [dict] row. *)
Lemma call_dict_attribute_error_witness :
  err_kind (call pandas_attr (mkColReader "x_" "" None [ColStr "a"; ColStr "b"])
                 (RowDict [(DStr "a", PyInt 1); (DStr "b", PyInt 2)])) = Some AttributeError.
Proof. by apply (call_dict_attribute_error _ _ _ "a" [ColStr "b"]); [..|py_decide]. Defined.

Lemma call_series_attr_shadow_witness :
  call pandas_attr (mkColReader "" "" None [ColStr "size"]) (RowSeries (PyInt 0) [("size", PyInt 3)]) =
  Ok (PyObj "Series.size").
Proof. by apply call_series_attr_shadow. Defined.

Definition split_labels : pyval := PyList [PyList [PyStr "pos"; PyStr "fun"]; PyList [PyStr "great"]].

Lemma call_delim_type_witness :
  call pandas_attr (mkColReader "" "" (Some ";") [ColStr "labels"; ColStr "text"]) labels_row = Ok split_labels ∧
  ∃ vs, split_labels = PyList vs ∧ Forall is_str_list vs.
Proof.
  split; [vm_compute; reflexivity|].
  exact (call_delim_type pandas_attr (mkColReader "" "" (Some ";") [ColStr "labels"; ColStr "text"]) labels_row ";"
           split_labels eq_refl ltac:(vm_compute; reflexivity)).
Defined.
