(* ===== verification/Splitter.v ===== *)
(** * Splitter: [RandomSplitter] of [src/adaptnlp/training/core.py]

    [RandomSplitter(valid_pct, seed)] (lines 155-165) returns [_inner],
    which draws a permutation of [range(len(o))] from torch's global
    generator (after reseeding it when [seed] is given) and cuts it at
    [int(valid_pct * len(o))].  The generator is the store of a [PyM]
    computation and is given by the [TorchRNG] interface.  [valid_pct] is
    a finite Python [float], an IEEE binary64 value [m * 2^e]; the product
    [valid_pct * len(o)] is rounded to 53 significant bits, to nearest with
    ties to even, before [int] truncates it toward zero. *)

From stdpp Require Import base list strings.
From Stdlib Require Import ZArith Lia.
From S2P Require Import Prelude.

(** The part of torch's random generator the splitter uses. *)
Class TorchRNG (G : Type) := {
  manual_seed : Z → G;                  (** [torch.manual_seed(s)]: the reseeded state *)
  randperm : nat → G → list nat * G     (** [torch.randperm(n)] and the next state *)
}.

Class TorchRNGLaws (G : Type) `{TorchRNG G} : Prop :=
  randperm_perm n g : (randperm n g).1 ≡ₚ seq 0 n.

(** ** Python floats *)

(** A finite [float]: the value [f_man * 2^f_exp], with [|f_man| < 2^53]. *)
Record pyfloat := mkFloat { f_man : Z; f_exp : Z }.

(** The number of bits of [|m|] ([1] for [0]). *)
Definition bitlen (m : Z) : Z := (Z.log2 (Z.abs m) + 1)%Z.

(** [m * 2^e] rounded to 53 significant bits, to nearest, ties to even.
    Below [2^-1022] IEEE rounds to a multiple of [2^-1074] instead; [int]
    gives [0] for every such value either way. *)
Definition round53 (m e : Z) : Z * Z :=
  let k := (bitlen m - 53)%Z in
  if (k <=? 0)%Z then (m, e) else
  let q := Z.shiftr m k in
  let r := (m - Z.shiftl q k)%Z in
  let h := Z.shiftl 1 (k - 1)%Z in
  let q' := if (r <? h)%Z then q else if (h <? r)%Z then (q + 1)%Z
            else if Z.even q then q else (q + 1)%Z in
  (q', (e + k)%Z).

(** [x * n] for an [int] [n]: the rounded product, or [None] when it
    overflows to infinity. *)
Definition fmul_int (x : pyfloat) (n : Z) : option (Z * Z) :=
  let '(m, e) := round53 (f_man x * n) (f_exp x) in
  if bool_decide (m ≠ 0 ∧ 1024 < e + bitlen m)%Z then None else Some (m, e).

(** [int(v)] of a finite float [m * 2^e]: truncation toward zero. *)
Definition float_trunc (m e : Z) : Z :=
  if (0 <=? e)%Z then Z.shiftl m e else Z.quot m (2 ^ (- e)).

(** [x ≤ n] for a float [x] and an integer [n]. *)
Definition float_le_int (x : pyfloat) (n : Z) : Prop :=
  (f_man x * 2 ^ Z.max 0 (f_exp x) ≤ n * 2 ^ Z.max 0 (- f_exp x))%Z.

Module Split.
Section Splitter.
Context {G : Type} `{TorchRNG G}.

(** [int(valid_pct * n)]: the float product, then truncation toward
    zero; [int(inf)] raises [OverflowError]. *)
Definition cut_of (valid_pct : pyfloat) (n : nat) : result Z :=
  match fmul_int valid_pct (Z.of_nat n) with
  | Some (m, e) => Ok (float_trunc m e)
  | None => Err (PyExn OverflowError "cannot convert float infinity to integer"%string)
  end.

(** [RandomSplitter(valid_pct, seed)(o)]: returns [(train, valid)]. *)
Definition RandomSplitter {A} (valid_pct : pyfloat) (seed : option Z) (o : list A)
    : PyM G (list nat * list nat) :=
  (match seed with Some s => modify (λ _, manual_seed s) | None => mret () end) ;;
  rand_idx ← step (randperm (length o));
  cut ← lift (cut_of valid_pct (length o));
  mret (py_slice_from rand_idx cut, py_slice_to rand_idx cut).

Lemma RandomSplitter_run {A} valid_pct seed (o : list A) g :
  RandomSplitter valid_pct seed o g =
    let g0 := match seed with Some s => manual_seed s | None => g end in
    ((randperm (length o) g0).2,
     (λ cut, (py_slice_from (randperm (length o) g0).1 cut, py_slice_to (randperm (length o) g0).1 cut))
       <$> cut_of valid_pct (length o)).
Proof.
  unfold RandomSplitter. pym_unfold. destruct seed; simpl;
    destruct (randperm (length o) _); simpl; by destruct (cut_of _ _).
Qed.

(** ** Lemmas on float arithmetic *)

Lemma bitlen_spec a : (0 < a)%Z → (2 ^ (bitlen a - 1) ≤ a < 2 ^ bitlen a)%Z.
Proof.
  intros Ha. unfold bitlen. rewrite Z.abs_eq by lia. rewrite Z.add_simpl_r.
  destruct (Z.log2_spec a Ha) as [H1 H2]. rewrite Z.pow_succ_r in H2 by apply Z.log2_nonneg.
  rewrite Z.pow_add_r, Z.pow_1_r by (lia || apply Z.log2_nonneg). lia.
Qed.

Lemma bitlen_le a p : (0 ≤ p)%Z → (0 ≤ a ≤ 2 ^ p)%Z → (bitlen a ≤ p + 1)%Z.
Proof.
  intros Hp Ha. unfold bitlen. rewrite Z.abs_eq by lia.
  enough (Z.log2 a ≤ p)%Z by lia. rewrite <- (Z.log2_pow2 p) by done. apply Z.log2_le_mono. lia.
Qed.

Lemma float_trunc_nonpos q e : (e ≤ 0)%Z → float_trunc q e = Z.quot q (2 ^ (- e)).
Proof.
  intros He. unfold float_trunc. destruct (Z.leb_spec 0 e); [|done].
  replace e with 0%Z by lia. by rewrite Z.shiftl_0_r, Z.quot_1_r.
Qed.

(** [round53] keeps a value of at most 53 bits, and otherwise divides by
    [2^k] for the [k] extra bits, rounding up only a value that is not a
    multiple of [2^k]. *)
Lemma round53_cases m e :
  (0 ≤ m)%Z →
  ((bitlen m - 53 ≤ 0)%Z ∧ round53 m e = (m, e)) ∨
  ((0 < bitlen m - 53)%Z ∧ ∃ q, round53 m e = (q, (e + (bitlen m - 53))%Z) ∧
     (q = m / 2 ^ (bitlen m - 53) ∨ q = m / 2 ^ (bitlen m - 53) + 1 ∧ 0 < m mod 2 ^ (bitlen m - 53))%Z).
Proof.
  intros Hm. unfold round53. cbv zeta.
  destruct (Z.leb_spec (bitlen m - 53) 0) as [Hk|Hk]; [by left|right].
  split; [done|]. set (k := (bitlen m - 53)%Z) in *.
  rewrite Z.shiftr_div_pow2, !Z.shiftl_mul_pow2, Z.mul_1_l by lia.
  assert (m - m / 2 ^ k * 2 ^ k = m mod 2 ^ k)%Z as ->.
  { rewrite (Z.div_mod m (2 ^ k)) at 1 by (apply Z.pow_nonzero; lia). lia. }
  assert (0 < 2 ^ (k - 1))%Z by (apply Z.pow_pos_nonneg; lia).
  destruct (Z.ltb_spec (m mod 2 ^ k) (2 ^ (k - 1))); [eexists; split; [reflexivity|by left]|].
  destruct (Z.ltb_spec (2 ^ (k - 1)) (m mod 2 ^ k)); [eexists; split; [reflexivity|right; lia]|].
  destruct (Z.even _); eexists; (split; [reflexivity|]); [left|right]; lia.
Qed.

Section Bounds.
Context (x : pyfloat) (n : nat).
Hypothesis Hm : (0 ≤ f_man x)%Z.
Hypothesis Hle : float_le_int x 1.
Hypothesis Hn : (Z.of_nat n < 2 ^ 53)%Z.

Let M := (f_man x * Z.of_nat n)%Z.

Lemma M_nonneg : (0 ≤ M)%Z.
Proof. unfold M. lia. Qed.

(** The exact product is at most [n]. *)
Lemma M_le : (M * 2 ^ Z.max 0 (f_exp x) ≤ Z.of_nat n * 2 ^ Z.max 0 (- f_exp x))%Z.
Proof.
  unfold M, float_le_int in *.
  assert (0 < 2 ^ Z.max 0 (f_exp x))%Z by (apply Z.pow_pos_nonneg; lia).
  assert (0 < 2 ^ Z.max 0 (- f_exp x))%Z by (apply Z.pow_pos_nonneg; lia). nia.
Qed.

Lemma M_pos : (0 < bitlen M - 53)%Z → (0 < M)%Z.
Proof.
  intros Hk. pose proof M_nonneg. destruct (Z.eq_dec M 0) as [E|]; [|lia].
  rewrite E in Hk. vm_compute in Hk. discriminate.
Qed.

(** A product of more than 53 bits has a negative exponent, and the
    rounded result has an exponent [≤ 0]. *)
Lemma M_exp_le : (0 < bitlen M - 53)%Z → (f_exp x + (bitlen M - 53) ≤ 0)%Z.
Proof.
  intros Hk. pose proof M_le as HMle. pose proof (M_pos Hk) as HM.
  destruct (bitlen_spec M) as [Hlo _]; [lia|].
  replace (bitlen M - 1)%Z with ((bitlen M - 53) + 52)%Z in Hlo by lia.
  set (k := (bitlen M - 53)%Z) in *.
  destruct (Z.leb_spec 0 (f_exp x)) as [He|He].
  - rewrite Z.max_r, Z.max_l, Z.pow_0_r in HMle by lia.
    assert (2 ^ 53 ≤ 2 ^ (k + 52))%Z by (apply Z.pow_le_mono_r; lia).
    assert (0 < 2 ^ f_exp x)%Z by (apply Z.pow_pos_nonneg; lia). nia.
  - rewrite Z.max_l, Z.max_r, Z.pow_0_r in HMle by lia.
    assert (0 < 2 ^ (- f_exp x))%Z by (apply Z.pow_pos_nonneg; lia).
    assert (2 ^ (k + 52) < 2 ^ (53 + - f_exp x))%Z as Hlt by (rewrite (Z.pow_add_r 2 53 (- f_exp x)) by lia; nia).
    apply Z.pow_lt_mono_r_iff in Hlt; lia.
Qed.

(** For [0 ≤ x ≤ 1] and [n < 2^53], [int(x * n)] is between [0] and [n]:
    the product does not overflow and rounding never reaches [n + 1]. *)
Lemma cut_of_bounds : ∃ c, cut_of x n = Ok c ∧ (0 ≤ c ≤ Z.of_nat n)%Z.
Proof.
  unfold cut_of, fmul_int. change (f_man x * Z.of_nat n)%Z with M.
  pose proof M_nonneg as HM0. pose proof M_le as HMle.
  destruct (round53_cases M (f_exp x) HM0) as [[Hk ->]|[Hk (q & -> & Hq)]].
  - rewrite bool_decide_false.
    + eexists; split; [reflexivity|]. unfold float_trunc. destruct (Z.leb_spec 0 (f_exp x)).
      * rewrite Z.max_r, Z.max_l, Z.pow_0_r in HMle by lia. rewrite Z.shiftl_mul_pow2 by lia.
        assert (0 < 2 ^ f_exp x)%Z by (apply Z.pow_pos_nonneg; lia). nia.
      * rewrite Z.max_l, Z.max_r, Z.pow_0_r in HMle by lia.
        assert (0 < 2 ^ (- f_exp x))%Z by (apply Z.pow_pos_nonneg; lia).
        rewrite Z.quot_div_nonneg by lia. split; [apply Z.div_pos; lia|].
        apply Z.div_le_upper_bound; lia.
    + intros [HMnz Hov]. rewrite Z.max_r, Z.max_l, Z.pow_0_r in HMle by lia.
      assert (0 < 2 ^ f_exp x)%Z by (apply Z.pow_pos_nonneg; lia).
      assert (2 ^ f_exp x < 2 ^ 53)%Z as Hlt by nia.
      apply Z.pow_lt_mono_r_iff in Hlt; lia.
  - pose proof (M_exp_le Hk) as Hek. set (k := (bitlen M - 53)%Z) in *.
    assert (0 < 2 ^ k)%Z by (apply Z.pow_pos_nonneg; lia).
    destruct (bitlen_spec M) as [_ Hhi]; [by apply M_pos|].
    replace (bitlen M) with (53 + k)%Z in Hhi by lia. rewrite Z.pow_add_r in Hhi by lia.
    assert (M / 2 ^ k < 2 ^ 53)%Z by (apply Z.div_lt_upper_bound; lia).
    assert (0 ≤ M / 2 ^ k)%Z by (apply Z.div_pos; lia).
    rewrite bool_decide_false.
    + eexists; split; [reflexivity|]. rewrite float_trunc_nonpos by lia.
      set (j := (- (f_exp x + k))%Z).
      assert (0 < 2 ^ j)%Z by (apply Z.pow_pos_nonneg; lia).
      rewrite Z.max_l, Z.max_r, Z.pow_0_r in HMle by lia.
      replace (- f_exp x)%Z with (j + k)%Z in HMle by lia. rewrite Z.pow_add_r in HMle by lia.
      assert (M / 2 ^ k ≤ Z.of_nat n * 2 ^ j)%Z by (apply Z.div_le_upper_bound; lia).
      assert (q ≤ Z.of_nat n * 2 ^ j)%Z.
      { destruct Hq as [->|[-> Hr]]; [done|].
        pose proof (Z.div_mod M (2 ^ k) ltac:(lia)). nia. }
      rewrite Z.quot_div_nonneg by lia. split; [apply Z.div_pos; lia|].
      apply Z.div_le_upper_bound; lia.
    + intros [_ Hov]. assert (bitlen q ≤ 54)%Z; [|lia].
      apply (bitlen_le q 53); lia.
Qed.

End Bounds.

(** ** Properties *)

(** C4: whatever [valid_pct] (even negative or above 1), the validation
    and training indices together are a permutation of [range(len(o))]:
    disjoint and covering every index once. *)
Theorem RandomSplitter_partition `{!TorchRNGLaws G} {A} valid_pct seed (o : list A) g g' train valid :
  RandomSplitter valid_pct seed o g = (g', Ok (train, valid)) →
  valid ++ train ≡ₚ seq 0 (length o).
Proof.
  rewrite RandomSplitter_run. simpl. destruct (cut_of _ _); simpl; [|done]. intros [= _ <- <-].
  by rewrite py_slice_to_from, randperm_perm.
Qed.

(** C6: for a float [0 ≤ valid_pct ≤ 1] and fewer than [2^53] items, the
    validation set has [int(valid_pct * len(o))] indices, the product
    rounded to binary64 and then truncated (where the specification
    rounds), a count between [0] and [len(o)], and the training set has
    the rest. *)
Theorem RandomSplitter_sizes `{!TorchRNGLaws G} {A} valid_pct seed (o : list A) g g' train valid :
  (0 ≤ f_man valid_pct)%Z → float_le_int valid_pct 1 → (Z.of_nat (length o) < 2 ^ 53)%Z →
  RandomSplitter valid_pct seed o g = (g', Ok (train, valid)) →
  ∃ c, cut_of valid_pct (length o) = Ok c ∧ (0 ≤ c ≤ Z.of_nat (length o))%Z ∧
       length valid = Z.to_nat c ∧ length train = length o - length valid.
Proof.
  intros Hm Hle Hn. destruct (cut_of_bounds valid_pct (length o) Hm Hle Hn) as (c & Hc & Hb).
  rewrite RandomSplitter_run, Hc. simpl. intros [= _ <- <-].
  exists c. rewrite length_py_slice_to, length_py_slice_from, randperm_perm, length_seq.
  rewrite py_slice_bound_nonneg by lia. split_and!; (done || lia).
Qed.

End Splitter.
End Split.

(** ** Witnesses

    A deterministic generator: the state counts the draws and [randperm n]
    rotates [range(n)] by that count. *)

#[local] Instance counter_rng : TorchRNG nat := {|
  manual_seed s := Z.to_nat s;
  randperm n g := (drop (g mod n) (seq 0 n) ++ take (g mod n) (seq 0 n), S g)
|}.

#[local] Instance counter_rng_laws : TorchRNGLaws nat.
Proof. intros n g. simpl. by rewrite Permutation_app_comm, take_drop. Qed.

(** The binary64 floats [0.25], [0.7] ([3152519739159347 * 2^-52]) and
    [0.29] ([5224175567749775 * 2^-54]). *)
Definition f_quarter : pyfloat := mkFloat 1 (-2).
Definition f_07 : pyfloat := mkFloat 3152519739159347 (-52).
Definition f_029 : pyfloat := mkFloat 5224175567749775 (-54).

Lemma RandomSplitter_partition_witness : [3; 4] ++ [5; 6; 7; 0; 1; 2] ≡ₚ seq 0 8.
Proof.
  apply (Split.RandomSplitter_partition f_quarter None (seq 0 8) 3 4). vm_compute. reflexivity.
Defined.

(** [int(0.7 * 10) = 7]: the product rounds up to [7.0]; the exact value
    of the float [0.7] times [10] is below [7]. *)
Lemma RandomSplitter_sizes_witness :
  Split.cut_of f_07 10 = Ok 7%Z ∧ Split.cut_of f_029 100 = Ok 28%Z ∧
  ∃ c, Split.cut_of f_07 (length (seq 0 10)) = Ok c ∧ (0 ≤ c ≤ Z.of_nat (length (seq 0 10)))%Z ∧
       length [0; 1; 2; 3; 4; 5; 6] = Z.to_nat c ∧ length [7; 8; 9] = length (seq 0 10) - length [0; 1; 2; 3; 4; 5; 6].
Proof.
  split; [vm_compute; reflexivity|]. split; [vm_compute; reflexivity|].
  apply (Split.RandomSplitter_sizes f_07 None (seq 0 10) 0 1).
  - simpl. lia.
  - unfold float_le_int. vm_compute. intros H. discriminate.
  - simpl. lia.
  - vm_compute. reflexivity.
Defined.
