(* ===== verification/DataLoaders.v ===== *)
(** * DataLoaders: [AdaptiveDataLoaders] of [src/adaptnlp/training/core.py]

    The loader bundle (lines 267-336) keeps a train and a validation
    [DataLoader], the tokenizer and the label keys.  [show_batch] pulls one
    batch, checks the sample count, and either builds a raw table or decodes
    the batch into a table it displays.  The store of a [show_batch] run is
    the printed lines, the displayed tables and torch's generator (a shuffled
    loader draws its order from it).  The tokenizer, the collation function
    and the label encoder attached as [categorize] are interfaces: the
    tokenizer's [batch_decode] is a field of [tokenizer], the encoder is any
    [LabelCodec] whose ids are Python ints. *)

From stdpp Require Import base gmap strings list pretty.
From Stdlib Require Import ZArith Lia.
From S2P Require Import Prelude Categorize Splitter.

(** A transformers tokenizer, as far as the code uses it. *)
Record tokenizer := mkTokenizer {
  name_or_path : string;
  model_max_length : Z;
  tok_len : nat;                                (** [len(tokenizer)] *)
  batch_decode : list pyval → list string       (** [batch_decode(ids, skip_special_tokens=True)] *)
}.

(** [if tokenizer:] calls [__len__]; [None] is false. *)
Definition tok_truthy (t : option tokenizer) : bool :=
  match t with Some t => bool_decide (0 < tok_len t) | None => false end.

(** A dataset row: a map from column name to value. *)
Abbreviation row := (gmap string pyval).

(** A collated batch: each field with its per-example values. *)
Abbreviation batch := (gmap string (list pyval)).

Record DataLoader := mkDataLoader {
  dl_dataset : list row;
  dl_shuffle : bool;
  dl_collate : list row → batch;
  dl_batch_size : nat
}.

(** A table cell: a raw value, a decoded string, or a decoded label. *)
Inductive cell (X : Type) := CellVal (v : pyval) | CellStr (s : string) | CellLabel (x : X).
Arguments CellVal {X} v.
Arguments CellStr {X} s.
Arguments CellLabel {X} x.

Record table (X : Type) := mkTable { tbl_columns : list string; tbl_rows : list (list (cell X)) }.
Arguments mkTable {X} _ _.
Arguments tbl_columns {X} _.
Arguments tbl_rows {X} _.

Module Loaders.
Section Bundle.
Context {G : Type} `{TorchRNG G}.
Context {C X : Type} `{LabelCodec C X Z}.

(** The bundle; [adl_categorize] is the optional [categorize] attribute
    that [show_batch] probes with [hasattr]. *)
Record AdaptiveDataLoaders := mkADL {
  adl_loaders : list DataLoader;
  adl_tokenizer : option tokenizer;
  adl_label_keys : list string;
  adl_path : string;
  adl_categorize : option C
}.

(** The store of a [show_batch] run. *)
Record dl_world := mkDW { dw_rng : G; dw_out : list string; dw_shown : list (table X) }.

Definition print (msg : string) : PyM dl_world unit :=
  modify (λ w, mkDW (dw_rng w) (dw_out w ++ [msg]) (dw_shown w)).

(** [display_df(df)] *)
Definition display (t : table X) : PyM dl_world unit :=
  modify (λ w, mkDW (dw_rng w) (dw_out w) (dw_shown w ++ [t])).

(** [AdaptiveDataLoaders.__init__(train_dl, valid_dl, tokenizer, label_keys)] *)
Definition AdaptiveDataLoaders_init (loaders : list DataLoader) (tok : option tokenizer)
    (label_keys : list string) : AdaptiveDataLoaders :=
  mkADL loaders tok label_keys "." None.

(** The sampler's order: a fresh permutation from the generator when the
    loader shuffles, [range(len(dataset))] otherwise. *)
Definition sample_order (dl : DataLoader) (g : G) : list nat * G :=
  if dl_shuffle dl then randperm (length (dl_dataset dl)) g else (seq 0 (length (dl_dataset dl)), g).

(** [next(iter(dl))]: the collation of the first [batch_size] examples in
    the sampler's order; an empty dataset raises [StopIteration]. *)
Definition first_batch (dl : DataLoader) : PyM dl_world batch :=
  order ← (λ w, let '(p, g') := sample_order dl (dw_rng w) in (mkDW g' (dw_out w) (dw_shown w), Ok p));
  match dl_dataset dl with
  | [] => throw (PyExn StopIteration "")
  | _ => mret (dl_collate dl (flat_map (λ i, from_option (λ r, [r]) [] (dl_dataset dl !! i))
                                       (take (dl_batch_size dl) order)))
  end.

(** [batch[k]] *)
Definition field (b : batch) (k : string) : result (list pyval) :=
  match b !! k with Some vs => Ok vs | None => Err (PyExn KeyError ("'" +:+ k +:+ "'")) end.

(** The raw branch: one row per sample, each field's value and shape. *)
Definition raw_rows (b : batch) (n : nat) : result (list (list (cell X))) :=
  res_map (λ i : nat, (λ cs, concat cs) <$> res_map (λ kv : string * list pyval,
                  v ← py_index kv.2 (Z.of_nat i); Ok [CellVal v; CellVal (PyStr "shape")])
                (map_to_list b)) (seq 0 n).

(** The decoding of the [j]-th label of a sample: through the attached
    encoder for [labels]/[label], else as generated text
    ([batch_decode(lbl.unsqueeze(0))[0]]); other keys as they are. *)
Definition decode_label (adl : AdaptiveDataLoaders) (tok : tokenizer) (key : string) (v : pyval)
    : result (cell X) :=
  if decide (key = "labels" ∨ key = "label") then
    match adl_categorize adl with
    | Some c =>
        match v with
        | PyInt z => CellLabel <$> codec_decode c z
        | _ => Err (PyExn TypeError "only integer scalar arrays can be converted to a scalar index")
        end
    | None =>
        match batch_decode tok [v] with
        | s :: _ => Ok (CellStr s)
        | [] => Err (PyExn IndexError "list index out of range")
        end
    end
  else Ok (CellVal v).

(** The decoded branch: [inputs], then each sample's decoded labels. *)
Definition decoded_rows (adl : AdaptiveDataLoaders) (tok : tokenizer) (b : batch) (ids : list pyval)
    : result (list (list (cell X))) :=
  let inputs := batch_decode tok ids in
  lbls ← res_map (λ i, res_map (λ l, vs ← field b l; py_index vs (Z.of_nat i)) (adl_label_keys adl))
                 (seq 0 (length ids));
  dec ← res_map (λ ls, res_map (λ kv : string * pyval, decode_label adl tok kv.1 kv.2)
                                (zip (adl_label_keys adl) ls)) lbls;
  Ok (zip_with (λ inp ls, CellStr inp :: ls) inputs dec).

(** Lines 291-336 of [show_batch], once the batch [b] and its
    [input_ids] are fetched. *)
Definition show_batch_body (adl : AdaptiveDataLoaders) (b : batch) (ids : list pyval) (n : Z) (raw : bool)
    : PyM dl_world unit :=
  n ← (if bool_decide (Z.of_nat (length ids) < n)%Z then
         print "`n` is larger than one batch, printing entire batch" ;; mret (Z.of_nat (length ids))
       else mret n);
  (if bool_decide (n < 1)%Z then
     throw (PyExn ValueError "Tried to show zero samples, please enter a value for `n` greater than 0")
   else mret ()) ;;
  (if negb (tok_truthy (adl_tokenizer adl)) && negb raw then
     print "Cannot decode without a tokenizer, printing raw outputs.."
   else mret ()) ;;
  match adl_tokenizer adl with
  | Some tok =>
      if raw || negb (tok_truthy (Some tok)) then
        rows ← lift (raw_rows b (Z.to_nat n)); mret ()
      else
        rows ← lift (decoded_rows adl tok b ids);
        display (mkTable ("Input" :: map py_title (adl_label_keys adl)) (take (Z.to_nat n) rows))
  | None => rows ← lift (raw_rows b (Z.to_nat n)); mret ()
  end.

(** [AdaptiveDataLoaders.show_batch(ds_idx, n, raw)] *)
Definition show_batch (adl : AdaptiveDataLoaders) (ds_idx : Z) (n : Z) (raw : bool)
    : PyM dl_world unit :=
  dl ← lift (py_index (adl_loaders adl) ds_idx);
  b ← first_batch dl;
  ids ← lift (field b "input_ids");
  show_batch_body adl b ids n raw.

(** The tokenizer contract [show_batch] relies on: one decoded string per
    sequence of ids. *)
Definition tok_wf (tok : tokenizer) : Prop := ∀ ids, length (batch_decode tok ids) = length ids.

(** ** Lemmas *)

Lemma res_map_seq_index {A} (l : list A) :
  res_map (λ i : nat, py_index l (Z.of_nat i)) (seq 0 (length l)) = Ok l.
Proof.
  apply res_map_Ok, Forall2_lookup. intros i.
  destruct (decide (i < length l)) as [Hi|Hi].
  - rewrite lookup_seq_lt by done. simpl. destruct (lookup_lt_is_Some_2 l i Hi) as [x Hx].
    rewrite Hx. constructor. by rewrite py_index_nat, Hx.
  - rewrite lookup_seq_ge, lookup_ge_None_2 by lia. constructor.
Qed.

Lemma decoded_rows_length adl tok b ids rows :
  tok_wf tok → decoded_rows adl tok b ids = Ok rows → length rows = length ids.
Proof.
  intros Hwf. unfold decoded_rows. simpl.
  destruct (res_map _ (seq 0 (length ids))) as [lbls|] eqn:Hl; [|done]. simpl.
  destruct (res_map _ lbls) as [dec|] eqn:Hd; [|done]. intros [= <-].
  apply res_map_length in Hl, Hd. rewrite length_seq in Hl.
  rewrite length_zip_with, Hwf. lia.
Qed.

(** ** Properties *)

(** [show_batch] raises [ValueError] whenever the sample count, after
    clamping to the batch size, is below 1: for [n < 1] and for an empty
    batch alike. *)
Theorem show_batch_zero_samples adl b ids n raw w :
  (Z.min n (Z.of_nat (length ids)) < 1)%Z →
  (show_batch_body adl b ids n raw w).2 =
    Err (PyExn ValueError "Tried to show zero samples, please enter a value for `n` greater than 0").
Proof.
  intros Hn. unfold show_batch_body, print, display. pym_unfold. simpl.
  case_bool_decide; simpl; rewrite bool_decide_true by lia; reflexivity.
Qed.

(** C9: in decoded mode [show_batch] displays exactly one table, headed
    ["Input"] and the title-cased label keys, with [min(n, len(batch))] decoded rows,
    and prints the clamping notice only when [n] exceeds the batch. *)
Theorem show_batch_decoded adl tok b ids n w rows :
  tok_wf tok → adl_tokenizer adl = Some tok → tok_truthy (Some tok) = true →
  (1 ≤ n)%Z → 1 ≤ length ids → decoded_rows adl tok b ids = Ok rows →
  ∃ t, show_batch_body adl b ids n false w =
         (mkDW (dw_rng w)
               (dw_out w ++ if bool_decide (Z.of_nat (length ids) < n)%Z
                            then ["`n` is larger than one batch, printing entire batch"] else [])
               (dw_shown w ++ [t]), Ok ()) ∧
       tbl_columns t = "Input" :: map py_title (adl_label_keys adl) ∧
       tbl_rows t = take (Z.to_nat (Z.min n (Z.of_nat (length ids)))) rows ∧
       length (tbl_rows t) = Z.to_nat (Z.min n (Z.of_nat (length ids))).
Proof.
  intros Hwf Htok Htr Hn Hlen Hrows.
  pose proof (decoded_rows_length _ _ _ _ _ Hwf Hrows) as Hl.
  exists (mkTable ("Input" :: map py_title (adl_label_keys adl)) (take (Z.to_nat (Z.min n (Z.of_nat (length ids)))) rows)).
  split; [|split_and!; [done|done|simpl; rewrite length_take; lia]].
  unfold show_batch_body, print, display. pym_unfold. simpl. rewrite Htok. simpl in *. rewrite Htr. simpl.
  destruct (decide (Z.of_nat (length ids) < n)%Z) as [Hc|Hc];
    [rewrite (bool_decide_true (Z.of_nat (length ids) < n)%Z) by done
    |rewrite (bool_decide_false (Z.of_nat (length ids) < n)%Z) by done]; simpl.
  - rewrite (bool_decide_false (Z.of_nat (length ids) < 1)%Z) by lia. simpl. rewrite Hrows. simpl.
    replace (Z.min n (Z.of_nat (length ids))) with (Z.of_nat (length ids)) by lia. done.
  - rewrite (bool_decide_false (n < 1)%Z) by lia. simpl. rewrite Hrows. simpl.
    rewrite app_nil_r. replace (Z.min n (Z.of_nat (length ids))) with n by lia. done.
Qed.

(** C23: in raw mode (or without a usable tokenizer) [show_batch] builds
    its table but never displays it: [display_df] is only reached in the
    decoded branch. *)
Theorem show_batch_raw_not_displayed adl b ids n raw w :
  raw = true ∨ tok_truthy (adl_tokenizer adl) = false →
  dw_shown (show_batch_body adl b ids n raw w).1 = dw_shown w.
Proof.
  intros Hraw. unfold show_batch_body, print, display. pym_unfold.
  assert (raw || negb (tok_truthy (adl_tokenizer adl)) = true) as Hr.
  { destruct Hraw as [->| ->]; [done|by destruct raw]. }
  destruct (adl_tokenizer adl) as [tok|]; simpl in *;
    [destruct (raw || negb (bool_decide (0 < tok_len tok))); [|done]|];
    repeat (simpl; match goal with
                   | |- context [if ?c then _ else _] => destruct c
                   | |- context [match ?r with Ok _ => _ | Err _ => _ end] => destruct r
                   end); done.
Qed.

(** C24: with a label encoder attached as [categorize] and targets that
    it encoded, the decoded table shows the original labels: the
    classification path of [show_batch] is correct for any encoder that
    satisfies the [LabelCodec] laws. *)
Theorem decoded_rows_labels `{!LabelCodecLaws C X Z} adl tok b ids c xs ys :
  adl_categorize adl = Some c → codec_wf c → adl_label_keys adl = ["labels"] →
  b !! "labels" = Some (map PyInt ys) → Forall2 (λ x y, codec_encode c x = Ok y) xs ys →
  length ys = length ids →
  decoded_rows adl tok b ids = Ok (zip_with (λ inp x, [CellStr inp; CellLabel x]) (batch_decode tok ids) xs).
Proof.
  intros Hc Hwf Hk Hb Hxy Hlen. unfold decoded_rows. rewrite Hk.
  assert (res_map (λ i : nat, res_map (λ l, vs ← field b l; py_index vs (Z.of_nat i)) ["labels"])
                  (seq 0 (length ids)) = Ok (map (λ y, [PyInt y]) ys)) as ->.
  { rewrite (res_map_ext _ (λ i : nat, (λ v, [v]) <$> py_index (map PyInt ys) (Z.of_nat i))).
    - rewrite res_map_fmap, <- Hlen, <- (length_map PyInt ys), res_map_seq_index. simpl.
      by rewrite map_map.
    - intros i. simpl. unfold field. rewrite Hb. simpl. by destruct (py_index _ _). }
  unfold mbind at 1; simpl. assert (res_map (λ ls, res_map (λ kv : string * pyval, decode_label adl tok kv.1 kv.2)
                           (zip ["labels"] ls)) (map (λ y, [PyInt y]) ys) =
                 Ok (map (λ x, [CellLabel x]) xs)) as Hd.
  { clear Hb Hlen. apply res_map_Ok. induction Hxy as [|x y xs ys Hxy _ IH]; simpl; [done|apply List.Forall2_cons; [|exact IH]].
    simpl. unfold decode_label. rewrite decide_True by (by left). rewrite Hc. simpl.
    by rewrite (codec_roundtrip c x y Hwf Hxy). }
  simpl in Hd. rewrite Hd.
  simpl. f_equal. clear. revert xs. generalize (batch_decode tok ids). induction l; intros [|x xs]; simpl; by f_equal.
Qed.

End Bundle.
End Loaders.

(** ** Witnesses *)

Local Open Scope string_scope.
Import Loaders.

#[local] Instance fixed_rng : TorchRNG unit := {|
  manual_seed _ := ();
  randperm n g := (seq 0 n, g)
|}.


(** A loader over three rows, two per batch, collating the rows' columns
    into lists. *)
Definition rows_collate (rs : list row) : batch :=
  foldr (λ r b, merge (λ x y, Some (app (default [] x) (default [] y)))
                      ((λ v, [v]) <$> r) b) ∅ rs.

Definition three_rows : list row :=
  [<["x" := PyInt 1]> ∅; <["x" := PyInt 2]> ∅; <["x" := PyInt 3]> ∅].

Definition demo_dl : DataLoader := mkDataLoader three_rows false rows_collate 2.

(** A tokenizer whose [batch_decode] prints each sequence of ids. *)
Definition demo_tok : tokenizer := mkTokenizer "bert-base-uncased" 512 100 (map py_str).

Lemma demo_tok_wf : tok_wf demo_tok.
Proof. intros ids. apply length_map. Qed.

Definition demo_vocab : LabelEncoder.categorize (A:=string) := LabelEncoder.Categorize ["neg"; "pos"] true.

Definition demo_adl : AdaptiveDataLoaders (C:=LabelEncoder.categorize (A:=string)) :=
  mkADL [] (Some demo_tok) ["labels"] "." (Some demo_vocab).

Definition demo_ids : list pyval := [PyList [PyInt 101; PyInt 7]; PyList [PyInt 101; PyInt 8]].

Definition demo_batch : batch :=
  <["input_ids" := demo_ids]> (<["labels" := [PyInt 1; PyInt 0]]> ∅).

Definition demo_world : dl_world (G:=unit) (X:=string) := mkDW () [] [].

Lemma show_batch_zero_samples_witness :
  (show_batch_body demo_adl demo_batch demo_ids 0 false demo_world).2 =
    Err (PyExn ValueError "Tried to show zero samples, please enter a value for `n` greater than 0").
Proof. apply show_batch_zero_samples. simpl. lia. Defined.

Lemma show_batch_decoded_witness :
  ∃ t, show_batch_body demo_adl demo_batch demo_ids 5 false demo_world =
         (mkDW () (["`n` is larger than one batch, printing entire batch"]) [t], Ok ()) ∧
       tbl_columns t = ["Input"; "Labels"] ∧
       tbl_rows t = take 2 [[CellStr "[101, 7]"; CellLabel "pos"]; [CellStr "[101, 8]"; CellLabel "neg"]] ∧
       length (tbl_rows t) = 2.
Proof.
  exact (show_batch_decoded demo_adl demo_tok demo_batch demo_ids 5 demo_world
           [[CellStr "[101, 7]"; CellLabel "pos"]; [CellStr "[101, 8]"; CellLabel "neg"]]
           demo_tok_wf eq_refl eq_refl ltac:(lia) ltac:(simpl; lia) ltac:(vm_compute; reflexivity)).
Defined.

Lemma show_batch_raw_not_displayed_witness :
  dw_shown (show_batch_body demo_adl demo_batch demo_ids 2 true demo_world).1 = [].
Proof. exact (show_batch_raw_not_displayed demo_adl demo_batch demo_ids 2 true demo_world (or_introl eq_refl)). Defined.

Lemma decoded_rows_labels_witness :
  decoded_rows demo_adl demo_tok demo_batch demo_ids =
    Ok (zip_with (λ inp x, [CellStr inp; CellLabel x]) (batch_decode demo_tok demo_ids) ["pos"; "neg"]).
Proof.
  apply (decoded_rows_labels _ _ _ _ demo_vocab _ [1%Z; 0%Z]); try reflexivity.
  - split; [repeat constructor; set_solver|]. intros x i.
    change (LabelEncoder.o2i demo_vocab) with (<["pos" := 1]> (<["neg" := 0]> (∅ : gmap string nat))).
    rewrite !lookup_insert_Some, lookup_empty. destruct i as [|[|i]]; simpl; naive_solver.
  - repeat constructor.
Defined.

