(* ===== verification/TaskDatasets.v ===== *)
(** * TaskDatasets: the dataset/tokenizer binder of [src/adaptnlp/training/core.py]

    [TaskDatasets] (lines 167-264) owns a train and a validation dataset, an
    optional tokenizer and the tokenization options, tokenizes both splits
    and builds the loader bundle.  The store of its methods ([td_world])
    holds the Python objects the code shares and mutates:
    - [tw_heap], the dictionaries passed by reference: [tokenize_kwargs] is
      a reference, and the default [{}] of [__init__] is the single
      dictionary at [default_kwargs_loc], created once when the function is
      defined and shared by every call that omits the argument;
    - [tw_out], the lines printed;
    - [tw_self], the [TaskDatasets] object the methods mutate.
    The services of the wrapped libraries are section parameters:
    [AutoTokenizer.from_pretrained], calling a tokenizer on a batch (what
    the default tokenize function [_base_tok] does), and
    [default_data_collator].  HF's
    [Dataset.map(f, batched=True, remove_columns=...)] is modelled from its
    documentation by [hf_map]: a column to remove must be a column of the
    dataset ([ValueError] otherwise), and a batch may change its number of
    rows only when all its columns are removed. *)

From stdpp Require Import base gmap strings list pretty.
From Stdlib Require Import ZArith Lia.
From S2P Require Import Prelude Categorize Splitter DataLoaders.

(** Keyword-argument values of [tokenize_kwargs]. *)
Inductive kwval := KwInt (z : Z) | KwBool (b : bool) | KwStr (s : string).

Abbreviation kwdict := (gmap string kwval).

(** A tokenize function: [tok_func(batch, tokenizer=..., tokenize_kwargs=...)],
    one output row per row of the batch. *)
Abbreviation tok_fn := (tokenizer → kwdict → list row → result (list row)).

(** The batches [Dataset.map(batched=True)] feeds the function: [n] rows
    each, the last one shorter.  The fuel [len(l)] is enough for [n ≥ 1]. *)
Fixpoint chunks_fuel (fuel n : nat) (l : list row) : list (list row) :=
  match fuel, l with
  | _, [] => []
  | O, _ => [l]
  | S fuel', _ => take n l :: chunks_fuel fuel' n (drop n l)
  end.

Definition chunks (n : nat) (l : list row) : list (list row) := chunks_fuel (length l) n l.

(** A column of a dataset: a key every row has (an Arrow table gives all
    its rows the same columns). *)
Definition has_column (ds : list row) (c : string) : Prop := Forall (λ r, is_Some (r !! c)) ds.

(** Every column of the rows of [b] is among [cols]. *)
Definition all_removed (cols : list string) (b : list row) : Prop :=
  Forall (λ r, Forall (λ kv, kv.1 ∈ cols) (map_to_list r)) b.

(** [Dataset.map(f, batched=True, remove_columns=cols)]: a column of
    [cols] that the dataset does not have raises [ValueError] before any
    batch is mapped; each output row is the input row without [cols],
    updated with the function's output for that row; the function may
    change the number of rows of a batch only when every input column is
    removed, and otherwise the columns' lengths mismatch. *)
Definition hf_map (f : list row → result (list row)) (cols : list string) (ds : list row)
    : result (list row) :=
  match list_find (λ c, ¬ has_column ds c) cols with
  | Some (_, c) => Err (PyExn ValueError ("Column to remove ['" +:+ c +:+ "'] not in the dataset."))
  | None =>
      (λ bs, concat bs) <$> res_map (λ b,
        outs ← f b;
        if decide (all_removed cols b) then Ok outs
        else if decide (length outs = length b) then
          Ok (zip_with (λ r o, o ∪ (filter (λ kv, kv.1 ∉ cols) r)) b outs)
        else Err (PyExn ValueError "Column lengths mismatch")) (chunks 1000 ds)
  end.

Module Tasks.

(** The [TaskDatasets] object. *)
Record TaskDatasets := mkTD {
  td_train : list row;
  td_valid : list row;
  td_tokenizer : option tokenizer;
  td_label_keys : list string;
  td_remove_cols : list string;
  td_tok_func : tok_fn;
  td_tokenize_kwargs : nat        (** a reference into [tw_heap] *)
}.

(** The store the methods run on. *)
Record td_world := mkTW { tw_heap : gmap nat kwdict; tw_out : list string; tw_self : TaskDatasets }.

(** The default [{}] of [tokenize_kwargs]. *)
Definition default_kwargs_loc : nat := 0.

Definition msg_larger : string := "Warning: `max_length` is larger than the pretrained model".
Definition msg_no_max : string :=
  "No value for `max_length` set, automatically adjusting to the size of the model and including truncation".
Definition msg_seq_len (m : Z) : string := "Sequence length set to: " +:+ pretty m.
Definition msg_no_tok_init : string :=
  "Tried to tokenize a dataset without a tokenizer. Please set a tokenizer with `set_tokenizer` and call `_tokenize()`".
Definition msg_no_tok : string :=
  "Tried to tokenize a dataset without a tokenizer. Please add a tokenizer with `set_tokenizer(tokenizer_name` and try again".

Section Binder.
Context {C : Type}.
Context (from_pretrained : string → option tokenizer).
Context (tokenizer_call : tokenizer → list row → kwdict → result (list row)).
Context (default_data_collator : list row → batch).

(** [_base_tok(item, tokenizer, tokenize_kwargs)]: the call
    [tokenizer(item, **tokenize_kwargs)] on a batch. *)
Definition _base_tok : tok_fn := λ tokenizer tokenize_kwargs item,
  tokenizer_call tokenizer item tokenize_kwargs.

Definition print (m : string) : PyM td_world unit :=
  modify (λ w, mkTW (tw_heap w) (tw_out w ++ [m]) (tw_self w)).

Definition get_self : PyM td_world TaskDatasets := gets tw_self.

Definition set_self (td : TaskDatasets) : PyM td_world unit :=
  modify (λ w, mkTW (tw_heap w) (tw_out w) td).

(** [d] for a dictionary reference [d] ([{}] for a dangling one). *)
Definition read_dict (l : nat) : PyM td_world kwdict := gets (λ w, default ∅ (tw_heap w !! l)).

(** [d[k] = v] *)
Definition write_dict (l : nat) (k : string) (v : kwval) : PyM td_world unit :=
  modify (λ w, mkTW (<[l := <[k := v]> (default ∅ (tw_heap w !! l))]> (tw_heap w)) (tw_out w) (tw_self w)).

Definition with_tokenizer (td : TaskDatasets) (t : option tokenizer) : TaskDatasets :=
  mkTD (td_train td) (td_valid td) t (td_label_keys td) (td_remove_cols td) (td_tok_func td)
       (td_tokenize_kwargs td).

Definition with_splits (td : TaskDatasets) (train valid : list row) : TaskDatasets :=
  mkTD train valid (td_tokenizer td) (td_label_keys td) (td_remove_cols td) (td_tok_func td)
       (td_tokenize_kwargs td).

(** [TaskDatasets.set_tokenizer(tokenizer_name, override_existing)] *)
Definition set_tokenizer (name : string) (override : bool) : PyM td_world unit :=
  self ← get_self;
  match td_tokenizer self with
  | Some old =>
      if tok_truthy (Some old) && negb override then
        print ("Warning! You are trying to override an existing tokenizer: " +:+ name_or_path old +:+
               ". Pass `override_existing=True` to use a new tokenizer")
      else
        (if tok_truthy (Some old) && override then print ("Setting new tokenizer to " +:+ name)
         else mret ()) ;;
        match from_pretrained name with
        | Some t => set_self (with_tokenizer self (Some t))
        | None => throw (PyExn ValueError
                   (name +:+ " is not a valid pretrained model on the HuggingFace Hub or a local model"))
        end
  | None =>
      match from_pretrained name with
      | Some t => set_self (with_tokenizer self (Some t))
      | None => throw (PyExn ValueError
                 (name +:+ " is not a valid pretrained model on the HuggingFace Hub or a local model"))
      end
  end.

(** [TaskDatasets._tokenize()] *)
Definition _tokenize : PyM td_world unit :=
  self ← get_self;
  match td_tokenizer self with
  | Some tok =>
      if tok_truthy (Some tok) then
        kw ← read_dict (td_tokenize_kwargs self);
        let f := td_tok_func self tok kw in
        train ← lift (hf_map f (td_remove_cols self) (td_train self));
        set_self (with_splits self train (td_valid self)) ;;
        valid ← lift (hf_map f (td_remove_cols self) (td_valid self));
        set_self (with_splits self train valid)
      else throw (PyExn ValueError msg_no_tok)
  | None => throw (PyExn ValueError msg_no_tok)
  end.

(** Lines 198-206: the [max_length] policy, on the dictionary at [loc]. *)
Definition adjust_kwargs (tok : tokenizer) (loc : nat) : PyM td_world unit :=
  kw ← read_dict loc;
  match kw !! "max_length" with
  | Some v =>
      match v with
      | KwInt m => if bool_decide (m ≤ model_max_length tok)%Z then mret () else print msg_larger
      | KwBool b =>
          if bool_decide ((if b then 1 else 0) ≤ model_max_length tok)%Z then mret () else print msg_larger
      | KwStr _ => throw (PyExn TypeError "'>=' not supported between instances of 'int' and 'str'")
      end
  | None =>
      print msg_no_max ;;
      write_dict loc "max_length" (KwInt (model_max_length tok)) ;;
      write_dict loc "truncation" (KwBool true) ;;
      print (msg_seq_len (model_max_length tok))
  end.

(** [TaskDatasets.__init__]; [tokenize_kwargs] is a reference, the default
    being [default_kwargs_loc]. *)
Definition TaskDatasets_init (train valid : list row) (tokenizer_name : option string) (tokenize : bool)
    (tokenize_func : option tok_fn) (tokenize_kwargs : nat) (remove_cols : option (list string))
    (label_keys : list string) : PyM td_world unit :=
  set_self (mkTD train valid None label_keys (default [] remove_cols) _base_tok tokenize_kwargs) ;;
  (match tokenizer_name with Some n => set_tokenizer n false | None => mret () end) ;;
  self ← get_self;
  set_self (mkTD (td_train self) (td_valid self) (td_tokenizer self) label_keys (td_remove_cols self)
                 (default _base_tok tokenize_func) tokenize_kwargs) ;;
  (match td_tokenizer self with
   | Some tok => if tok_truthy (Some tok) then adjust_kwargs tok tokenize_kwargs else mret ()
   | None => mret ()
   end) ;;
  if tokenize then
    match td_tokenizer self with
    | Some _ => _tokenize
    | None => print msg_no_tok_init
    end
  else mret ().

(** [TaskDatasets.__getitem__(idx)] *)
Definition getitem (idx : Z) : PyM td_world row :=
  self ← get_self; lift (py_index (td_train self) idx).

(** [TaskDatasets.set_classes(classes)]: the guard calls [hasasttr], a name
    that is not defined. *)
Definition set_classes (classes : list string) : PyM td_world unit :=
  throw (PyExn NameError "name 'hasasttr' is not defined").

(** [TaskDatasets.dataloaders(batch_size, shuffle_train, collate_fn)]; torch's
    [DataLoader] rejects a batch size below 1. *)
Definition dataloaders (td : TaskDatasets) (batch_size : Z) (shuffle_train : bool)
    (collate_fn : option (list row → batch)) : result (Loaders.AdaptiveDataLoaders (C:=C)) :=
  if bool_decide (batch_size ≤ 0)%Z then
    Err (PyExn ValueError "batch_size should be a positive integer value")
  else
    let collate := default default_data_collator collate_fn in
    Ok (Loaders.AdaptiveDataLoaders_init
          [mkDataLoader (td_train td) shuffle_train collate (Z.to_nat batch_size);
           mkDataLoader (td_valid td) false collate (Z.to_nat batch_size)]
          (td_tokenizer td) (td_label_keys td)).

(** ** Run lemmas *)

Ltac td_run := unfold print, get_self, set_self, read_dict, write_dict in *; pym_unfold; simpl.

Lemma set_tokenizer_fresh name t w :
  td_tokenizer (tw_self w) = None → from_pretrained name = Some t →
  set_tokenizer name false w =
    (mkTW (tw_heap w) (tw_out w) (with_tokenizer (tw_self w) (Some t)), Ok ()).
Proof. intros Hn Ht. unfold set_tokenizer. td_run. by rewrite Hn, Ht. Qed.

Lemma adjust_kwargs_absent tok loc w kw :
  tw_heap w !! loc = Some kw → kw !! "max_length" = None →
  adjust_kwargs tok loc w =
    (mkTW (<[loc := <["truncation" := KwBool true]> (<["max_length" := KwInt (model_max_length tok)]> kw)]>
             (tw_heap w))
          (tw_out w ++ [msg_no_max; msg_seq_len (model_max_length tok)]) (tw_self w), Ok ()).
Proof.
  intros Hl Hk. unfold adjust_kwargs. td_run. rewrite Hl. simpl. rewrite Hk. simpl.
  rewrite Hl, lookup_insert_eq. simpl. by rewrite insert_insert_eq, <- app_assoc.
Qed.

Lemma adjust_kwargs_int tok loc w kw m :
  tw_heap w !! loc = Some kw → kw !! "max_length" = Some (KwInt m) →
  adjust_kwargs tok loc w =
    (mkTW (tw_heap w) (tw_out w ++ if bool_decide (m ≤ model_max_length tok)%Z then [] else [msg_larger])
          (tw_self w), Ok ()).
Proof.
  intros Hl Hk. unfold adjust_kwargs. td_run. rewrite Hl. simpl. rewrite Hk.
  case_bool_decide; simpl; [by rewrite app_nil_r; destruct w|done].
Qed.

(** [__init__] without tokenizing, once the tokenizer is resolved and the
    [max_length] policy has run on the dictionary. *)
Lemma init_resolved train valid name t loc remove keys w w' :
  from_pretrained name = Some t → tok_truthy (Some t) = true →
  adjust_kwargs t loc (mkTW (tw_heap w) (tw_out w)
     (mkTD train valid (Some t) keys (default [] remove) _base_tok loc)) = (w', Ok ()) →
  TaskDatasets_init train valid (Some name) false None loc remove keys w = (w', Ok ()).
Proof.
  intros Ht Htr Hadj. unfold TaskDatasets_init. td_run. unfold set_tokenizer. td_run.
  rewrite Ht. simpl. simpl in Htr. rewrite Htr. unfold with_tokenizer in *; simpl in *.
  rewrite Hadj. done.
Qed.

(** ** [Dataset.map] *)

Lemma chunks_fuel_concat fuel n l : concat (chunks_fuel fuel n l) = l.
Proof.
  revert l; induction fuel as [|fuel IH]; intros [|r l]; simpl; try done.
  - by rewrite app_nil_r.
  - rewrite IH. apply take_drop.
Qed.

Lemma zip_with_map_diag {A B D} (h : A → B → D) (g : A → B) l :
  zip_with h l (map g l) = map (λ x, h x (g x)) l.
Proof. induction l as [|x l IH]; simpl; by f_equal. Qed.

(** A row all of whose columns are removed keeps nothing of its own. *)
Lemma all_removed_row (g : row → row) cols b :
  all_removed cols b → map g b = map (λ r, g r ∪ filter (λ kv, kv.1 ∉ cols) r) b.
Proof.
  intros Hb. apply map_ext_in. intros r Hr%list_elem_of_In.
  eapply Forall_forall in Hb; [|done].
  assert (filter (λ kv : string * pyval, kv.1 ∉ cols) r = ∅) as ->; [|by rewrite map_union_empty].
  apply map_empty_filter. intros k v Hkv. simpl. intros Hn. apply Hn.
  eapply Forall_forall in Hb; [|by apply elem_of_map_to_list]. done.
Qed.

(** For a function that maps each row of a batch on its own, the batched
    [map] over columns the dataset has is the row-wise update. *)
Lemma hf_map_rowwise (f : list row → result (list row)) g cols ds :
  Forall (has_column ds) cols → (∀ b, f b = Ok (map g b)) →
  hf_map f cols ds = Ok (map (λ r, g r ∪ filter (λ kv, kv.1 ∉ cols) r) ds).
Proof.
  intros Hc Hf. unfold hf_map.
  rewrite (proj2 (list_find_None _ _)); [|by eapply Forall_impl; [done|naive_solver]].
  rewrite (res_map_ext _ (λ b, Ok (map (λ r, g r ∪ filter (λ kv, kv.1 ∉ cols) r) b))).
  - rewrite res_map_total. simpl. f_equal. unfold chunks. by rewrite <- concat_map, chunks_fuel_concat.
  - intros b. rewrite Hf. simpl. case_decide as Hb; [by rewrite (all_removed_row _ cols)|].
    rewrite length_map, decide_True by done. by rewrite zip_with_map_diag.
Qed.

(** A column to remove that the dataset lacks raises before any batch is
    mapped. *)
Lemma hf_map_missing_column f cols ds c :
  c ∈ cols → ¬ has_column ds c →
  err_kind (hf_map f cols ds) = Some ValueError.
Proof.
  intros Hc Hn. unfold hf_map. destruct (list_find _ cols) as [[i c']|] eqn:E; [done|].
  apply list_find_None in E. eapply Forall_forall in E; [|done]. by destruct (E Hn).
Qed.

Lemma getitem_run idx w : getitem idx w = (w, py_index (td_train (tw_self w)) idx).
Proof. unfold getitem. td_run. by destruct (py_index _ _). Qed.

(** ** Properties *)

(** C2: the default [tokenize_kwargs={}] is one dictionary shared by every
    [TaskDatasets] built without the argument.  The first instance writes
    its tokenizer's [model_max_length] and [truncation] into it; a second
    instance, with another tokenizer, finds [max_length] already set to the
    first tokenizer's value, keeps it, and warns when that value exceeds its
    own model's limit. *)
Theorem default_kwargs_shared n1 n2 t1 t2 (tr1 va1 tr2 va2 : list row) rm1 rm2 keys1 keys2 w :
  from_pretrained n1 = Some t1 → from_pretrained n2 = Some t2 →
  tok_truthy (Some t1) = true → tok_truthy (Some t2) = true →
  tw_heap w !! default_kwargs_loc = Some ∅ →
  ∃ w1 w2,
    TaskDatasets_init tr1 va1 (Some n1) false None default_kwargs_loc rm1 keys1 w = (w1, Ok ()) ∧
    TaskDatasets_init tr2 va2 (Some n2) false None default_kwargs_loc rm2 keys2 w1 = (w2, Ok ()) ∧
    tw_heap w2 = <[default_kwargs_loc := <["truncation" := KwBool true]>
                     (<["max_length" := KwInt (model_max_length t1)]> ∅)]> (tw_heap w) ∧
    tw_out w2 = tw_out w ++ [msg_no_max; msg_seq_len (model_max_length t1)] ++
                (if bool_decide (model_max_length t1 ≤ model_max_length t2)%Z then [] else [msg_larger]) ∧
    tw_self w2 = mkTD tr2 va2 (Some t2) keys2 (default [] rm2) _base_tok default_kwargs_loc.
Proof.
  intros H1 H2 T1 T2 H0. eexists _, _. split; [|split].
  - apply (init_resolved _ _ _ t1); [done..|]. by apply (adjust_kwargs_absent _ _ _ ∅).
  - apply (init_resolved _ _ _ t2); [done..|].
    eapply adjust_kwargs_int; simpl.
    + by rewrite lookup_insert_eq.
    + by rewrite lookup_insert_ne, lookup_insert_eq.
  - simpl. by rewrite <- app_assoc.
Qed.

(** [__init__] with [tokenize=True] and no tokenizer name does not
    raise: it prints that it cannot tokenize and leaves both datasets as
    they are, with no tokenizer and the [max_length] policy skipped. *)
Theorem init_no_tokenizer train valid func loc remove keys w :
  TaskDatasets_init train valid None true func loc remove keys w =
    (mkTW (tw_heap w) (tw_out w ++ [msg_no_tok_init])
          (mkTD train valid None keys (default [] remove) (default _base_tok func) loc), Ok ()).
Proof. unfold TaskDatasets_init. by td_run. Qed.

(** [__getitem__] reads the train split with Python's indexing and
    changes nothing: it returns row [k] for the index [k] or
    [k - len(train)], and raises [IndexError] for an index out of
    [-len(train) .. len(train)-1]. *)
Theorem getitem_spec idx w :
  (∀ r, getitem idx w = (w, Ok r) ↔
        ∃ k, td_train (tw_self w) !! k = Some r ∧
             (idx = Z.of_nat k ∨ idx = Z.of_nat k - Z.of_nat (length (td_train (tw_self w))))%Z) ∧
  ((idx < - Z.of_nat (length (td_train (tw_self w))) ∨ Z.of_nat (length (td_train (tw_self w))) ≤ idx)%Z →
   getitem idx w = (w, Err (PyExn IndexError "list index out of range"))).
Proof.
  rewrite getitem_run. split.
  - intros r. rewrite <- py_index_Ok. split; [by intros [=]|by intros ->].
  - intros Hi. by rewrite py_index_oob.
Qed.

(** C15: [_tokenize] replaces each split by the batched [map] of the
    tokenize function, bound to the tokenizer and the current keyword
    dictionary: for a function that tokenizes each row on its own and
    columns to remove that both splits have, every row of both splits is
    updated with its tokens and loses [remove_cols] (see
    [_tokenize_missing_column] for a column a split lacks). *)
Theorem _tokenize_rowwise w tok kw g :
  td_tokenizer (tw_self w) = Some tok → tok_truthy (Some tok) = true →
  tw_heap w !! td_tokenize_kwargs (tw_self w) = Some kw →
  Forall (has_column (td_train (tw_self w))) (td_remove_cols (tw_self w)) →
  Forall (has_column (td_valid (tw_self w))) (td_remove_cols (tw_self w)) →
  (∀ b, td_tok_func (tw_self w) tok kw b = Ok (map g b)) →
  _tokenize w =
    (mkTW (tw_heap w) (tw_out w)
       (with_splits (tw_self w)
          (map (λ r, g r ∪ filter (λ kv, kv.1 ∉ td_remove_cols (tw_self w)) r) (td_train (tw_self w)))
          (map (λ r, g r ∪ filter (λ kv, kv.1 ∉ td_remove_cols (tw_self w)) r) (td_valid (tw_self w)))),
     Ok ()).
Proof.
  intros Ht Htr Hk Hct Hcv Hf. simpl in Htr. unfold _tokenize. td_run. rewrite Ht, Htr, Hk. simpl.
  by rewrite !(hf_map_rowwise _ g).
Qed.

(** C33: [_tokenize] with a column to remove that the train split lacks raises
    [ValueError] and changes nothing; one that only the validation split
    lacks raises after the train split was replaced. *)
Theorem _tokenize_missing_column w tok kw c :
  td_tokenizer (tw_self w) = Some tok → tok_truthy (Some tok) = true →
  tw_heap w !! td_tokenize_kwargs (tw_self w) = Some kw →
  c ∈ td_remove_cols (tw_self w) → ¬ has_column (td_train (tw_self w)) c →
  (_tokenize w).1 = w ∧ err_kind (_tokenize w).2 = Some ValueError.
Proof.
  intros Ht Htr Hk Hc Hn. simpl in Htr. unfold _tokenize. td_run. rewrite Ht, Htr, Hk. simpl.
  pose proof (hf_map_missing_column (td_tok_func (tw_self w) tok kw) _ _ _ Hc Hn) as He.
  destruct (hf_map _ _ _) as [?|[k m]]; simpl in *; [done|]. by destruct w; simplify_eq.
Qed.

(** [_tokenize] assigns [self.train] before mapping the validation
    split: when the validation [map] raises, the object is left with a
    tokenized train split and an untokenized validation split. *)
Theorem _tokenize_valid_fails w tok kw train' e :
  td_tokenizer (tw_self w) = Some tok → tok_truthy (Some tok) = true →
  tw_heap w !! td_tokenize_kwargs (tw_self w) = Some kw →
  hf_map (td_tok_func (tw_self w) tok kw) (td_remove_cols (tw_self w)) (td_train (tw_self w)) = Ok train' →
  hf_map (td_tok_func (tw_self w) tok kw) (td_remove_cols (tw_self w)) (td_valid (tw_self w)) = Err e →
  _tokenize w = (mkTW (tw_heap w) (tw_out w) (with_splits (tw_self w) train' (td_valid (tw_self w))), Err e).
Proof.
  intros Ht Htr Hk Htrain Hvalid. simpl in Htr. unfold _tokenize. td_run. rewrite Ht, Htr, Hk. simpl.
  by rewrite Htrain, Hvalid.
Qed.

(** [_tokenize] without a tokenizer raises [ValueError] and changes
    nothing. *)
Theorem _tokenize_no_tokenizer w :
  tok_truthy (td_tokenizer (tw_self w)) = false →
  _tokenize w = (w, Err (PyExn ValueError msg_no_tok)).
Proof.
  intros Hn. unfold _tokenize. td_run. destruct (td_tokenizer (tw_self w)) as [t|]; simpl in *.
  - by rewrite Hn.
  - done.
Qed.

(** With a tokenizer already set, [set_tokenizer] without
    [override_existing] keeps it and only prints a warning naming it. *)
Theorem set_tokenizer_keeps_existing name old w :
  td_tokenizer (tw_self w) = Some old → tok_truthy (Some old) = true →
  set_tokenizer name false w =
    (mkTW (tw_heap w)
          (tw_out w ++ ["Warning! You are trying to override an existing tokenizer: " +:+ name_or_path old +:+
                        ". Pass `override_existing=True` to use a new tokenizer"])
          (tw_self w), Ok ()).
Proof. intros Ho Ht. simpl in Ht. unfold set_tokenizer. td_run. by rewrite Ho, Ht. Qed.

(** When the hub has no tokenizer of that name, [set_tokenizer]
    (overriding, or with no tokenizer set) raises [ValueError] naming it
    and leaves the object as it was. *)
Theorem set_tokenizer_invalid name override w :
  from_pretrained name = None →
  override = true ∨ tok_truthy (td_tokenizer (tw_self w)) = false →
  ∃ out, set_tokenizer name override w =
    (mkTW (tw_heap w) out (tw_self w),
     Err (PyExn ValueError (name +:+ " is not a valid pretrained model on the HuggingFace Hub or a local model"))).
Proof.
  intros Hn Hc. destruct w as [h o s]. unfold set_tokenizer. td_run. simpl in Hc.
  destruct (td_tokenizer s) as [t|]; simpl in *; [|rewrite Hn; eauto].
  destruct (bool_decide (0 < tok_len t)), override; simpl in *;
    rewrite ?Hn; eauto; by destruct Hc.
Qed.

End Binder.
End Tasks.

(** ** Witnesses *)

Local Open Scope string_scope.

Definition gpt2_tok : tokenizer := mkTokenizer "gpt2" 1024 100 (map py_str).
Definition bert_tok : tokenizer := mkTokenizer "bert-base-cased" 512 100 (map py_str).

(** A hub with two models. *)
Definition hub (n : string) : option tokenizer :=
  if decide (n = "gpt2") then Some gpt2_tok
  else if decide (n = "bert-base-cased") then Some bert_tok else None.

(** A tokenize function reading the [text] column of each row. *)
Definition text_tok : tok_fn := λ _ _ b,
  res_map (λ r : row, match r !! "text" with
                      | Some (PyStr s) => Ok (<["input_ids" := PyInt (Z.of_nat (String.length s))]> ∅)
                      | _ => Err (PyExn KeyError "'text'")
                      end) b.

(** Its lenient variant, which gives rows without text no tokens. *)
Definition tok_row (r : row) : row :=
  match r !! "text" with
  | Some (PyStr s) => <["input_ids" := PyInt (Z.of_nat (String.length s))]> ∅
  | _ => ∅
  end.

Definition row_tok : tok_fn := λ _ _ b, Ok (map tok_row b).

Definition review (s : string) (l : Z) : row := <["text" := PyStr s]> (<["label" := PyInt l]> ∅).

(** The same, as the tokenizer's [__call__] that [_base_tok] makes. *)
Definition text_call (t : tokenizer) (b : list row) (kw : kwdict) : result (list row) := text_tok t kw b.

Definition fresh_world : Tasks.td_world :=
  Tasks.mkTW {[0 := ∅]} [] (Tasks.mkTD [] [] None [] [] text_tok 0).

Definition gpt2_self (f : tok_fn) (valid : list row) : Tasks.TaskDatasets :=
  Tasks.mkTD [review "great film" 1] valid (Some gpt2_tok) ["label"] ["text"] f 0.

Lemma default_kwargs_shared_witness :
  Tasks.tw_out (Tasks.TaskDatasets_init hub text_call [] [] (Some "bert-base-cased") false None
    Tasks.default_kwargs_loc None ["label"]
    (Tasks.TaskDatasets_init hub text_call [] [] (Some "gpt2") false None
    Tasks.default_kwargs_loc None ["label"] fresh_world).1).1
  = [Tasks.msg_no_max; Tasks.msg_seq_len 1024; Tasks.msg_larger].
Proof.
  destruct (Tasks.default_kwargs_shared hub text_call "gpt2" "bert-base-cased" gpt2_tok bert_tok
              [] [] [] [] None None ["label"] ["label"] fresh_world eq_refl eq_refl eq_refl eq_refl eq_refl)
    as (w1 & w2 & E1 & E2 & _ & Ho & _).
  rewrite E1; simpl. rewrite E2; simpl. exact Ho.
Defined.

Lemma _tokenize_rowwise_witness :
  Tasks._tokenize (Tasks.mkTW {[0 := ∅]} [] (gpt2_self row_tok [review "dull" 0])) =
    (Tasks.mkTW {[0 := ∅]} []
       (Tasks.with_splits (gpt2_self row_tok [review "dull" 0])
          [<["input_ids" := PyInt 10]> (<["label" := PyInt 1]> ∅)]
          [<["input_ids" := PyInt 4]> (<["label" := PyInt 0]> ∅)]), Ok ()).
Proof.
  rewrite (Tasks._tokenize_rowwise _ gpt2_tok ∅ tok_row);
    first [reflexivity|repeat (constructor || (eexists; reflexivity))].
Defined.

(** A train split without the [text] column that [remove_cols] names. *)
Lemma _tokenize_missing_column_witness :
  let w := Tasks.mkTW {[0 := ∅]} [] (Tasks.mkTD [<["label" := PyInt 1]> ∅] [] (Some gpt2_tok) ["label"]
                                       ["text"] row_tok 0) in
  (Tasks._tokenize w).1 = w ∧ err_kind (Tasks._tokenize w).2 = Some ValueError.
Proof.
  apply (Tasks._tokenize_missing_column _ gpt2_tok ∅ "text"); [reflexivity..|by left|].
  inversion 1 as [|? ? [? Hx]]. discriminate.
Defined.

(** The validation rows have a [text] that is not a string: [KeyError]
    after the train split was replaced. *)
Definition bad_valid : list row := [<["text" := PyInt 0]> (<["label" := PyInt 0]> ∅)].

Lemma _tokenize_valid_fails_witness :
  Tasks._tokenize (Tasks.mkTW {[0 := ∅]} [] (gpt2_self text_tok bad_valid)) =
    (Tasks.mkTW {[0 := ∅]} []
       (Tasks.with_splits (gpt2_self text_tok bad_valid)
          [<["input_ids" := PyInt 10]> (<["label" := PyInt 1]> ∅)] bad_valid),
     Err (PyExn KeyError "'text'")).
Proof.
  rewrite (Tasks._tokenize_valid_fails _ gpt2_tok ∅
             [<["input_ids" := PyInt 10]> (<["label" := PyInt 1]> ∅)] (PyExn KeyError "'text'"));
    [reflexivity|vm_compute; reflexivity..].
Defined.

Lemma _tokenize_no_tokenizer_witness :
  Tasks._tokenize fresh_world = (fresh_world, Err (PyExn ValueError Tasks.msg_no_tok)).
Proof. apply Tasks._tokenize_no_tokenizer. reflexivity. Defined.

Lemma set_tokenizer_keeps_existing_witness :
  Tasks.tw_self (Tasks.set_tokenizer hub "bert-base-cased" false
                   (Tasks.mkTW ∅ [] (gpt2_self row_tok []))).1 = gpt2_self row_tok [].
Proof. by rewrite (Tasks.set_tokenizer_keeps_existing hub _ gpt2_tok). Defined.

Lemma set_tokenizer_invalid_witness :
  (Tasks.set_tokenizer hub "bert-base-uncased" true (Tasks.mkTW ∅ [] (gpt2_self row_tok []))).2 =
    Err (PyExn ValueError
      "bert-base-uncased is not a valid pretrained model on the HuggingFace Hub or a local model").
Proof.
  destruct (Tasks.set_tokenizer_invalid hub "bert-base-uncased" true (Tasks.mkTW ∅ [] (gpt2_self row_tok [])))
    as [out ->]; [reflexivity|by left|reflexivity].
Defined.

(** A collate function keeping the first row's columns. *)
Definition first_collate (rs : list row) : batch :=
  match rs with [] => ∅ | r :: _ => (λ v, [v]) <$> r end.

Definition gpt2_loaders : Loaders.AdaptiveDataLoaders (C:=LabelEncoder.categorize (A:=string)) :=
  Loaders.AdaptiveDataLoaders_init
    [mkDataLoader [review "great film" 1] true first_collate 8; mkDataLoader [] false first_collate 8]
    (Some gpt2_tok) ["label"].

