(* ===== verification/Learner.v ===== *)
(** * Learner: the training adapter [_AdaptiveLearner] of [src/adaptnlp/training/core.py]

    [_AdaptiveLearner] (lines 339-368) overrides two methods of fastai's
    [Learner]: [_split] turns a dictionary batch into model inputs [xb] and
    a stacked target tensor [yb]; [_do_one_batch] runs the forward pass, the
    loss, and, in training mode, the backward pass, the optimizer step and
    the gradient reset, firing the callback events in between.

    The store ([lw]) holds the learner's attributes and the trace of what
    the step did: the callback events fired, the backward pass, the
    optimizer step and the gradient reset, in order.  The model, the
    registered callbacks and the optimizer are section parameters: the
    model maps the input dictionary to an output dictionary or raises; the
    callbacks are described by the exception they raise on each event (or
    none); the optimizer's step by the exception it raises (or none).
    fastai's [Learner.__call__] and [_with_events], which the code calls,
    are written after fastai's definitions.  Moving tensors to the device
    is the identity.  The learner also keeps the state of the autograd
    graph behind [loss_grad] ([lg_graph]): PyTorch's [backward] frees it,
    and a backward pass through a freed graph, or through a loss computed
    without gradients, raises [RuntimeError]. *)

From stdpp Require Import base gmap strings list.
From Stdlib Require Import ZArith Lia.
From S2P Require Import Prelude.

(** A tensor: its shape and its elements in row-major order. *)
Record tensor := mkTensor { t_shape : list nat; t_data : list Z }.

#[export] Instance tensor_eq_dec : EqDecision tensor.
Proof. solve_decision. Defined.

(** A model batch: a dictionary of tensors. *)
Abbreviation tbatch := (gmap string tensor).

(** [torch.stack(ts, dim=0)] *)
Definition stack (ts : list tensor) : result tensor :=
  match ts with
  | [] => Err (PyExn RuntimeError "stack expects a non-empty TensorList")
  | t :: _ =>
      if forallb (λ u, bool_decide (t_shape u = t_shape t)) ts
      then Ok (mkTensor (length ts :: t_shape t) (concat (map t_data ts)))
      else Err (PyExn RuntimeError "stack expects each tensor to be equal size")
  end.

(** [len(t)] on a tensor: its first dimension. *)
Definition tensor_len (t : tensor) : result nat :=
  match t_shape t with
  | [] => Err (PyExn TypeError "len() of a 0-d tensor")
  | n :: _ => Ok n
  end.

(** What a training step does, in order. *)
Inductive act :=
  | Ev (name : string)   (** [self(name)]: the callbacks run on [name] *)
  | Backward             (** [self.loss_grad.backward()] *)
  | OptStep              (** [self.opt.step()] *)
  | ZeroGrad.            (** [self.opt.zero_grad()] *)

#[export] Instance act_eq_dec : EqDecision act.
Proof. solve_decision. Defined.

(** The autograd graph behind [loss_grad]: none (the loss was computed
    with gradients disabled, as fastai's validation does), live, or freed
    by a backward pass. *)
Inductive graph := NoGraph | GraphLive | GraphFreed.

#[export] Instance graph_eq_dec : EqDecision graph.
Proof. solve_decision. Defined.

Module Learn.

(** The attributes of the learner the two methods read and write; an
    attribute not yet assigned is [None]. *)
Record learner := mkLearner {
  xb : tbatch;
  yb : option tensor;
  loss_grad : option tensor;
  lg_graph : graph;
  pred : option tbatch;
  loss : option tensor;
  training : bool;
  label_keys : list string
}.

Record lw := mkLW { lw_l : learner; lw_trace : list act }.

Definition set_xb (b : tbatch) (l : learner) : learner :=
  mkLearner b (yb l) (loss_grad l) (lg_graph l) (pred l) (loss l) (training l) (label_keys l).
Definition set_yb (y : tensor) (l : learner) : learner :=
  mkLearner (xb l) (Some y) (loss_grad l) (lg_graph l) (pred l) (loss l) (training l) (label_keys l).
(** A loss the model computed: gradients are enabled in training only
    (fastai's [TrainEvalCallback] sets [training], and validation runs
    under [torch.no_grad()]). *)
Definition set_loss_grad (t : tensor) (l : learner) : learner :=
  mkLearner (xb l) (yb l) (Some t) (if training l then GraphLive else NoGraph) (pred l) (loss l)
            (training l) (label_keys l).
Definition set_pred (o : tbatch) (l : learner) : learner :=
  mkLearner (xb l) (yb l) (loss_grad l) (lg_graph l) (Some o) (loss l) (training l) (label_keys l).
Definition set_loss (t : tensor) (l : learner) : learner :=
  mkLearner (xb l) (yb l) (loss_grad l) (lg_graph l) (pred l) (Some t) (training l) (label_keys l).
Definition free_graph (l : learner) : learner :=
  mkLearner (xb l) (yb l) (loss_grad l) GraphFreed (pred l) (loss l) (training l) (label_keys l).

(** [self.name] for an attribute that may be unassigned. *)
Definition attr {A} (name : string) (o : option A) : result A :=
  match o with
  | Some a => Ok a
  | None => Err (PyExn AttributeError ("'_AdaptiveLearner' object has no attribute '" +:+ name +:+ "'"))
  end.

Section Adapter.
Context (model : tbatch → result tbatch).
Context (callback : string → option exn).
Context (opt_step : option exn).

Definition upd (f : learner → learner) : PyM lw unit := modify (λ w, mkLW (f (lw_l w)) (lw_trace w)).
Definition emit (a : act) : PyM lw unit := modify (λ w, mkLW (lw_l w) (lw_trace w ++ [a])).

(** [self(event)]: the event is recorded, then the callbacks run. *)
Definition fire (ev : string) : PyM lw unit :=
  emit (Ev ev) ;; match callback ev with Some e => throw e | None => mret () end.

(** fastai's [Learner._with_events(f, event_type, ex)]:
    [try: self(f'before_{event_type}'); f()
     except ex: self(f'after_cancel_{event_type}')
     self(f'after_{event_type}')]. *)
Definition _with_events (f : PyM lw unit) (ev : string) (ex : exn_kind) : PyM lw unit :=
  catch ex (fire ("before_" +:+ ev) ;; f) (λ _, fire ("after_cancel_" +:+ ev)) ;;
  fire ("after_" +:+ ev).

(** [self.loss_grad.backward()]: PyTorch frees the graph it runs through;
    a second pass, or a pass on a loss computed without gradients, raises
    [RuntimeError]. *)
Definition backward : PyM lw unit :=
  l ← gets lw_l;
  match lg_graph l with
  | GraphLive => emit Backward ;; upd free_graph
  | GraphFreed => throw (PyExn RuntimeError
      "Trying to backward through the graph a second time (or directly access saved tensors after they have already been freed).")
  | NoGraph => throw (PyExn RuntimeError "element 0 of tensors does not require grad and does not have a grad_fn")
  end.

(** [self.opt.step()] *)
Definition opt_step_call : PyM lw unit :=
  match opt_step with Some e => throw e | None => emit OptStep end.

(** The targets of a batch: [b[label]] for each label key present, in the
    order of [label_keys]. *)
Definition label_tensors (keys : list string) (b : tbatch) : list tensor :=
  flat_map (λ k, from_option (λ t, [t]) [] (b !! k)) keys.

(** [_AdaptiveLearner._split(b)] *)
Definition _split (b : tbatch) : PyM lw unit :=
  upd (set_xb b) ;;
  l ← gets lw_l;
  y ← lift (stack (label_tensors (label_keys l) b));
  upd (set_yb y).

(** [_AdaptiveLearner._do_one_batch()] *)
Definition _do_one_batch : PyM lw unit :=
  l ← gets lw_l;
  y ← lift (attr "yb" (yb l));
  upd (set_yb y) ;;
  out ← lift (model (xb l));
  (match out !! "loss" with Some t => upd (set_loss_grad t) | None => mret () end) ;;
  upd (set_pred out) ;;
  fire "after_pred" ;;
  l ← gets lw_l;
  lg ← lift (attr "loss_grad" (loss_grad l));
  upd (set_loss lg) ;;
  fire "after_loss" ;;
  l ← gets lw_l;
  if negb (training l) then mret () else
  y ← lift (attr "yb" (yb l));
  n ← lift (tensor_len y);
  if bool_decide (n = 0) then mret () else
  fire "before_backward" ;;
  backward ;;
  _with_events opt_step_call "step" CancelStepException ;;
  emit ZeroGrad.

(** fastai's batch loop, reduced to what the adapter overrides: each batch
    is split, then run. *)
Fixpoint all_batches (bs : list tbatch) : PyM lw unit :=
  match bs with
  | [] => mret ()
  | b :: bs' => _split b ;; _do_one_batch ;; all_batches bs'
  end.

(** The trace of a training step that ran to the end. *)
Definition step_trace : list act :=
  [Ev "after_pred"; Ev "after_loss"; Ev "before_backward"; Backward;
   Ev "before_step"; OptStep; Ev "after_step"; ZeroGrad].

(** The traces a completed batch can leave: evaluation (or an empty
    target), a training step, or a training step whose optimizer step was
    cancelled. *)
Inductive batch_trace : list act → Prop :=
  | bt_eval : batch_trace [Ev "after_pred"; Ev "after_loss"]
  | bt_step : batch_trace step_trace
  | bt_cancel : batch_trace [Ev "after_pred"; Ev "after_loss"; Ev "before_backward"; Backward;
                             Ev "before_step"; Ev "after_cancel_step"; Ev "after_step"; ZeroGrad].

(** ** Running the statements *)

(** Split a completed statement sequence into its completed statements. *)
Ltac run_inv H :=
  repeat match type of H with
  | (_ ≫= _) _ = (_, Ok _) =>
      let w := fresh "w" in let a := fresh "a" in let H1 := fresh "Hs" in
      apply pym_bind_Ok in H as (w & a & H1 & H); cbv beta in H
  end.

Lemma fire_Ok ev w w' :
  fire ev w = (w', Ok ()) → callback ev = None ∧ w' = mkLW (lw_l w) (lw_trace w ++ [Ev ev]).
Proof.
  unfold fire, emit. pym_unfold. simpl. destruct (callback ev); simpl; intros; simplify_eq; auto.
Qed.

Lemma _with_events_step_Ok w w' :
  _with_events opt_step_call "step" CancelStepException w = (w', Ok ()) →
  lw_l w' = lw_l w ∧
  (lw_trace w' = lw_trace w ++ [Ev "before_step"; OptStep; Ev "after_step"] ∨
   lw_trace w' = lw_trace w ++ [Ev "before_step"; Ev "after_cancel_step"; Ev "after_step"]).
Proof.
  unfold _with_events, opt_step_call, fire, emit. pym_unfold. simpl.
  destruct (callback "before_step") as [e|]; [|destruct opt_step as [e|]]; simpl;
    try destruct (decide (exn_cls e = CancelStepException)); simpl;
    repeat (case_match; simpl); intros; simplify_eq/=; rewrite <- ?app_assoc; auto.
Qed.

Lemma backward_Ok w w' :
  backward w = (w', Ok ()) →
  lg_graph (lw_l w) = GraphLive ∧ w' = mkLW (free_graph (lw_l w)) (lw_trace w ++ [Backward]).
Proof. unfold backward, emit, upd. pym_unfold. simpl. by destruct (lg_graph _); intros; simplify_eq. Qed.

Ltac destruct_units := repeat match goal with u : () |- _ => destruct u end.

(** Close a branch that returned at [mret ()] with the trace so far. *)
Ltac close_branch H :=
  unfold mret, pym_ret in H; simplify_eq/=; eexists; split; [constructor|by rewrite <- app_assoc].

(** A completed [_do_one_batch] leaves one of the traces of
    [batch_trace]. *)
Lemma _do_one_batch_Ok w w' :
  _do_one_batch w = (w', Ok ()) → ∃ t, batch_trace t ∧ lw_trace w' = lw_trace w ++ t.
Proof.
  intros H. unfold _do_one_batch in H. run_inv H. destruct_units.
  apply fire_Ok in Hs5 as [_ Hs5]. apply fire_Ok in Hs9 as [_ Hs9].
  unfold gets, lift, upd, emit, modify in *. simplify_eq.
  destruct (a2 !! "loss"); unfold mret, pym_ret in Hs3; simplify_eq/=;
    destruct (training _); simpl in H; try close_branch H.
  all: run_inv H; simplify_eq/=.
  all: case_bool_decide; [close_branch H|].
  all: run_inv H; destruct_units.
  all: repeat match goal with
       | Hf : fire _ _ = (_, Ok ()) |- _ => apply fire_Ok in Hf as [_ ->]
       | Hb : backward _ = (_, Ok ()) |- _ => apply backward_Ok in Hb as [_ ->]
       | Hw : _with_events _ _ _ _ = (_, Ok ()) |- _ => apply _with_events_step_Ok in Hw as [_ [Ht|Ht]]
       end; simplify_eq/=.
  all: rewrite Ht, <- !app_assoc; eexists; split; [|reflexivity]; constructor.
Qed.

Lemma _split_Ok b w w' :
  _split b w = (w', Ok ()) →
  ∃ y, stack (label_tensors (label_keys (lw_l w)) b) = Ok y ∧
       w' = mkLW (set_yb y (set_xb b (lw_l w))) (lw_trace w).
Proof.
  intros H. unfold _split in H. run_inv H. unfold gets, lift, upd, modify in *. simplify_eq/=. eauto.
Qed.

Lemma stack_Ok ts y : stack ts = Ok y → tensor_len y = Ok (length ts) ∧ 1 ≤ length ts.
Proof. clear model callback opt_step.
  destruct ts as [|t ts]; simpl; [done|]. case_match; intros; simplify_eq/=. split; [done|lia].
Qed.

Lemma label_tensors_nil keys b :
  label_tensors keys b = [] ↔ ∀ k, k ∈ keys → b !! k = None.
Proof. clear model callback opt_step.
  induction keys as [|k keys IH]; simpl; [set_solver|].
  rewrite app_nil, IH. split.
  - intros [Hk Hr] k' [->|Hin]%elem_of_cons; [|auto]. by destruct (b !! k).
  - intros Hall. rewrite Hall by set_solver. split; [done|]. intros; apply Hall; set_solver.
Qed.

(** A training step that runs to the end. *)
Lemma _do_one_batch_run w y n out t :
  training (lw_l w) = true → yb (lw_l w) = Some y → tensor_len y = Ok n → 1 ≤ n →
  model (xb (lw_l w)) = Ok out → out !! "loss" = Some t →
  (∀ ev, callback ev = None) → opt_step = None →
  _do_one_batch w =
    (mkLW (free_graph (set_loss t (set_pred out (set_loss_grad t (set_yb y (lw_l w))))))
          (lw_trace w ++ [Ev "after_pred"; Ev "after_loss"; Ev "before_backward"; Backward;
                          Ev "before_step"; OptStep; Ev "after_step"; ZeroGrad]), Ok ()).
Proof.
  intros Htr Hy Hn Hn1 Hm Hl Hcb Hopt.
  unfold _do_one_batch, backward, _with_events, opt_step_call, fire, emit, upd. pym_unfold. simpl.
  rewrite Hy, Hm, Hl. simpl. rewrite !Hcb. simpl. rewrite Htr. simpl. rewrite Hn. simpl.
  rewrite bool_decide_false by lia. rewrite ?Hcb, Hopt. simpl. rewrite ?Htr, ?Hcb. simpl. by rewrite <- !app_assoc.
Qed.

Lemma _split_run b w y :
  stack (label_tensors (label_keys (lw_l w)) b) = Ok y →
  _split b w = (mkLW (set_yb y (set_xb b (lw_l w))) (lw_trace w), Ok ()).
Proof. intros Hs. unfold _split, upd, gets, lift, modify, mbind, pym_bind. simpl. by rewrite Hs. Qed.

(** ** Properties *)

(** C16: a [_split] that completes stores a target tensor whose length is
    the number of label keys present, at least one: the guard
    [not len(self.yb)] of [_do_one_batch] never holds after it, so the
    inference-only path of the specification is unreachable. *)
Theorem _split_targets b w w' :
  _split b w = (w', Ok ()) →
  xb (lw_l w') = b ∧
  ∃ y, yb (lw_l w') = Some y ∧
       tensor_len y = Ok (length (label_tensors (label_keys (lw_l w)) b)) ∧
       1 ≤ length (label_tensors (label_keys (lw_l w)) b).
Proof.
  intros H. apply _split_Ok in H as (y & Hs & ->). split; [done|]. exists y. split; [done|]. by apply stack_Ok.
Qed.

(** C30: a batch carrying none of the label keys does not give an empty
    target, as the specification says: [torch.stack([])] raises
    [RuntimeError], after [self.xb] was assigned. *)
Theorem _split_no_labels b w :
  (∀ k, k ∈ label_keys (lw_l w) → b !! k = None) →
  _split b w = (mkLW (set_xb b (lw_l w)) (lw_trace w),
                Err (PyExn RuntimeError "stack expects a non-empty TensorList")).
Proof.
  intros Hn. apply label_tensors_nil in Hn.
  unfold _split, upd, gets, lift, modify, mbind, pym_bind. simpl.
  by rewrite Hn.
Qed.

(** C3: every run of the batch loop that completes leaves, batch after
    batch, one of the traces of [batch_trace]: the callbacks fire in the
    order [after_pred], [after_loss], [before_backward], [before_step],
    [after_step], and every backward pass is followed by exactly one
    gradient reset, whether the optimizer step ran or was cancelled. *)
Theorem all_batches_trace bs w w' :
  all_batches bs w = (w', Ok ()) →
  ∃ ts, Forall batch_trace ts ∧ length ts = length bs ∧ lw_trace w' = lw_trace w ++ concat ts.
Proof.
  revert w; induction bs as [|b bs IH]; intros w H; simpl in H.
  - unfold mret, pym_ret in H. simplify_eq. exists []. by rewrite app_nil_r.
  - run_inv H. destruct_units. apply _split_Ok in Hs as (y & _ & ->).
    apply _do_one_batch_Ok in Hs0 as (t & Ht & Htr). apply IH in H as (ts & Hts & Hlen & Htr').
    exists (t :: ts). split_and!; [by constructor|simpl; lia|]. by rewrite Htr', Htr, <- app_assoc.
Qed.

(** C17: one batch of the training loop, [_split] then [_do_one_batch]:
    in training mode, with targets that stack, a model output carrying
    [loss], callbacks that do not raise and an optimizer that steps, the
    learner stores the batch, its targets, the output and the loss, and
    runs the backward pass, the optimizer step and the gradient reset
    between the events, in this order. *)
Theorem _do_one_batch_train b w y out t :
  training (lw_l w) = true → stack (label_tensors (label_keys (lw_l w)) b) = Ok y →
  model b = Ok out → out !! "loss" = Some t →
  (∀ ev, callback ev = None) → opt_step = None →
  (_split b ;; _do_one_batch) w =
    (mkLW (free_graph (set_loss t (set_pred out (set_loss_grad t (set_yb y (set_xb b (lw_l w)))))))
          (lw_trace w ++ step_trace), Ok ()).
Proof.
  intros Htr Hs Hm Hl Hcb Hopt. pose proof (stack_Ok _ _ Hs) as [Hn Hn1].
  erewrite pym_bind_ok_l by (by apply _split_run).
  by erewrite (_do_one_batch_run _ y); [|done..].
Qed.

(** C18: a callback that raises [CancelStepException] before the step
    cancels the optimizer step only: the exception does not leave
    [_do_one_batch], [after_cancel_step] and [after_step] fire, and the
    gradients are reset all the same. *)
Theorem _do_one_batch_cancel_step w y n out t msg :
  training (lw_l w) = true → yb (lw_l w) = Some y → tensor_len y = Ok n → 1 ≤ n →
  model (xb (lw_l w)) = Ok out → out !! "loss" = Some t →
  callback "before_step" = Some (PyExn CancelStepException msg) →
  (∀ ev, ev ≠ "before_step" → callback ev = None) →
  _do_one_batch w =
    (mkLW (free_graph (set_loss t (set_pred out (set_loss_grad t (set_yb y (lw_l w))))))
          (lw_trace w ++ [Ev "after_pred"; Ev "after_loss"; Ev "before_backward"; Backward;
                          Ev "before_step"; Ev "after_cancel_step"; Ev "after_step"; ZeroGrad]), Ok ()).
Proof.
  intros Htr Hy Hn Hn1 Hm Hl Hc Hcb.
  unfold _do_one_batch, backward, _with_events, opt_step_call, fire, emit, upd. pym_unfold. simpl.
  rewrite Hy, Hm, Hl. simpl. rewrite !Hcb by done. simpl. rewrite Htr. simpl. rewrite Hn. simpl.
  rewrite bool_decide_false by lia. simpl. rewrite ?Htr. simpl.
  change ("before_" +:+ "step") with "before_step"; change ("after_" +:+ "step") with "after_step";
    change ("after_cancel_" +:+ "step") with "after_cancel_step".
  rewrite Hc, !Hcb by done. simpl. by rewrite <- !app_assoc.
Qed.

(** C31: when the model's output has no [loss], [_do_one_batch] falls
    back on the [loss_grad] an earlier batch left.  On the first batch it
    raises [AttributeError] after [after_pred]; in evaluation (or with an
    empty target) it completes with the earlier loss as this batch's loss;
    in a training step the backward pass runs through the earlier batch's
    graph: it raises [RuntimeError] after [before_backward] when that graph
    was freed by the earlier backward pass or never built (a validation
    loss), and when it is still live (the earlier step stopped before its
    backward pass) it completes a full step with the earlier loss. *)
Theorem _do_one_batch_missing_loss w y n out :
  yb (lw_l w) = Some y → tensor_len y = Ok n →
  model (xb (lw_l w)) = Ok out → out !! "loss" = None →
  (∀ ev, callback ev = None) → opt_step = None →
  match loss_grad (lw_l w) with
  | None =>
      _do_one_batch w =
        (mkLW (set_pred out (set_yb y (lw_l w))) (lw_trace w ++ [Ev "after_pred"]),
         Err (PyExn AttributeError "'_AdaptiveLearner' object has no attribute 'loss_grad'"))
  | Some old =>
      if training (lw_l w) && bool_decide (n ≠ 0) then
        match lg_graph (lw_l w) with
        | GraphLive =>
            ∃ w', _do_one_batch w = (w', Ok ()) ∧ loss (lw_l w') = Some old ∧
                  lw_trace w' = lw_trace w ++ step_trace
        | _ =>
            (_do_one_batch w).1 =
              mkLW (set_loss old (set_pred out (set_yb y (lw_l w))))
                   (lw_trace w ++ [Ev "after_pred"; Ev "after_loss"; Ev "before_backward"]) ∧
            err_kind (_do_one_batch w).2 = Some RuntimeError
        end
      else ∃ w', _do_one_batch w = (w', Ok ()) ∧ loss (lw_l w') = Some old
  end.
Proof.
  intros Hy Hn Hm Hl Hcb Hopt.
  unfold _do_one_batch, backward, _with_events, opt_step_call, fire, emit, upd. pym_unfold. simpl.
  rewrite Hy, Hm, Hl. simpl. rewrite !Hcb. simpl.
  destruct (loss_grad (lw_l w)) as [old|]; [|done]. simpl.
  destruct (training (lw_l w)); simpl; [|by eexists]. rewrite Hn. simpl.
  destruct (decide (n = 0)) as [->|Hn0].
  - rewrite (bool_decide_true (0 = 0)), (bool_decide_false (0 ≠ 0)) by lia. simpl. by eexists.
  - rewrite (bool_decide_false (n = 0)), (bool_decide_true (n ≠ 0)) by done. simpl.
    destruct (lg_graph (lw_l w)); simpl; [split; [by rewrite <- !app_assoc|done]| |split; [by rewrite <- !app_assoc|done]].
    rewrite ?Hcb, ?Hopt. simpl. eexists. split_and!; [done|done|]. simpl. by rewrite <- !app_assoc.
Qed.

End Adapter.
End Learn.

(** ** Witnesses *)

Local Open Scope string_scope.

Definition ids_t : tensor := mkTensor [2] [101; 102]%Z.
Definition lbl_t : tensor := mkTensor [2] [1; 0]%Z.
Definition demo_b : tbatch := <["input_ids" := ids_t]> (<["labels" := lbl_t]> ∅).
Definition fresh_learner (train : bool) : Learn.learner :=
  Learn.mkLearner ∅ None None NoGraph None None train ["labels"].

(** The learner after [_split demo_b]. *)
Definition split_learner (lg : option tensor) (g : graph) : Learn.learner :=
  Learn.mkLearner demo_b (Some (mkTensor [1; 2] [1; 0]%Z)) lg g None None true ["labels"].

Definition logits_t : tensor := mkTensor [2; 2] [1; -1; -1; 1]%Z.
Definition loss_model (b : tbatch) : result tbatch :=
  Ok (<["loss" := mkTensor [] [3]%Z]> (<["logits" := logits_t]> ∅)).
Definition no_loss_model (b : tbatch) : result tbatch := Ok (<["logits" := logits_t]> ∅).
Definition quiet (ev : string) : option exn := None.
Definition cancel_cb (ev : string) : option exn :=
  if decide (ev = "before_step") then Some (PyExn CancelStepException "") else None.

Lemma _split_targets_witness :
  Learn.xb (Learn.lw_l (Learn._split demo_b (Learn.mkLW (fresh_learner true) [])).1) = demo_b ∧
  ∃ y, Learn.yb (Learn.lw_l (Learn._split demo_b (Learn.mkLW (fresh_learner true) [])).1) = Some y ∧
       tensor_len y = Ok 1%nat ∧ (1 ≤ 1)%nat.
Proof.
  exact (Learn._split_targets demo_b (Learn.mkLW (fresh_learner true) []) _
           (run_Ok (Learn._split demo_b (Learn.mkLW (fresh_learner true) [])) () ltac:(vm_compute; reflexivity))).
Defined.

Lemma _split_no_labels_witness :
  (Learn._split (<["input_ids" := ids_t]> ∅) (Learn.mkLW (fresh_learner true) [])).2 =
    Err (PyExn RuntimeError "stack expects a non-empty TensorList").
Proof.
  rewrite (Learn._split_no_labels (<["input_ids" := ids_t]> ∅) (Learn.mkLW (fresh_learner true) []));
    [reflexivity|]. intros k ->%list_elem_of_singleton. reflexivity.
Defined.

Lemma all_batches_trace_witness :
  ∃ ts, Forall Learn.batch_trace ts ∧ length ts = 2%nat ∧
        Learn.lw_trace (Learn.all_batches loss_model quiet None [demo_b; demo_b]
                          (Learn.mkLW (fresh_learner true) [])).1 = ([] ++ concat ts)%list.
Proof.
  exact (Learn.all_batches_trace loss_model quiet None [demo_b; demo_b] (Learn.mkLW (fresh_learner true) [])
           _ (run_Ok (Learn.all_batches loss_model quiet None [demo_b; demo_b] (Learn.mkLW (fresh_learner true) []))
                  () ltac:(vm_compute; reflexivity))).
Defined.

Lemma _do_one_batch_train_witness :
  (Learn._split demo_b ;; Learn._do_one_batch loss_model quiet None) (Learn.mkLW (fresh_learner true) []) =
    (Learn.mkLW (Learn.free_graph (Learn.set_loss (mkTensor [] [3]%Z)
                   (Learn.set_pred (<["loss" := mkTensor [] [3]%Z]> (<["logits" := logits_t]> ∅))
                      (Learn.set_loss_grad (mkTensor [] [3]%Z)
                         (Learn.set_yb (mkTensor [1; 2] [1; 0]%Z)
                            (Learn.set_xb demo_b (fresh_learner true)))))))
       ([] ++ Learn.step_trace), Ok ()).
Proof.
  exact (Learn._do_one_batch_train loss_model quiet None demo_b (Learn.mkLW (fresh_learner true) [])
           (mkTensor [1; 2] [1; 0]%Z) (<["loss" := mkTensor [] [3]%Z]> (<["logits" := logits_t]> ∅))
           (mkTensor [] [3]%Z) eq_refl ltac:(vm_compute; reflexivity) eq_refl
           ltac:(vm_compute; reflexivity) (λ _, eq_refl) eq_refl).
Defined.

Lemma _do_one_batch_cancel_step_witness :
  (Learn._do_one_batch loss_model cancel_cb None (Learn.mkLW (split_learner None NoGraph) [])).2 = Ok ().
Proof.
  rewrite (Learn._do_one_batch_cancel_step loss_model cancel_cb None (Learn.mkLW (split_learner None NoGraph) [])
             (mkTensor [1; 2] [1; 0]%Z) 1%nat (<["loss" := mkTensor [] [3]%Z]> (<["logits" := logits_t]> ∅))
             (mkTensor [] [3]%Z) "" eq_refl eq_refl eq_refl ltac:(lia) eq_refl
             ltac:(vm_compute; reflexivity) eq_refl); [reflexivity|].
  intros ev Hne. unfold cancel_cb. by rewrite decide_False.
Defined.

Lemma _do_one_batch_missing_loss_witness :
  Learn._do_one_batch no_loss_model quiet None (Learn.mkLW (split_learner None NoGraph) []) =
    (Learn.mkLW (Learn.set_pred (<["logits" := logits_t]> ∅)
                   (Learn.set_yb (mkTensor [1; 2] [1; 0]%Z) (split_learner None NoGraph))) [Ev "after_pred"],
     Err (PyExn AttributeError "'_AdaptiveLearner' object has no attribute 'loss_grad'")) ∧
  err_kind (Learn._do_one_batch no_loss_model quiet None
              (Learn.mkLW (split_learner (Some (mkTensor [] [3]%Z)) GraphFreed) [])).2 = Some RuntimeError.
Proof.
  split.
  - exact (Learn._do_one_batch_missing_loss no_loss_model quiet None (Learn.mkLW (split_learner None NoGraph) [])
             (mkTensor [1; 2] [1; 0]%Z) 1%nat (<["logits" := logits_t]> ∅) eq_refl eq_refl eq_refl
             ltac:(vm_compute; reflexivity) (λ _, eq_refl) eq_refl).
  - exact (proj2 (Learn._do_one_batch_missing_loss no_loss_model quiet None
             (Learn.mkLW (split_learner (Some (mkTensor [] [3]%Z)) GraphFreed) [])
             (mkTensor [1; 2] [1; 0]%Z) 1%nat (<["logits" := logits_t]> ∅) eq_refl eq_refl eq_refl
             ltac:(vm_compute; reflexivity) (λ _, eq_refl) eq_refl)).
Defined.

