(* ===== verification/Tuner.v ===== *)
(** * Tuner: the fine-tuning facade [AdaptiveTuner] of [src/adaptnlp/training/core.py]

    [Strategy] (line 371) names three fastai fitting methods.
    [AdaptiveTuner] (lines 374-454) builds an [_AdaptiveLearner], copies
    its [dls], [model], [loss_func] and [metrics] onto itself, and exposes
    [tune], [lr_find], [save], [load], [predict] and [export].

    Objects the tuner shares are identified by numbers: the model module
    the learner trains ([tn_learner_model]) and the one the tuner holds
    ([tn_model]) are the same object after [__init__], since the copy is a
    reference.  The store ([tw]) records, in order, the calls into the
    wrapped libraries: fitting, the learning-rate finder, saving and
    loading of weights and tokenizers; and it allocates the objects that
    loading creates.  What the wrapped libraries provide is a section
    parameter: the names fastai's [Learner] class defines as methods and
    as properties, the names in a learner's [__dict__], the attributes of
    a model module, what an attribute found on the tuner or the learner
    does when [tune] calls it, whether the hub has a model for a path, and
    the process rank.  The class of the tuner is its method resolution
    order ([tn_mro]): with [expose_fastai], [__init__] rebuilds it over
    [AdaptiveTuner] and [_AdaptiveLearner], with the learner's keyword
    arguments as its namespace.  [getattr_self] is Python's attribute
    lookup on that class: a property first, then the instance, then the
    class attribute, then the [__getattr__] of fastai's [GetAttr], which
    reads the attribute of [self.model]; [getattr_learner] is the same
    lookup on the learner.  [__init__] raises fastai's [AssertionError]
    when neither [loss_func] nor [dls.train_ds] gives a loss. *)

From stdpp Require Import base gmap strings list.
From Stdlib Require Import ZArith QArith Lia.
From S2P Require Import Prelude.

Local Close Scope Q_scope.

(** ** [str.split()] without a separator *)

Definition is_py_space (c : Ascii.ascii) : bool :=
  bool_decide (Ascii.nat_of_ascii c ∈ [32; 9; 10; 11; 12; 13]).

(** Runs of whitespace separate the words; the current word is [cur]. *)
Fixpoint split_ws_go (s cur : string) : list string :=
  match s with
  | EmptyString => if bool_decide (cur = "") then [] else [cur]
  | String c s' =>
      if is_py_space c then (if bool_decide (cur = "") then [] else [cur]) ++ split_ws_go s' ""
      else split_ws_go s' (cur +:+ String c "")
  end.

Definition split_ws (s : string) : list string := split_ws_go s "".

(** ** [Strategy] *)

Module Strategy.
Definition OneCycle : string := "fit_one_cycle".
Definition CosineAnnealing : string := "fit_flat_cos".
Definition SGDR : string := "fit_sgdr".
End Strategy.

Abbreviation kwargs := (gmap string pyval).

(** The calls the tuner makes into the wrapped libraries. *)
Inductive call :=
  | Fit (name : string) (model : nat) (epochs : Z) (lr : option Q) (cbs : list string) (kw : kwargs)
  | LrFind (model : nat)
  | SaveModel (model : nat) (dir : string)
  | SaveTok (tok : nat) (dir : string)
  | LoadModel (dir : string) (model : nat)
  | LoadTok (dir : string) (tok : nat).

Module Tune.

(** The [dls] passed to the learner: [label_keys] is its optional
    attribute; [dls_train_loss] says whether [dls.train_ds] has a
    [loss_func] other than [None] (a HuggingFace dataset has none). *)
Record dls_obj := mkDls { dls_label_keys : option (list string); dls_train_loss : bool }.

(** The classes on the method resolution order of [type(self)]. *)
Inductive klass :=
  | KTuner                        (** [AdaptiveTuner] *)
  | KLearner                      (** [_AdaptiveLearner] and fastai's [Learner] *)
  | KRebuilt (ns : list string).  (** [cls.__class__("AdaptiveTuner", (cls, _AdaptiveLearner), kwargs)]:
                                      its namespace is [kwargs] *)

#[export] Instance klass_eq_dec : EqDecision klass.
Proof. solve_decision. Defined.

(** The names the body of [AdaptiveTuner] defines (lines 376-454). *)
Definition tuner_methods : list string :=
  ["__init__"; "tune"; "lr_find"; "save"; "load"; "predict"; "export"].

(** The instance attributes [__init__] sets: [self.tokenizer], [self._tuner]
    and the four [exposed_attrs]. *)
Definition instance_attrs : list string :=
  ["tokenizer"; "_tuner"; "dls"; "model"; "loss_func"; "metrics"].

Record tuner := mkTuner {
  tn_tokenizer : option nat;
  tn_learner_model : nat;        (** [self._tuner.model] *)
  tn_learner_label_keys : list string;
  tn_dls : dls_obj;
  tn_model : nat;                (** [self.model] *)
  tn_mro : list klass            (** [type(self).__mro__], [object] left out *)
}.

Record tw := mkTW { tw_t : tuner; tw_calls : list call; tw_next : nat }.

(** The learner's constructor arguments that the tuner reads. *)
Record learner_kwargs := mkLK {
  lk_dls : option dls_obj;
  lk_model : option nat;
  lk_loss_func : option nat;     (** a [loss_func] other than [None] *)
  lk_rest : list string          (** the names of the other keyword arguments *)
}.

(** [kwargs.keys()] *)
Definition lk_names (kw : learner_kwargs) : list string :=
  match lk_dls kw with Some _ => ["dls"] | None => [] end ++
  match lk_model kw with Some _ => ["model"] | None => [] end ++
  match lk_loss_func kw with Some _ => ["loss_func"] | None => [] end ++ lk_rest kw.

(** The class of [self] after [__init__]: with [expose_fastai] the new class
    derives from [AdaptiveTuner] and then [_AdaptiveLearner]. *)
Definition init_mro (expose_fastai : bool) (kw : learner_kwargs) : list klass :=
  if expose_fastai then [KRebuilt (lk_names kw); KTuner; KLearner] else [KTuner].

(** [AdaptiveTuner.__init__(expose_fastai, tokenizer, label_keys, **kwargs)]:
    [_AdaptiveLearner] on [kwargs] is fastai's [Learner.__init__], which
    needs [dls] and [model] and, without a [loss_func], takes the one of
    [dls.train_ds] and asserts that there is one. *)
Definition AdaptiveTuner_init (expose_fastai : bool) (tokenizer : option nat)
    (label_keys : option (list string)) (kw : learner_kwargs) : result tuner :=
  keys ← match label_keys with
         | Some ks => Ok ks
         | None =>
             match lk_dls kw with
             | None => Err (PyExn KeyError "'dls'")
             | Some d =>
                 match dls_label_keys d with
                 | None => Err (PyExn ValueError
                             "Could not find keys for the labels. Please pass in a `label_keys` param")
                 | Some ks => Ok ks
                 end
             end
         end;
  match lk_dls kw, lk_model kw with
  | Some d, Some m =>
      if bool_decide (is_Some (lk_loss_func kw)) || dls_train_loss d then
        Ok (mkTuner tokenizer m keys d m (init_mro expose_fastai kw))
      else Err (PyExn AssertionError
                  "Could not infer loss function from the data, please pass a loss function.")
  | _, _ => Err (PyExn TypeError "__init__() missing required positional arguments: 'dls' and 'model'")
  end.

(** A bound method called as [func(epochs, lr, cbs=callbacks, **kwargs)],
    run on the store. *)
Abbreviation method := (Z → option Q → list string → kwargs → PyM tw unit).

(** Where [getattr(obj, name)] finds [name]: a data descriptor (a
    property) of a class, the instance's [__dict__], a plain attribute of
    a class of the method resolution order, the attribute of the model
    object [m] that fastai's [GetAttr.__getattr__] delegates to, or
    nowhere. *)
Inductive found := FoundData (k : klass) | FoundInst | FoundClass (k : klass) | FoundModel (m : nat) | NotFound.

(** [GetAttr._component_attr_filter(k)] of fastai for a [Learner], whose
    [_default] is ['model'] and [_xtra] is [None]. *)
Definition getattr_filter (s : string) : bool :=
  negb (String.prefix "__" s) && bool_decide (s ≠ "_xtra") && bool_decide (s ≠ "model").

Section Facade.
(** The names fastai's [Learner] class defines: its methods (the fitting
    methods among them) and its data descriptors ([metrics]). *)
Context (learner_fits : string → bool).
Context (learner_data : string → bool).
(** The names in the [__dict__] of a [Learner] instance. *)
Context (learner_inst : string → bool).
(** The attributes of a model module, by object. *)
Context (model_has : nat → string → bool).
(** What an attribute found on the tuner, or on the learner other than a
    fitting method, does when [tune] calls it. *)
Context (call_self : found → string → method).
Context (call_learner : found → string → method).
Context (hub : string → bool).
Context (rank_distrib : nat).

(** The names a class of the chain defines: the learner's are a
    parameter. *)
Definition class_has (k : klass) (s : string) : bool :=
  match k with
  | KTuner => bool_decide (s ∈ tuner_methods)
  | KLearner => learner_fits s || learner_data s
  | KRebuilt ns => bool_decide (s ∈ ns)
  end.

Definition class_data (k : klass) (s : string) : bool :=
  match k with KLearner => learner_data s | _ => false end.

(** [getattr(self, name)] ([object.__getattribute__]): the first class of
    the MRO that has [name]; a data descriptor there wins, then the
    instance's [__dict__], then the class attribute; failing all, the
    [__getattr__] of [GetAttr] when [Learner] is on the MRO, which reads
    the attribute of [self.model]. *)
Definition getattr_self (t : tuner) (s : string) : found :=
  match list_find (λ k, class_has k s = true) (tn_mro t) with
  | Some (_, k) =>
      if class_data k s then FoundData k
      else if bool_decide (s ∈ instance_attrs) then FoundInst else FoundClass k
  | None =>
      if bool_decide (s ∈ instance_attrs) then FoundInst
      else if bool_decide (KLearner ∈ tn_mro t) && getattr_filter s && model_has (tn_model t) s
      then FoundModel (tn_model t)
      else NotFound
  end.

(** [getattr(self._tuner, name, None)] on the learner, whose model is
    [tn_learner_model]. *)
Definition getattr_learner (t : tuner) (s : string) : found :=
  if learner_data s then FoundData KLearner
  else if learner_inst s then FoundInst
  else if learner_fits s then FoundClass KLearner
  else if getattr_filter s && model_has (tn_learner_model t) s then FoundModel (tn_learner_model t)
  else NotFound.

Definition record (c : call) : PyM tw unit :=
  modify (λ w, mkTW (tw_t w) (tw_calls w ++ [c]) (tw_next w)).

Definition set_tuner (t : tuner) : PyM tw unit :=
  modify (λ w, mkTW t (tw_calls w) (tw_next w)).

(** A new object of the wrapped libraries. *)
Definition alloc : PyM tw nat := λ w, (mkTW (tw_t w) (tw_calls w) (S (tw_next w)), Ok (tw_next w)).

(** [kwargs.pop(attr)] for each word of ['epochs,lr,cbs'.split()]. *)
Definition pop_fit_args (kw : kwargs) : kwargs :=
  foldl (λ kw a, if decide (is_Some (kw !! a)) then delete a kw else kw) kw (split_ws "epochs,lr,cbs").

(** [AdaptiveTuner.tune(epochs, lr, strategy, callbacks, **kwargs)]: the
    call [func(epochs, lr, cbs=callbacks, **kwargs)] merges its keyword
    arguments before calling [func]. *)
Definition tune (epochs : Z) (lr : option Q) (strategy : string) (callbacks : list string)
    (kw : kwargs) : PyM tw unit :=
  t ← gets tw_t;
  let kw' := pop_fit_args kw in
  if decide (is_Some (kw' !! "cbs")) then
    throw (PyExn TypeError (strategy +:+ "() got multiple values for keyword argument 'cbs'"))
  else
    match getattr_self t strategy with
    | NotFound =>
        match getattr_learner t strategy with
        | FoundClass _ => record (Fit strategy (tn_learner_model t) epochs lr callbacks kw')
        | NotFound => throw (PyExn TypeError "'NoneType' object is not callable")
        | f => call_learner f strategy epochs lr callbacks kw'
        end
    | f => call_self f strategy epochs lr callbacks kw'
    end.

(** [AdaptiveTuner.lr_find]: the finder's suggestion is [sugg]. *)
Definition lr_find (sugg : Q) : PyM tw Q :=
  t ← gets tw_t; record (LrFind (tn_learner_model t)) ;; mret sugg.

(** [AdaptiveTuner.save(save_directory)] *)
Definition save (d : string) : PyM tw (option string) :=
  if bool_decide (rank_distrib ≠ 0) then mret None else
  t ← gets tw_t;
  record (SaveModel (tn_model t) d) ;;
  match tn_tokenizer t with
  | None => throw (PyExn AttributeError "'NoneType' object has no attribute 'save_pretrained'")
  | Some k => record (SaveTok k d) ;; mret (Some d)
  end.

(** [from_pretrained(path)] of the model or tokenizer classes. *)
Definition from_pretrained (p : string) (mk : string → nat → call) : PyM tw nat :=
  if hub p then m ← alloc; record (mk p m) ;; mret m
  else throw (PyExn OSError ("Can't load from '" +:+ p +:+ "'")).

(** [AdaptiveTuner.load(path, device)]: moving the module to the device
    returns the module itself. *)
Definition load (p : string) : PyM tw unit :=
  m ← from_pretrained p LoadModel;
  t ← gets tw_t;
  set_tuner (mkTuner (tn_tokenizer t) (tn_learner_model t) (tn_learner_label_keys t) (tn_dls t) m
                     (tn_mro t)) ;;
  k ← from_pretrained p LoadTok;
  t ← gets tw_t;
  set_tuner (mkTuner (Some k) (tn_learner_model t) (tn_learner_label_keys t) (tn_dls t) (tn_model t)
                     (tn_mro t)).

(** [AdaptiveTuner.predict(text)] and [AdaptiveTuner.export(save_directory)] *)
Definition predict {A} (text : A) : PyM tw unit := throw (PyExn NotImplementedError "").
Definition export (d : string) : PyM tw unit := throw (PyExn NotImplementedError "").

(** ** Sessions: scripts of calls on one tuner *)

(** A call a user script makes on the tuner. *)
Inductive op :=
  | OTune (epochs : Z) (lr : option Q) (strategy : string) (callbacks : list string) (kw : kwargs)
  | OLrFind (sugg : Q)
  | OSave (d : string)
  | OLoad (p : string)
  | OPredict (text : string)
  | OExport (d : string).

Definition run_op (o : op) : PyM tw unit :=
  match o with
  | OTune e lr s cbs kw => tune e lr s cbs kw
  | OLrFind q => lr_find q ;; mret ()
  | OSave d => save d ;; mret ()
  | OLoad p => load p
  | OPredict x => predict x
  | OExport d => export d
  end.

(** The statements of the script, in order; the first exception ends it. *)
Fixpoint run_ops (os : list op) : PyM tw unit :=
  match os with
  | [] => mret ()
  | o :: os' => run_op o ;; run_ops os'
  end.

(** The model a recorded call trains or probes: [fit] and [lr_find]. *)
Definition trained_model (c : call) : option nat :=
  match c with
  | Fit _ m _ _ _ _ | LrFind m => Some m
  | _ => None
  end.

(** [w'] follows [w] without replacing the learner's model, and every call
    recorded in between that trains trains that model. *)
Definition learner_frame (w w' : tw) : Prop :=
  tn_learner_model (tw_t w') = tn_learner_model (tw_t w) ∧
  ∃ cs, tw_calls w' = tw_calls w ++ cs ∧
        Forall (λ c, ∀ m, trained_model c = Some m → m = tn_learner_model (tw_t w)) cs.

(** ** Lemmas *)

Ltac tw_run := unfold record, set_tuner, alloc in *; pym_unfold; simpl.

Lemma split_ws_fit_args : split_ws "epochs,lr,cbs" = ["epochs,lr,cbs"].
Proof. reflexivity. Qed.

(** The loop pops the single key ['epochs,lr,cbs']. *)
Lemma pop_fit_args_delete kw : pop_fit_args kw = delete "epochs,lr,cbs" kw.
Proof.
  unfold pop_fit_args. rewrite split_ws_fit_args. simpl.
  case_decide as Hk; [done|]. symmetry. apply delete_id. by apply eq_None_not_Some.
Qed.

Lemma pop_fit_args_cbs kw : pop_fit_args kw !! "cbs" = kw !! "cbs".
Proof. rewrite pop_fit_args_delete. by rewrite lookup_delete_ne. Qed.

Lemma load_run p w :
  hub p = true →
  load p w = (mkTW (mkTuner (Some (S (tw_next w))) (tn_learner_model (tw_t w))
                            (tn_learner_label_keys (tw_t w)) (tn_dls (tw_t w)) (tw_next w)
                            (tn_mro (tw_t w)))
                   (tw_calls w ++ [LoadModel p (tw_next w); LoadTok p (S (tw_next w))])
                   (S (S (tw_next w))), Ok ()).
Proof. intros Hp. unfold load, from_pretrained. tw_run. rewrite Hp. simpl. by rewrite <- app_assoc. Qed.

(** A fitting method of the learner: no property or instance attribute of
    the learner shadows it. *)
Lemma getattr_learner_fits t s :
  learner_fits s = true → learner_data s = false → learner_inst s = false →
  getattr_learner t s = FoundClass KLearner.
Proof. intros Hf Hd Hi. unfold getattr_learner. by rewrite Hd, Hi, Hf. Qed.

Lemma tune_fit_run epochs lr s cbs kw w :
  getattr_self (tw_t w) s = NotFound → getattr_learner (tw_t w) s = FoundClass KLearner →
  kw !! "cbs" = None →
  tune epochs lr s cbs kw w =
    (mkTW (tw_t w) (tw_calls w ++ [Fit s (tn_learner_model (tw_t w)) epochs lr cbs (delete "epochs,lr,cbs" kw)])
          (tw_next w), Ok ()).
Proof.
  intros Hs Hf Hc. unfold tune. tw_run. rewrite pop_fit_args_cbs, Hc, Hs, Hf. simpl.
  by rewrite pop_fit_args_delete.
Qed.

(** [__init__] either raises before building the tuner or builds it on
    the learner's model, with the class [init_mro] gives. *)
Lemma AdaptiveTuner_init_Ok e tok keys kw t :
  AdaptiveTuner_init e tok keys kw = Ok t →
  tn_mro t = init_mro e kw ∧ lk_model kw = Some (tn_model t) ∧ tn_model t = tn_learner_model t.
Proof.
  unfold AdaptiveTuner_init, mbind, result_bind.
  destruct (match keys with Some _ => _ | None => _ end); [|done].
  destruct (lk_dls kw), (lk_model kw); try done. case_match; by intros; simplify_eq.
Qed.

(** [load] changes [self.model], which the [GetAttr] fallback reads. *)
Lemma getattr_self_set_model t t' s :
  tn_mro t' = tn_mro t → getattr_self t s = NotFound → model_has (tn_model t') s = false →
  getattr_self t' s = NotFound.
Proof.
  unfold getattr_self. intros -> Hs Hm. destruct (list_find _ _) as [[? k]|]; [by repeat case_match|].
  rewrite Hm, andb_false_r. by case_bool_decide; [|destruct (_ && _)].
Qed.

Lemma tune_call_run epochs lr s cbs kw w :
  kw !! "cbs" = None → getattr_self (tw_t w) s ≠ NotFound →
  tune epochs lr s cbs kw w =
    call_self (getattr_self (tw_t w) s) s epochs lr cbs (delete "epochs,lr,cbs" kw) w.
Proof.
  intros Hc Hf. unfold tune. tw_run. rewrite pop_fit_args_cbs, Hc, pop_fit_args_delete. simpl.
  by destruct (getattr_self (tw_t w) s).
Qed.

(** A learner method that no instance attribute, keyword argument or
    method of the tuner shadows is found on the tuner only when
    [expose_fastai] rebuilt its class. *)
Lemma getattr_self_learner e tok keys kw t s :
  AdaptiveTuner_init e tok keys kw = Ok t →
  learner_fits s = true → learner_data s = false →
  s ∉ instance_attrs → s ∉ tuner_methods → s ∉ lk_names kw →
  getattr_self t s = if e then FoundClass KLearner else NotFound.
Proof.
  intros (Hmro & _)%AdaptiveTuner_init_Ok Hf Hd Hi Ht Hk. unfold getattr_self. rewrite Hmro.
  unfold init_mro, class_has, class_data.
  destruct e; simpl; rewrite ?Hf, ?Hd; repeat (case_decide || case_bool_decide); simplify_eq/=; done.
Qed.

(** *** Sessions keep the learner's model *)

#[local] Instance learner_frame_preorder : PreOrder learner_frame.
Proof.
  split.
  - intros w. split; [done|]. exists []. by rewrite app_nil_r.
  - intros w1 w2 w3 [H12 (cs1 & Hc1 & Hf1)] [H23 (cs2 & Hc2 & Hf2)]. split; [congruence|].
    exists (cs1 ++ cs2). split; [by rewrite Hc2, Hc1, app_assoc|].
    apply Forall_app. split; [done|]. by rewrite <- H12.
Qed.

Lemma record_frame c w :
  (∀ m, trained_model c = Some m → m = tn_learner_model (tw_t w)) → learner_frame w (record c w).1.
Proof. intros Hc. split; [done|]. exists [c]. split; [done|]. by constructor. Qed.

Lemma set_tuner_frame t w :
  tn_learner_model t = tn_learner_model (tw_t w) → learner_frame w (set_tuner t w).1.
Proof. intros Ht. split; [done|]. exists []. split; [by rewrite app_nil_r|done]. Qed.

Lemma alloc_frame w : learner_frame w (alloc w).1.
Proof. split; [done|]. exists []. split; [by rewrite app_nil_r|done]. Qed.

(** Statements that leave the store as it was. *)
Lemma same_frame w w' : w' = w → learner_frame w w'.
Proof. intros ->. reflexivity. Qed.

Ltac frame_step :=
  lazymatch goal with
  | |- learner_frame _ ((_ ≫= _) _).1 => apply pym_bind_pres; [apply _|..]
  | |- learner_frame _ (record _ _).1 => apply record_frame
  | |- learner_frame _ (set_tuner _ _).1 => apply set_tuner_frame
  | |- learner_frame _ (alloc _).1 => apply alloc_frame
  | |- learner_frame _ (gets _ _).1 => apply same_frame; reflexivity
  | |- learner_frame _ (mret _ _).1 => apply same_frame; reflexivity
  | |- learner_frame _ (throw _ _).1 => apply same_frame; reflexivity
  | |- ∀ _ _, gets _ _ = (_, Ok _) → _ => intros ? ? [= <- <-]
  | |- ∀ _ _, _ = (_, Ok _) → _ => intros ? ? ?
  | |- learner_frame _ _ => first [apply same_frame; reflexivity|apply record_frame]
  end.

Lemma from_pretrained_frame p (mk : string → nat → call) w :
  (∀ n, trained_model (mk p n) = None) → learner_frame w (from_pretrained p mk w).1.
Proof.
  intros Hmk. unfold from_pretrained. destruct (hub p); repeat frame_step.
  intros m. by rewrite Hmk.
Qed.

Section Session.
Hypothesis call_self_frame : ∀ f s e lr cbs kw w, learner_frame w (call_self f s e lr cbs kw w).1.
Hypothesis call_learner_frame : ∀ f s e lr cbs kw w, learner_frame w (call_learner f s e lr cbs kw w).1.

Lemma run_op_frame o w : learner_frame w (run_op o w).1.
Proof.
  destruct o as [e lr s cbs kw|q|d|p|x|d]; simpl.
  - unfold tune. repeat frame_step. case_decide; [frame_step|].
    destruct (getattr_self _ s); [apply call_self_frame..|].
    destruct (getattr_learner _ s); try apply call_learner_frame; repeat frame_step.
    by intros m [= ->].
  - unfold lr_find. repeat frame_step. by intros m [= ->].
  - unfold save. case_bool_decide; repeat frame_step; [done|].
    destruct (tn_tokenizer _); repeat frame_step; done.
  - unfold load. repeat frame_step.
    all: done || by apply from_pretrained_frame.
  - unfold predict. frame_step.
  - unfold export. frame_step.
Qed.

(** C11: invariant of every session: in any script of calls on a tuner
    ([tune], [lr_find], [save], [load], [predict], [export]), whether it
    completes or stops at an exception, the learner's model object is
    never replaced, the calls are only appended to, and every fit and
    every learning-rate search recorded trains the model the learner had
    at the start, whatever [load] rebinds [self.model] to; the methods
    [tune] finds on the tuner itself are assumed to do the same. *)
Theorem session_trains_learner_model os w : learner_frame w (run_ops os w).1.
Proof.
  revert w; induction os as [|o os IH]; intros w; simpl; repeat frame_step.
  - apply run_op_frame.
  - apply IH.
Qed.

End Session.

(** ** Properties *)

(** C20: ['epochs,lr,cbs'.split()] splits on whitespace, so the loop meant
    to drop [epochs], [lr] and [cbs] from the keyword arguments pops none
    of them: a [cbs] keyword makes [tune] raise [TypeError] for the
    duplicate keyword, before any fitting, whatever the strategy. *)
Theorem tune_cbs_kwarg epochs lr s cbs kw v w :
  kw !! "cbs" = Some v →
  tune epochs lr s cbs kw w =
    (w, Err (PyExn TypeError (s +:+ "() got multiple values for keyword argument 'cbs'"))).
Proof. intros Hc. unfold tune. tw_run. rewrite pop_fit_args_cbs, Hc. simpl. by destruct w. Qed.

(** C19: [tune] looks the strategy up by name, on the tuner and then on
    the learner, and calls what it finds with the [lr] it was given: a
    fitting method of the learner runs on the learner's model with [lr]
    unchanged (with [lr=None] no learning-rate search is run first), any
    such method is accepted, not only the three of [Strategy], and a name
    neither has raises [TypeError] from calling [None]. *)
Theorem tune_strategy epochs lr s cbs kw w :
  getattr_self (tw_t w) s = NotFound → kw !! "cbs" = None →
  learner_data s = false → learner_inst s = false →
  tune epochs lr s cbs kw w =
    if learner_fits s then
      (mkTW (tw_t w) (tw_calls w ++ [Fit s (tn_learner_model (tw_t w)) epochs lr cbs (delete "epochs,lr,cbs" kw)])
            (tw_next w), Ok ())
    else if getattr_filter s && model_has (tn_learner_model (tw_t w)) s then
      call_learner (FoundModel (tn_learner_model (tw_t w))) s epochs lr cbs (delete "epochs,lr,cbs" kw) w
    else (w, Err (PyExn TypeError "'NoneType' object is not callable")).
Proof.
  intros Hs Hc Hd Hi. destruct (learner_fits s) eqn:Hf; [by apply tune_fit_run; [done|by apply getattr_learner_fits|done]|].
  unfold tune. tw_run. rewrite pop_fit_args_cbs, Hc, Hs. unfold getattr_learner. rewrite Hd, Hi, Hf.
  simpl. rewrite pop_fit_args_delete. destruct (_ && _); [done|by destruct w].
Qed.

(** C22: attribute lookup on a tuner that [__init__] built: with
    [expose_fastai], a property of the learner's class that neither the
    rebuilt namespace nor the tuner's methods shadow comes first (so
    [self.metrics] runs [Learner.metrics], not the copy [__init__] made);
    then an instance attribute, then, with [expose_fastai], the names of
    the learner's keyword arguments (the namespace of the rebuilt class),
    then the tuner's own methods, then, with [expose_fastai] only, every
    name the learner's class answers and, through [GetAttr], every public
    attribute of the model. *)
Theorem getattr_self_init e tok keys kw t s :
  AdaptiveTuner_init e tok keys kw = Ok t →
  getattr_self t s =
    if e && learner_data s && bool_decide (s ∉ lk_names kw) && bool_decide (s ∉ tuner_methods)
    then FoundData KLearner
    else if bool_decide (s ∈ instance_attrs) then FoundInst
    else if e && bool_decide (s ∈ lk_names kw) then FoundClass (KRebuilt (lk_names kw))
    else if bool_decide (s ∈ tuner_methods) then FoundClass KTuner
    else if e && learner_fits s then FoundClass KLearner
    else if e && getattr_filter s && model_has (tn_model t) s then FoundModel (tn_model t)
    else NotFound.
Proof.
  intros (Hmro & _)%AdaptiveTuner_init_Ok. unfold getattr_self. rewrite Hmro.
  unfold init_mro, class_has, class_data.
  destruct e; simpl; [|by repeat case_bool_decide].
  destruct (learner_fits s), (learner_data s); simpl; repeat case_bool_decide; simpl;
    set_solver.
Qed.

(** C21: [expose_fastai] changes the object a fitting strategy runs on:
    without it, [tune] calls the method of the learner [self._tuner], on the
    learner's model; with it, [getattr(self, strategy)] finds the learner's
    method through the rebuilt class and calls it bound to the tuner itself,
    and the learner is not called. *)
Theorem tune_expose_fastai e tok keys kw t s epochs lr cbs kwa w :
  AdaptiveTuner_init e tok keys kw = Ok t → tw_t w = t →
  learner_fits s = true → learner_data s = false → learner_inst s = false →
  s ∉ instance_attrs → s ∉ tuner_methods → s ∉ lk_names kw →
  kwa !! "cbs" = None →
  tune epochs lr s cbs kwa w =
    if e then call_self (FoundClass KLearner) s epochs lr cbs (delete "epochs,lr,cbs" kwa) w
    else (mkTW t (tw_calls w ++ [Fit s (tn_learner_model t) epochs lr cbs (delete "epochs,lr,cbs" kwa)])
               (tw_next w), Ok ()).
Proof.
  intros Hinit <- Hf Hd Hli Hi Ht Hk Hc.
  pose proof (getattr_self_learner _ _ _ _ _ s Hinit Hf Hd Hi Ht Hk) as Hg.
  destruct e; [rewrite tune_call_run, Hg; [done|done|by rewrite Hg]|].
  apply tune_fit_run; [done|by apply getattr_learner_fits|done].
Qed.

(** C10: [load] rebinds [self.model] to the loaded module but leaves the
    learner's model, which [tune] trains, as it was: after [load], [tune]
    fits the old module and [save] writes the newly loaded one. *)
Theorem load_detaches_model p w epochs lr s cbs kw d :
  hub p = true → rank_distrib = 0 → getattr_self (tw_t w) s = NotFound → model_has (tw_next w) s = false →
  learner_fits s = true → learner_data s = false → learner_inst s = false → kw !! "cbs" = None →
  tn_learner_model (tw_t w) < tw_next w →
  ∃ w1 w2 w3,
    load p w = (w1, Ok ()) ∧ tune epochs lr s cbs kw w1 = (w2, Ok ()) ∧ save d w2 = (w3, Ok (Some d)) ∧
    tw_calls w3 = tw_calls w ++
      [LoadModel p (tw_next w); LoadTok p (S (tw_next w));
       Fit s (tn_learner_model (tw_t w)) epochs lr cbs (delete "epochs,lr,cbs" kw);
       SaveModel (tw_next w) d; SaveTok (S (tw_next w)) d] ∧
    tn_learner_model (tw_t w) ≠ tw_next w.
Proof.
  intros Hp Hr Hs Hm Hf Hd Hi Hc Hlt. eexists _, _, _. split_and!.
  - by apply load_run.
  - apply tune_fit_run; [by apply (getattr_self_set_model (tw_t w))|by apply getattr_learner_fits|done].
  - unfold save. tw_run. rewrite Hr. simpl. reflexivity.
  - simpl. by rewrite <- !app_assoc.
  - lia.
Qed.

(** C32: on the primary process, [save] without a tokenizer writes the
    model's weights and then raises [AttributeError]; on another process it
    does nothing and returns [None]. *)
Theorem save_no_tokenizer d w :
  tn_tokenizer (tw_t w) = None →
  save d w =
    if bool_decide (rank_distrib = 0) then
      (mkTW (tw_t w) (tw_calls w ++ [SaveModel (tn_model (tw_t w)) d]) (tw_next w),
       Err (PyExn AttributeError "'NoneType' object has no attribute 'save_pretrained'"))
    else (w, Ok None).
Proof.
  intros Ht. unfold save. tw_run.
  destruct (decide (rank_distrib = 0)) as [Hr|Hr].
  - rewrite (bool_decide_false (rank_distrib ≠ 0)), (bool_decide_true (rank_distrib = 0)) by lia.
    simpl. by rewrite Ht.
  - rewrite (bool_decide_true (rank_distrib ≠ 0)), (bool_decide_false (rank_distrib = 0)) by lia.
    by destruct w.
Qed.

(** C34: [__init__] on a loader bundle whose training set carries no
    loss function (a HuggingFace dataset) and without a [loss_func]
    keyword raises fastai's [AssertionError] once the label keys are
    found: the [loss_func] is not optional, though the signature does not
    ask for it. *)
Theorem AdaptiveTuner_init_no_loss e tok keys kw d m :
  lk_dls kw = Some d → lk_model kw = Some m → lk_loss_func kw = None → dls_train_loss d = false →
  keys ≠ None ∨ dls_label_keys d ≠ None →
  AdaptiveTuner_init e tok keys kw =
    Err (PyExn AssertionError "Could not infer loss function from the data, please pass a loss function.").
Proof.
  intros Hd Hm Hl Ht Hk. unfold AdaptiveTuner_init. rewrite Hd, Hm, Hl, Ht.
  destruct keys; [done|]. destruct (dls_label_keys d); [done|]. by destruct Hk.
Qed.

End Facade.

End Tune.

(** ** Witnesses *)

Local Open Scope string_scope.

(** A method bound to the tuner or the learner that raises: what it does
    is not modelled. *)
Definition bound_fails (f : Tune.found) (s : string) : Tune.method :=
  λ _ _ _ _, throw (PyExn AttributeError s).
(** A few names of fastai's [Learner]: fitting methods, its property
    [metrics], the attributes [Learner.__init__] sets; and a few attributes
    of a HuggingFace model. *)
Definition fastai_fits (s : string) : bool :=
  bool_decide (s ∈ ["fit"; "fit_one_cycle"; "fit_flat_cos"; "fit_sgdr"; "fine_tune"]).
Definition fastai_props (s : string) : bool := bool_decide (s = "metrics").
Definition fastai_inst (s : string) : bool :=
  bool_decide (s ∈ ["dls"; "model"; "loss_func"; "opt_func"; "lr"; "splitter"; "path"; "wd"; "cbs"]).
Definition hf_model_has (m : nat) (s : string) : bool :=
  bool_decide (s ∈ ["config"; "forward"; "save_pretrained"; "to"; "train"; "eval"]).
Definition local_hub (p : string) : bool := bool_decide (p = "models/best").

Local Notation tune_w := (Tune.tune fastai_fits fastai_props fastai_inst hf_model_has bound_fails bound_fails).
Local Notation getattr_w := (Tune.getattr_self fastai_fits fastai_props hf_model_has).

(** The learner's arguments: a [dls] without [label_keys] over a dataset
    without a loss, the model (object 0) and a [loss_func] (object 9). *)
Definition kw0 : Tune.learner_kwargs := Tune.mkLK (Some (Tune.mkDls None false)) (Some 0) (Some 9) [].

Definition tuner_of (e : bool) : Tune.tuner :=
  match Tune.AdaptiveTuner_init e None (Some ["labels"]) kw0 with
  | Ok t => t
  | Err _ => Tune.mkTuner None 0 [] (Tune.mkDls None false) 0 []
  end.

(** Tuners built with no tokenizer, without and with [expose_fastai]. *)
Definition tuner0 : Tune.tuner := tuner_of false.
Definition world0 : Tune.tw := Tune.mkTW tuner0 [] 1.
Definition world_exposed : Tune.tw := Tune.mkTW (tuner_of true) [] 1.

Definition cbs_kw : kwargs := <["cbs" := PyList []]> ∅.

(** A script: load a checkpoint, fine-tune, save. *)
Definition script0 : list Tune.op :=
  [Tune.OLoad "models/best"; Tune.OTune 3 None Strategy.OneCycle [] ∅; Tune.OSave "out"].

Lemma tune_cbs_kwarg_witness :
  tune_w 3 None Strategy.OneCycle [] cbs_kw world0 =
    (world0, Err (PyExn TypeError "fit_one_cycle() got multiple values for keyword argument 'cbs'")).
Proof.
  exact (Tune.tune_cbs_kwarg fastai_fits fastai_props fastai_inst hf_model_has bound_fails bound_fails
           3 None Strategy.OneCycle [] cbs_kw (PyList []) world0 eq_refl).
Defined.

Lemma tune_strategy_witness :
  tune_w 3 None "fit" [] ∅ world0 = (Tune.mkTW tuner0 [Fit "fit" 0 3 None [] ∅] 1, Ok ()) ∧
  tune_w 3 None "OneCycle" [] ∅ world0 = (world0, Err (PyExn TypeError "'NoneType' object is not callable")) ∧
  tune_w 3 None "train" [] ∅ world0 = (world0, Err (PyExn AttributeError "train")).
Proof. split_and!; rewrite Tune.tune_strategy; reflexivity. Defined.

(** The copy of [metrics] is shadowed by [Learner.metrics] once the class is
    rebuilt; the model's [config] is reached through [GetAttr]. *)
Lemma getattr_self_init_witness :
  getattr_w (tuner_of true) "fit_one_cycle" = Tune.FoundClass Tune.KLearner ∧
  getattr_w (tuner_of true) "metrics" = Tune.FoundData Tune.KLearner ∧
  getattr_w (tuner_of false) "metrics" = Tune.FoundInst ∧
  getattr_w (tuner_of true) "loss_func" = Tune.FoundInst ∧
  getattr_w (tuner_of true) "save" = Tune.FoundClass Tune.KTuner ∧
  getattr_w (tuner_of true) "config" = Tune.FoundModel 0 ∧
  getattr_w (tuner_of false) "config" = Tune.NotFound ∧
  getattr_w (tuner_of false) "fit_one_cycle" = Tune.NotFound.
Proof.
  split_and!;
    first [rewrite (Tune.getattr_self_init fastai_fits fastai_props hf_model_has true None (Some ["labels"])
                      kw0 (tuner_of true))
          |rewrite (Tune.getattr_self_init fastai_fits fastai_props hf_model_has false None (Some ["labels"])
                      kw0 (tuner_of false))];
    vm_compute; reflexivity.
Defined.

Lemma tune_expose_fastai_witness :
  tune_w 3 None Strategy.OneCycle [] ∅ world_exposed =
    (world_exposed, Err (PyExn AttributeError "fit_one_cycle")) ∧
  tune_w 3 None Strategy.OneCycle [] ∅ world0 =
    (Tune.mkTW tuner0 [Fit "fit_one_cycle" 0 3 None [] ∅] 1, Ok ()).
Proof.
  split;
    [rewrite (Tune.tune_expose_fastai fastai_fits fastai_props fastai_inst hf_model_has bound_fails bound_fails
                true None (Some ["labels"]) kw0 (tuner_of true))
    |rewrite (Tune.tune_expose_fastai fastai_fits fastai_props fastai_inst hf_model_has bound_fails bound_fails
                false None (Some ["labels"]) kw0 tuner0)];
    first [reflexivity|py_decide].
Defined.

Lemma load_detaches_model_witness :
  ∃ w1 w2 w3,
    Tune.load local_hub "models/best" world0 = (w1, Ok ()) ∧
    tune_w 3 None Strategy.OneCycle [] ∅ w1 = (w2, Ok ()) ∧
    Tune.save 0 "out" w2 = (w3, Ok (Some "out")) ∧
    Tune.tw_calls w3 = [LoadModel "models/best" 1; LoadTok "models/best" 2;
                        Fit "fit_one_cycle" 0 3 None [] ∅; SaveModel 1 "out"; SaveTok 2 "out"] ∧
    0 ≠ 1.
Proof.
  exact (Tune.load_detaches_model fastai_fits fastai_props fastai_inst hf_model_has bound_fails bound_fails
           local_hub 0 "models/best" world0 3 None Strategy.OneCycle [] ∅ "out"
           eq_refl eq_refl eq_refl eq_refl eq_refl eq_refl eq_refl eq_refl ltac:(simpl; lia)).
Defined.

Lemma save_no_tokenizer_witness :
  Tune.save 0 "out" world0 =
    (Tune.mkTW tuner0 [SaveModel 0 "out"] 1,
     Err (PyExn AttributeError "'NoneType' object has no attribute 'save_pretrained'")).
Proof. rewrite Tune.save_no_tokenizer; reflexivity. Defined.

Lemma AdaptiveTuner_init_no_loss_witness :
  Tune.AdaptiveTuner_init true None (Some ["labels"]) (Tune.mkLK (Some (Tune.mkDls None false)) (Some 0) None []) =
    Err (PyExn AssertionError "Could not infer loss function from the data, please pass a loss function.").
Proof. apply (Tune.AdaptiveTuner_init_no_loss _ _ _ _ (Tune.mkDls None false) 0); try done. by left. Defined.

Lemma session_trains_learner_model_witness :
  Tune.learner_frame world0
    (Tune.run_ops fastai_fits fastai_props fastai_inst hf_model_has bound_fails bound_fails local_hub 0
       script0 world0).1 ∧
  Tune.tw_calls (Tune.run_ops fastai_fits fastai_props fastai_inst hf_model_has bound_fails bound_fails
                   local_hub 0 script0 world0).1 =
    [LoadModel "models/best" 1; LoadTok "models/best" 2;
     Fit "fit_one_cycle" 0 3 None [] ∅; SaveModel 1 "out"; SaveTok 2 "out"].
Proof.
  split; [|reflexivity].
  apply (Tune.session_trains_learner_model fastai_fits fastai_props fastai_inst hf_model_has
           bound_fails bound_fails local_hub 0); intros; apply Tune.same_frame; reflexivity.
Defined.
